(** * WakaTime plugin for OpenCode: a shallow embedding and its properties

    The repository holds the tracker twice: as modules ([options.ts],
    [dependencies.ts], [tracker.ts], [adapter.ts]) and as one bundled plugin
    file ([.opencode/plugin/wakatime.ts]).  Both are embedded here, the
    modules in [Module Tracker], the bundle in [Module Bundled], over a
    common model of JavaScript strings, values and [Map]s and of the
    [FileSystemAdapter] the code is written against. *)

From Stdlib Require Import ZArith List String Ascii Bool Lia DecimalString.
From Stdlib Require PrimFloat Uint63.
Import ListNotations.

Open Scope string_scope.
Open Scope list_scope.

(* ===================================================================== *)
(** * JavaScript strings

    A string is the sequence of its UTF-16 code units; [ascii] holds the
    code units below 256, and strings with other code units are left
    out. *)
(* ===================================================================== *)

Module Js.

(** [WhiteSpace] and [LineTerminator] code units below 256: TAB, LF, VT, FF,
    CR, SP and NBSP.  These are what [String.prototype.trim] strips. *)
Definition isWhiteSpace (c : ascii) : bool :=
  let n := nat_of_ascii c in
  ((9 <=? n) && (n <=? 13) || (n =? 32) || (n =? 160))%nat.

Fixpoint trimStart (s : string) : string :=
  match s with
  | EmptyString => EmptyString
  | String c r => if isWhiteSpace c then trimStart r else s
  end.

Fixpoint trimEnd (s : string) : string :=
  match s with
  | EmptyString => EmptyString
  | String c r =>
      match trimEnd r with
      | EmptyString => if isWhiteSpace c then EmptyString else String c EmptyString
      | r' => String c r'
      end
  end.

(** [s.trim()] *)
Definition trim (s : string) : string := trimEnd (trimStart s).

(** [s.split(sep)] for a separator of one code unit.  The result is never
    empty: [''.split('=')] is [['']]. *)
Fixpoint split (sep : ascii) (s : string) : list string :=
  match s with
  | EmptyString => [EmptyString]
  | String c r =>
      if Ascii.eqb c sep then EmptyString :: split sep r
      else match split sep r with
           | [] => [String c EmptyString]
           | h :: t => String c h :: t
           end
  end.

(** The code units below 256 that [toLowerCase] changes: A-Z and the
    capital letters of Latin-1 (U+00C0-U+00D6 and U+00D8-U+00DE). *)
Definition isUpper (c : ascii) : bool :=
  let n := nat_of_ascii c in
  ((65 <=? n) && (n <=? 90) || (192 <=? n) && (n <=? 214)
   || (216 <=? n) && (n <=? 222))%nat.

(** Their small letters stand 32 code units higher. *)
Definition lowerChar (c : ascii) : ascii :=
  if isUpper c then ascii_of_nat (nat_of_ascii c + 32) else c.

(** [s.toLowerCase()], on code units below 256. *)
Fixpoint toLowerCase (s : string) : string :=
  match s with
  | EmptyString => EmptyString
  | String c r => String (lowerChar c) (toLowerCase r)
  end.

(** [s] has a capital letter. *)
Fixpoint hasUpper (s : string) : bool :=
  match s with
  | EmptyString => false
  | String c r => isUpper c || hasUpper r
  end.

Definition clamp (lo hi x : Z) : Z := Z.max lo (Z.min hi x).

(** [s.substring(a, b)]: both indices are clamped to [0, length] and
    swapped when [a > b]. *)
Definition substring (s : string) (a b : Z) : string :=
  let len := Z.of_nat (String.length s) in
  let a' := clamp 0 len a in
  let b' := clamp 0 len b in
  let from := Z.min a' b' in
  let to := Z.max a' b' in
  String.substring (Z.to_nat from) (Z.to_nat (to - from)) s.

(** [s.slice(a, b)], [b] absent meaning the length: a negative index counts
    from the end, and an empty range gives the empty string. *)
Definition slice (s : string) (a : Z) (b : option Z) : string :=
  let len := Z.of_nat (String.length s) in
  let rel i := if (i <? 0)%Z then Z.max (len + i) 0 else Z.min i len in
  let from := rel a in
  let to := match b with Some e => rel e | None => len end in
  String.substring (Z.to_nat from) (Z.to_nat (Z.max (to - from) 0)) s.

(** [s.startsWith(p)] *)
Definition startsWith (s p : string) : bool := String.prefix p s.

(** [s.endsWith(p)] *)
Definition endsWith (s p : string) : bool :=
  let n := String.length s in
  let k := String.length p in
  (k <=? n)%nat && String.eqb (String.substring (n - k) k s) p.

(** Truthiness of a string: every string but the empty one. *)
Definition truthy (s : string) : bool := negb (String.eqb s EmptyString).

(** Truthiness of a [string | undefined]. *)
Definition truthyOpt (o : option string) : bool :=
  match o with
  | Some s => truthy s
  | None => false
  end.

(** ** Values of type [any] *)

#[local] Set Warnings "-register-all".

Inductive Value : Type :=
| VUndefined
| VNull
| VBool (b : bool)
| VNum (n : Z)
| VStr (s : string)
| VObj (fields : list (string * Value)).

Definition truthyV (v : Value) : bool :=
  match v with
  | VUndefined | VNull => false
  | VBool b => b
  | VNum n => negb (n =? 0)%Z
  | VStr s => truthy s
  | VObj _ => true
  end.

Fixpoint field (fs : list (string * Value)) (k : string) : Value :=
  match fs with
  | [] => VUndefined
  | (k', v) :: r => if String.eqb k' k then v else field r k
  end.

(** ** [Map<string, V>]: the entries in insertion order *)

Definition Map (V : Type) : Type := list (string * V).

Fixpoint map_get {V} (m : Map V) (k : string) : option V :=
  match m with
  | [] => None
  | (k', v) :: r => if String.eqb k' k then Some v else map_get r k
  end.

(** [m.set(k, v)]: an existing key keeps its place, a new key goes last. *)
Fixpoint map_set {V} (m : Map V) (k : string) (v : V) : Map V :=
  match m with
  | [] => [(k, v)]
  | (k', v') :: r =>
      if String.eqb k' k then (k', v) :: r else (k', v') :: map_set r k v
  end.

Definition keys {V} (m : Map V) : list string := List.map fst m.

End Js.

(* ===================================================================== *)
(** * The host: adapter, clock, Node library, logger, and the monad of
      method bodies *)
(* ===================================================================== *)

Module Host.

(** What a rejected promise or a [throw] carries. *)
Inductive JsError : Type :=
| TypeError (what : string)
| Rejected (why : string).

(** [FileSystemAdapter] (adapter.ts) together with [Date.now()].

    [exists] resolves to a boolean; [fs_existsOther] is its answer when it
    is handed a value that is not a string, which [trackToolUsage] of
    tracker.ts can do.  A rejected [readFile] is [None], a rejected [exec]
    is [inl].  [clock n] is the value, in milliseconds, of the [n]-th call
    of [Date.now()] since the process started. *)
Record World : Type := mkWorld {
  fs_exists : string -> bool;
  fs_existsOther : Js.Value -> bool;
  fs_readFile : string -> option string;
  proc_exec : string -> list string -> option (list (string * string)) ->
              JsError + (string * string);
  os_homedir : string;
  clock : nat -> Z
}.

(** The functions of Node's [path] module and of the language that the
    code calls and that are not part of the repository.
    [String_of_seconds ms] is [String(ms / 1000)]. *)
Record Node : Type := mkNode {
  path_isAbsolute : string -> bool;
  path_join : list string -> string;
  String_of_seconds : Z -> string
}.

(** [enum LogLevel { DEBUG = 0, INFO, WARN, ERROR }] *)
Inductive LogLevel : Type := DEBUG | INFO | WARN | ERROR.

Definition rank (l : LogLevel) : nat :=
  match l with DEBUG => 0 | INFO => 1 | WARN => 2 | ERROR => 3 end.

(** A template literal: its text and its interpolated values. *)
Inductive LogPart : Type :=
| Txt (s : string)
| Num (n : Z)
| Err (e : JsError).

(** What a method does to the outside, in order. *)
Inductive Event : Type :=
| EvExists (p : string)
| EvExistsOther (v : Js.Value)
| EvReadFile (p : string)
| EvExec (cmd : string) (args : list string)
         (env : option (list (string * string)))
| EvConsole (l : LogLevel) (msg : list LogPart).

(** The [exec] calls of a trace. *)
Fixpoint execs (tr : list Event)
  : list (string * list string * option (list (string * string))) :=
  match tr with
  | [] => []
  | EvExec c a e :: r => (c, a, e) :: execs r
  | _ :: r => execs r
  end.

(** The existence checks of a trace. *)
Fixpoint checks (tr : list Event) : list string :=
  match tr with
  | [] => []
  | EvExists p :: r => p :: checks r
  | _ :: r => checks r
  end.

(** An object of class [T] in its process: the object's fields, the level
    of the one [logger], and the number of [Date.now()] calls so far. *)
Record Machine (T : Type) : Type := mkMachine {
  self : T;
  logLevel : LogLevel;
  ticks : nat
}.
Arguments mkMachine {T} _ _ _.
Arguments self {T} _.
Arguments logLevel {T} _.
Arguments ticks {T} _.

(** A method body: from the machine before to the outcome (an error thrown
    or a value returned), the machine after and the events in between. *)
Definition M (T A : Type) : Type :=
  Machine T -> (JsError + A) * Machine T * list Event.

(** The three parts of a run. *)
Definition outcome {T A} (x : (JsError + A) * Machine T * list Event) : JsError + A :=
  fst (fst x).

Definition after {T A} (x : (JsError + A) * Machine T * list Event) : Machine T :=
  snd (fst x).

Definition events {T A} (x : (JsError + A) * Machine T * list Event) : list Event :=
  snd x.

Definition ret {T A} (a : A) : M T A := fun m => (inr a, m, []).

Definition bind {T A B} (c : M T A) (k : A -> M T B) : M T B :=
  fun m =>
    match c m with
    | (inl e, m1, ev1) => (inl e, m1, ev1)
    | (inr a, m1, ev1) =>
        match k a m1 with
        | (r, m2, ev2) => (r, m2, ev1 ++ ev2)
        end
    end.

Definition throw {T A} (e : JsError) : M T A := fun m => (inl e, m, []).

(** [try { c } catch (e) { h e }]: what [c] did before it threw stays. *)
Definition try_catch {T A} (c : M T A) (h : JsError -> M T A) : M T A :=
  fun m =>
    match c m with
    | (inl e, m1, ev1) =>
        match h e m1 with
        | (r, m2, ev2) => (r, m2, ev1 ++ ev2)
        end
    | done => done
    end.

Definition gets {T A} (f : T -> A) : M T A := fun m => (inr (f (self m)), m, []).

Definition modify {T} (f : T -> T) : M T unit :=
  fun m => (inr tt, mkMachine (f (self m)) (logLevel m) (ticks m), []).

Definition emit {T} (e : Event) : M T unit := fun m => (inr tt, m, [e]).

(** A method of a field object [U] called from a method of [T]. *)
Definition zoom {T U A} (get : T -> U) (set : U -> T -> T) (c : M U A) : M T A :=
  fun m =>
    match c (mkMachine (get (self m)) (logLevel m) (ticks m)) with
    | (r, m1, ev) =>
        (r, mkMachine (set (self m1) (self m)) (logLevel m1) (ticks m1), ev)
    end.

Module Notations.
Declare Scope js_scope.
Delimit Scope js_scope with js.
Notation "x <- c ;; k" := (bind c (fun x => k))
  (at level 61, c at next level, right associativity) : js_scope.
Notation "c ;; k" := (bind c (fun _ => k))
  (at level 61, right associativity) : js_scope.
End Notations.
Import Notations.
Open Scope js_scope.

(** [for (const x of xs) { await body(x) }] *)
Fixpoint for_of {T X} (xs : list X) (body : X -> M T unit) : M T unit :=
  match xs with
  | [] => ret tt
  | x :: r => body x ;; for_of r body
  end.

Section Effects.
Variable w : World.
Context {T : Type}.

(** [await adapter.exists(p)] *)
Definition exists_ (p : string) : M T bool :=
  emit (EvExists p) ;; ret (fs_exists w p).

(** [await adapter.exists(v)] for a [v] that is not a string. *)
Definition existsOther (v : Js.Value) : M T bool :=
  emit (EvExistsOther v) ;; ret (fs_existsOther w v).

(** [await adapter.readFile(p)] *)
Definition readFile (p : string) : M T string :=
  emit (EvReadFile p) ;;
  match fs_readFile w p with
  | Some s => ret s
  | None => throw (Rejected "readFile")
  end.

(** [await adapter.exec(cmd, args, env)] *)
Definition exec (cmd : string) (args : list string)
           (env : option (list (string * string))) : M T (string * string) :=
  emit (EvExec cmd args env) ;;
  match proc_exec w cmd args env with
  | inr r => ret r
  | inl e => throw e
  end.

(** [Date.now()], in milliseconds. *)
Definition Date_now : M T Z :=
  fun m => (inr (clock w (ticks m)),
            mkMachine (self m) (logLevel m) (S (ticks m)), []).

End Effects.

(** ** [class Logger] *)

Definition setLevel {T} (l : LogLevel) : M T unit :=
  fun m => (inr tt, mkMachine (self m) l (ticks m), []).

(** [debug], [info], [warn] and [error]: [if (this.level <= L) console...] *)
Definition log {T} (l : LogLevel) (msg : list LogPart) : M T unit :=
  fun m =>
    if (rank (logLevel m) <=? rank l)%nat
    then (inr tt, m, [EvConsole l msg])
    else (inr tt, m, []).

End Host.

Import Host.
Import Host.Notations.
Open Scope js_scope.

(* ===================================================================== *)
(** * The modules: options.ts, dependencies.ts, tracker.ts *)
(* ===================================================================== *)

Module Tracker.

(** ** options.ts

    The fields of [Options] that are read; its [adapter] is the [World],
    and its [workingDirectory] is never read. *)

Record Options : Type := mkOptions {
  configFile : string;
  internalConfigFile : string;
  logFile : string;
  _resourcesLocation : string;
  configCache : Js.Map string
}.

(** [private startsWith(outer, inner)] *)
Definition startsWith (outer inner : string) : bool :=
  String.eqb (Js.slice outer 0 (Some (Z.of_nat (String.length inner)))) inner.

(** [private endsWith(outer, inner)] *)
Definition endsWith (outer inner : string) : bool :=
  String.eqb inner "" ||
  String.eqb (Js.slice outer (- Z.of_nat (String.length inner)) None) inner.

(** [private removeNulls(s)]: [s.replace(/\0/g, '')] *)
Fixpoint removeNulls (s : string) : string :=
  match s with
  | EmptyString => EmptyString
  | String c r =>
      if Ascii.eqb c Ascii.zero then removeNulls r else String c (removeNulls r)
  end.

(** [getConfigFile(internal)] *)
Definition getConfigFile (o : Options) (internal : bool) : string :=
  if internal then internalConfigFile o else configFile o.

(** The [for] loop of [getSetting] from line [i] on, [currentSection]
    being what the lines before have set. *)
Fixpoint scan (section key currentSection : string) (lines : list string)
  : option string :=
  match lines with
  | [] => None
  | line :: rest =>
      if startsWith (Js.trim line) "[" && endsWith (Js.trim line) "]" then
        scan section key
             (Js.toLowerCase
                (Js.substring (Js.trim line) 1
                   (Z.of_nat (String.length (Js.trim line)) - 1)))
             rest
      else if String.eqb currentSection section then
        let parts := Js.split "=" line in
        let currentKey := Js.trim (nth 0 parts "") in
        if String.eqb currentKey key && (1 <? List.length parts)%nat then
          Some (removeNulls (Js.trim (nth 1 parts "")))
        else scan section key currentSection rest
      else scan section key currentSection rest
  end.

(** [getSetting(section, key, internal?)]; [None] is [undefined]. *)
Definition getSetting (o : Options) (section key : string)
           (internal : option bool) : option string :=
  let configFile := getConfigFile o (match internal with Some b => b | None => false end) in
  match Js.map_get (configCache o) configFile with
  | None => None
  | Some content =>
      if negb (Js.truthy content) then None
      else if Js.truthy (Js.trim content) then
        scan section key "" (Js.split "010" content)
      else None
  end.

Section WithHost.
Variable node : Node.
Variable w : World.

(** [constructor(workingDirectory, adapter)] *)
Definition newOptions : Options :=
  let home := os_homedir w in
  let wakaFolder := path_join node [home; ".wakatime"] in
  {| configFile := path_join node [home; ".wakatime.cfg"];
     internalConfigFile := path_join node [wakaFolder; "wakatime-internal.cfg"];
     logFile := path_join node [wakaFolder; "wakatime.log"];
     _resourcesLocation := wakaFolder;
     configCache := [] |}.

(** [this.configCache.set(file, content)] *)
Definition cache (file content : string) (o : Options) : Options :=
  {| configFile := configFile o;
     internalConfigFile := internalConfigFile o;
     logFile := logFile o;
     _resourcesLocation := _resourcesLocation o;
     configCache := Js.map_set (configCache o) file content |}.

(** One of the two [try] blocks of [loadConfigs]. *)
Definition loadOne (file : string) : M Options unit :=
  try_catch
    (b <- exists_ w file ;;
     if b then content <- readFile w file ;; modify (cache file content)
     else ret tt)
    (fun _ => ret tt).

(** [loadConfigs()] *)
Definition loadConfigs : M Options unit :=
  (f <- gets configFile ;; loadOne f) ;;
  (f <- gets internalConfigFile ;; loadOne f).

(** ** dependencies.ts

    The fields of [Dependencies] that are read after the constructor. *)

Record Dependencies : Type := mkDependencies {
  resourcesLocation : string;
  cliLocation : option string
}.

(** [constructor(options, logger, adapter)] *)
Definition newDependencies (o : Options) : Dependencies :=
  {| resourcesLocation := _resourcesLocation o; cliLocation := None |}.

(** [this.cliLocation = p] *)
Definition setCliLocation (p : string) (d : Dependencies) : Dependencies :=
  {| resourcesLocation := resourcesLocation d; cliLocation := Some p |}.

(** [getCliLocation()] past its first line: the three candidates in
    order, and the empty string when none exists. *)
Definition locate : M Dependencies string :=
  let simpleBinary := "wakatime-cli" in
  r <- gets resourcesLocation ;;
  let localCliPath := path_join node [r; simpleBinary] in
  b <- exists_ w localCliPath ;;
  if b then
    modify (setCliLocation localCliPath) ;;
    log DEBUG [Txt "Found CLI at local path: "; Txt localCliPath] ;;
    ret localCliPath
  else
  let brewCliPath := ("/opt/homebrew/bin/" ++ simpleBinary)%string in
  b <- exists_ w brewCliPath ;;
  if b then
    modify (setCliLocation brewCliPath) ;;
    log DEBUG [Txt "Found CLI at brew path: "; Txt brewCliPath] ;;
    ret brewCliPath
  else
  let oldBrewCliPath := ("/usr/local/bin/" ++ simpleBinary)%string in
  b <- exists_ w oldBrewCliPath ;;
  if b then
    modify (setCliLocation oldBrewCliPath) ;;
    log DEBUG [Txt "Found CLI at old brew path: "; Txt oldBrewCliPath] ;;
    ret oldBrewCliPath
  else
  modify (setCliLocation "") ;;
  ret "".

(** [getCliLocation()]: [if (this.cliLocation) return this.cliLocation;]
    and then the lookup. *)
Definition getCliLocation : M Dependencies string :=
  c <- gets cliLocation ;;
  match c with
  | Some p => if Js.truthy p then ret p else locate
  | None => locate
  end.

(** [isCliInstalled()]: [!!cliPath && (await this.adapter.exists(cliPath))] *)
Definition isCliInstalled : M Dependencies bool :=
  cliPath <- getCliLocation ;;
  if Js.truthy cliPath then exists_ w cliPath else ret false.

(** [checkAndInstallCli(callback?)], called without a callback. *)
Definition checkAndInstallCli : M Dependencies unit :=
  log DEBUG [Txt "Checking WakaTime CLI..."] ;;
  b <- isCliInstalled ;;
  if b then log DEBUG [Txt "CLI found."]
  else log WARN [Txt "WakaTime CLI not found. Please install it manually."].

(** ** tracker.ts

    [lastHeartbeatAt] is kept in milliseconds: the code stores
    [Date.now() / 1000] and compares a difference of such quotients with 60;
    the model stores the reading of [Date.now()] itself and compares the
    difference with 60000.  The rounding of the two divisions is left out:
    it can decide in the code only when exactly 60000 ms lie between the
    two readings and the earlier one is not 0 ([Doubles] has the test as
    the code computes it, and a pair of readings where the two differ).
    The statements on a flush after an earlier flush speak of more and of
    fewer than sixty seconds, and of no gap of exactly sixty.
    The counts of [fileEntities] are integers. *)

Record WakaTimeTracker : Type := mkTracker {
  options : option Options;
  dependencies : option Dependencies;
  lastHeartbeatAt : Z;
  fileEntities : Js.Map Z;
  workingDirectory : string;
  apiKey : option string
}.

(** [constructor(workingDirectory, adapter)] *)
Definition newTracker (workingDirectory : string) : WakaTimeTracker :=
  {| options := None; dependencies := None;
     lastHeartbeatAt := 0; fileEntities := [];
     workingDirectory := workingDirectory; apiKey := None |}.

(** Assignments to the fields of [this]. *)
Definition withOptions (o : option Options) (t : WakaTimeTracker) :=
  mkTracker o (dependencies t) (lastHeartbeatAt t) (fileEntities t)
            (workingDirectory t) (apiKey t).

Definition withDependencies (d : option Dependencies) (t : WakaTimeTracker) :=
  mkTracker (options t) d (lastHeartbeatAt t) (fileEntities t)
            (workingDirectory t) (apiKey t).

Definition withLastHeartbeatAt (z : Z) (t : WakaTimeTracker) :=
  mkTracker (options t) (dependencies t) z (fileEntities t)
            (workingDirectory t) (apiKey t).

Definition withFileEntities (e : Js.Map Z) (t : WakaTimeTracker) :=
  mkTracker (options t) (dependencies t) (lastHeartbeatAt t) e
            (workingDirectory t) (apiKey t).

Definition withApiKey (k : option string) (t : WakaTimeTracker) :=
  mkTracker (options t) (dependencies t) (lastHeartbeatAt t) (fileEntities t)
            (workingDirectory t) k.

(** A method of [this.options]; reading a field of [undefined] throws. *)
Definition onOptions {A} (c : M Options A) : M WakaTimeTracker A :=
  fun m =>
    match options (self m) with
    | None => (inl (TypeError "this.options is undefined"), m, [])
    | Some o => zoom (fun _ => o) (fun o' => withOptions (Some o')) c m
    end.

(** A method of [this.dependencies]. *)
Definition onDependencies {A} (c : M Dependencies A) : M WakaTimeTracker A :=
  fun m =>
    match dependencies (self m) with
    | None => (inl (TypeError "this.dependencies is undefined"), m, [])
    | Some d => zoom (fun _ => d) (fun d' => withDependencies (Some d')) c m
    end.

(** [private loadConfig()] *)
Definition loadConfig : M WakaTimeTracker unit :=
  k <- onOptions (gets (fun o => getSetting o "settings" "api_key" None)) ;;
  modify (withApiKey k) ;;
  debug <- onOptions (gets (fun o => getSetting o "settings" "debug" None)) ;;
  setLevel (match debug with
            | Some d => if String.eqb d "true" then DEBUG else INFO
            | None => INFO
            end).

(** [initialize()] *)
Definition initialize : M WakaTimeTracker unit :=
  modify (withOptions (Some newOptions)) ;;
  onOptions loadConfigs ;;
  o <- gets options ;;
  match o with
  | None => throw (TypeError "this.options is undefined")
  | Some o => modify (withDependencies (Some (newDependencies o)))
  end ;;
  loadConfig ;;
  onDependencies checkAndInstallCli.

(** [private isValidFilePath(filePath)] *)
Definition isValidFilePath (filePath : string) : M WakaTimeTracker bool :=
  exists_ w filePath.

(** [private calculateLineChanges(filePath)] *)
Definition calculateLineChanges (filePath : string) : M WakaTimeTracker Z :=
  try_catch
    (content <- readFile w filePath ;;
     ret (Z.of_nat (List.length (Js.split "010" content))))
    (fun _ => ret 0%Z).

(** [private shouldSendHeartbeat()]: [now - this.lastHeartbeatAt >= 60],
    both sides in seconds; here both are kept in milliseconds. *)
Definition shouldSendHeartbeat : M WakaTimeTracker bool :=
  now <- Date_now w ;;
  last <- gets lastHeartbeatAt ;;
  ret (60000 <=? now - last)%Z.

(** [private sendSingleHeartbeat(entity, lineChanges)] *)
Definition sendSingleHeartbeat (entity : string) (lineChanges : Z)
  : M WakaTimeTracker unit :=
  log DEBUG [Txt "Sending heartbeat for "; Txt entity; Txt " with ";
             Num lineChanges; Txt " line changes"] ;;
  key <- gets apiKey ;;
  match key with
  | None => log WARN [Txt "WakaTime API Key not configured. Skipping heartbeat."]
  | Some k =>
    if negb (Js.truthy k)
    then log WARN [Txt "WakaTime API Key not configured. Skipping heartbeat."]
    else
      cliLocation <- onDependencies getCliLocation ;;
      found <- (if Js.truthy cliLocation then exists_ w cliLocation else ret false) ;;
      if negb found
      then log WARN [Txt "WakaTime CLI not found or not installed. Skipping heartbeat."]
      else
        timestamp <- Date_now w ;;
        let args := ["--entity"; entity; "--time"; String_of_seconds node timestamp]
                    ++ ["--write"] in
        let env := Some [("WAKATIME_API_KEY", k)] in
        try_catch
          (out <- exec w cliLocation args env ;;
           log DEBUG [Txt "WakaTime CLI stdout: "; Txt (fst out)] ;;
           if Js.truthy (snd out)
           then log WARN [Txt "WakaTime CLI stderr: "; Txt (snd out)]
           else ret tt)
          (fun error =>
             log ERROR [Txt "Error sending heartbeat with WakaTime CLI: "; Err error])
  end.

(** [private sendHeartbeats()] *)
Definition sendHeartbeats : M WakaTimeTracker unit :=
  entries <- gets fileEntities ;;
  for_of entries (fun '(entity, changes) => sendSingleHeartbeat entity changes).

(** [private clearEntities()] *)
Definition clearEntities : M WakaTimeTracker unit :=
  modify (withFileEntities []) ;;
  now <- Date_now w ;;
  modify (withLastHeartbeatAt now).

(** [sendHeartbeat()] *)
Definition sendHeartbeat : M WakaTimeTracker unit :=
  sendHeartbeats ;; clearEntities.

(** [trackFileEdit(filePath, operation, lineChanges = 0)] *)
Definition trackFileEdit (filePath operation : string) (lineChanges : Z)
  : M WakaTimeTracker unit :=
  valid <- isValidFilePath filePath ;;
  if negb valid then ret tt else
  try_catch
    (wd <- gets workingDirectory ;;
     let fullPath := if path_isAbsolute node filePath then filePath
                     else path_join node [wd; filePath] in
     (if String.eqb operation "write" || String.eqb operation "edit" then
        changes <- (if negb (lineChanges =? 0)%Z then ret lineChanges
                    else calculateLineChanges fullPath) ;;
        modify (fun t =>
          withFileEntities
            (Js.map_set (fileEntities t) fullPath
               (match Js.map_get (fileEntities t) fullPath with
                | Some n => n
                | None => 0
                end + changes)%Z) t)
      else ret tt) ;;
     due <- shouldSendHeartbeat ;;
     if due then sendHeartbeats ;; clearEntities else ret tt)
    (fun error => log ERROR [Txt "Failed to track file operation: "; Err error]).

(** [args.filePath]: reading a property of [undefined] or [null] throws,
    a primitive has no such property. *)
Definition filePathOf (args : Js.Value) : M WakaTimeTracker Js.Value :=
  match args with
  | Js.VUndefined | Js.VNull =>
      throw (TypeError "Cannot read properties of undefined (reading 'filePath')")
  | Js.VObj fs => ret (Js.field fs "filePath")
  | _ => ret Js.VUndefined
  end.

(** [this.trackFileEdit(args.filePath, operation)] with [args.filePath] as
    it comes.  For a value that is not a string, [isValidFilePath] asks the
    adapter, and [path.isAbsolute] then throws inside the [try]. *)
Definition trackFileEditOf (filePath : Js.Value) (operation : string)
  : M WakaTimeTracker unit :=
  match filePath with
  | Js.VStr s => trackFileEdit s operation 0
  | v =>
      valid <- existsOther w v ;;
      if negb valid then ret tt else
      log ERROR [Txt "Failed to track file operation: ";
                 Err (TypeError "The 'path' argument must be of type string")]
  end.

(** [trackToolUsage(toolName, args, output)] *)
Definition trackToolUsage (toolName : string) (args output : Js.Value)
  : M WakaTimeTracker unit :=
  isRead <- (if String.eqb toolName "read"
             then v <- filePathOf args ;; ret (Js.truthyV v)
             else ret false) ;;
  if isRead then
    v <- filePathOf args ;; trackFileEditOf v "read"
  else
    isWrite <- (if String.eqb toolName "write" || String.eqb toolName "edit"
                then v <- filePathOf args ;; ret (Js.truthyV v)
                else ret false) ;;
    if isWrite then
      v <- filePathOf args ;; trackFileEditOf v toolName
    else ret tt.

End WithHost.
End Tracker.

(* ===================================================================== *)
(** * The bundle: .opencode/plugin/wakatime.ts *)
(* ===================================================================== *)

Module Bundled.

(** ** [class Options] *)

Record Options : Type := mkOptions {
  configFile : string;
  _resourcesLocation : string;
  configCache : Js.Map string
}.

(** The [for] loop of [getSetting]. *)
Fixpoint scan (section key currentSection : string) (lines : list string)
  : option string :=
  match lines with
  | [] => None
  | line :: rest =>
      let trimmed := Js.trim line in
      if Js.startsWith trimmed "[" && Js.endsWith trimmed "]" then
        scan section key
             (Js.toLowerCase
                (Js.substring trimmed 1 (Z.of_nat (String.length trimmed) - 1)))
             rest
      else if String.eqb currentSection section then
        let parts := Js.split "=" trimmed in
        if String.eqb (Js.trim (nth 0 parts "")) key && (1 <? List.length parts)%nat
        then Some (Js.trim (nth 1 parts ""))
        else scan section key currentSection rest
      else scan section key currentSection rest
  end.

(** [getSetting(section, key)] *)
Definition getSetting (o : Options) (section key : string) : option string :=
  match Js.map_get (configCache o) (configFile o) with
  | None => None
  | Some content =>
      if negb (Js.truthy content) then None
      else scan section key "" (Js.split "010" content)
  end.

(** ** [class Dependencies]; its [options] is the tracker's. *)

Record Dependencies : Type := mkDependencies {
  cliLocation : option string
}.

(** ** [class WakaTimeTracker]; [lastHeartbeatAt] in milliseconds, as in
       [Module Tracker]. *)

Record WakaTimeTracker : Type := mkTracker {
  options : Options;
  dependencies : Dependencies;
  lastHeartbeatAt : Z;
  fileEntities : Js.Map Z;
  workingDirectory : string;
  apiKey : option string
}.

(** Assignments to the fields of [this]. *)
Definition withOptions (o : Options) (t : WakaTimeTracker) :=
  mkTracker o (dependencies t) (lastHeartbeatAt t) (fileEntities t)
            (workingDirectory t) (apiKey t).

Definition withDependencies (d : Dependencies) (t : WakaTimeTracker) :=
  mkTracker (options t) d (lastHeartbeatAt t) (fileEntities t)
            (workingDirectory t) (apiKey t).

Definition withLastHeartbeatAt (z : Z) (t : WakaTimeTracker) :=
  mkTracker (options t) (dependencies t) z (fileEntities t)
            (workingDirectory t) (apiKey t).

Definition withFileEntities (e : Js.Map Z) (t : WakaTimeTracker) :=
  mkTracker (options t) (dependencies t) (lastHeartbeatAt t) e
            (workingDirectory t) (apiKey t).

Definition withApiKey (k : option string) (t : WakaTimeTracker) :=
  mkTracker (options t) (dependencies t) (lastHeartbeatAt t) (fileEntities t)
            (workingDirectory t) k.

Section WithHost.
Variable node : Node.
Variable w : World.

(** [constructor(adapter)] of [Options] *)
Definition newOptions : Options :=
  let home := os_homedir w in
  {| configFile := path_join node [home; ".wakatime.cfg"];
     _resourcesLocation := path_join node [home; ".wakatime"];
     configCache := [] |}.

(** [this.configCache.set(this.configFile, content)] *)
Definition cache (content : string) (o : Options) : Options :=
  {| configFile := configFile o;
     _resourcesLocation := _resourcesLocation o;
     configCache := Js.map_set (configCache o) (configFile o) content |}.

(** [loadConfigs()] *)
Definition loadConfigs : M Options unit :=
  try_catch
    (f <- gets configFile ;;
     b <- exists_ w f ;;
     if b then content <- readFile w f ;; modify (cache content)
     else ret tt)
    (fun _ => ret tt).

(** The [for] loop of [getCliLocation]. *)
Fixpoint firstExisting (pathsToCheck : list string) : M Dependencies (option string) :=
  match pathsToCheck with
  | [] => ret None
  | p :: rest =>
      b <- exists_ w p ;;
      if b then
        modify (fun _ => {| cliLocation := Some p |}) ;;
        log DEBUG [Txt "Found CLI at: "; Txt p] ;;
        ret (Some p)
      else firstExisting rest
  end.

(** [getCliLocation()], [opts] being [this.options]. *)
Definition getCliLocation (opts : Options) : M Dependencies string :=
  c <- gets cliLocation ;;
  if Js.truthyOpt c then ret (match c with Some p => p | None => "" end) else
  let binary := "wakatime-cli" in
  let pathsToCheck :=
    [ path_join node [_resourcesLocation opts; binary];
      ("/opt/homebrew/bin/" ++ binary)%string;
      ("/usr/local/bin/" ++ binary)%string ] in
  r <- firstExisting pathsToCheck ;;
  match r with
  | Some p => ret p
  | None => ret ""
  end.

(** [isCliInstalled()] *)
Definition isCliInstalled (opts : Options) : M Dependencies bool :=
  loc <- getCliLocation opts ;;
  ret (Js.truthy loc).

(** [checkAndInstallCli()] *)
Definition checkAndInstallCli (opts : Options) : M Dependencies unit :=
  b <- isCliInstalled opts ;;
  if b then log DEBUG [Txt "CLI found."]
  else log WARN [Txt "CLI not found. Please install manually."].

(** [constructor(workingDirectory, adapter)] *)
Definition newTracker (workingDirectory : string) : WakaTimeTracker :=
  {| options := newOptions;
     dependencies := {| cliLocation := None |};
     lastHeartbeatAt := 0; fileEntities := [];
     workingDirectory := workingDirectory; apiKey := None |}.

(** A method of [this.options]. *)
Definition onOptions {A} (c : M Options A) : M WakaTimeTracker A :=
  zoom options withOptions c.

(** A method of [this.dependencies], which reads [this.options]. *)
Definition onDependencies {A} (c : Options -> M Dependencies A)
  : M WakaTimeTracker A :=
  fun m => zoom dependencies withDependencies (c (options (self m))) m.

(** [initialize()] *)
Definition initialize : M WakaTimeTracker unit :=
  onOptions loadConfigs ;;
  k <- gets (fun t => getSetting (options t) "settings" "api_key") ;;
  modify (withApiKey k) ;;
  debug <- gets (fun t => getSetting (options t) "settings" "debug") ;;
  setLevel (match debug with
            | Some d => if String.eqb d "true" then DEBUG else INFO
            | None => INFO
            end) ;;
  onDependencies checkAndInstallCli.

(** [sendSingleHeartbeat(entity, changes)] *)
Definition sendSingleHeartbeat (entity : string) (changes : Z)
  : M WakaTimeTracker unit :=
  key <- gets apiKey ;;
  match key with
  | None => ret tt
  | Some k =>
    if negb (Js.truthy k) then ret tt else
    cli <- onDependencies getCliLocation ;;
    if negb (Js.truthy cli) then ret tt else
    now <- Date_now w ;;
    let args := ["--entity"; entity; "--time"; String_of_seconds node now; "--write"] in
    let env := Some [("WAKATIME_API_KEY", k)] in
    try_catch
      (exec w cli args env ;; ret tt)
      (fun e => log ERROR [Txt "Heartbeat failed: "; Err e])
  end.

(** [sendHeartbeats()] *)
Definition sendHeartbeats : M WakaTimeTracker unit :=
  entries <- gets fileEntities ;;
  for_of entries (fun '(entity, changes) => sendSingleHeartbeat entity changes).

(** [sendHeartbeat()] *)
Definition sendHeartbeat : M WakaTimeTracker unit :=
  sendHeartbeats ;;
  modify (withFileEntities []) ;;
  now <- Date_now w ;;
  modify (withLastHeartbeatAt now).

(** [trackFileEdit(filePath, operation, lineChanges = 0)] *)
Definition trackFileEdit (filePath operation : string) (lineChanges : Z)
  : M WakaTimeTracker unit :=
  wd <- gets workingDirectory ;;
  let fullPath := if path_isAbsolute node filePath then filePath
                  else path_join node [wd; filePath] in
  found <- exists_ w fullPath ;;
  if negb found then ret tt else
  (if String.eqb operation "write" || String.eqb operation "edit" then
     let changes := if negb (lineChanges =? 0)%Z then lineChanges else 1%Z in
     modify (fun t =>
       withFileEntities
         (Js.map_set (fileEntities t) fullPath
            (match Js.map_get (fileEntities t) fullPath with
             | Some n => n
             | None => 0
             end + changes)%Z) t)
   else ret tt) ;;
  now <- Date_now w ;;
  last <- gets lastHeartbeatAt ;;
  if (60000 <=? now - last)%Z then
    sendHeartbeats ;;
    modify (withFileEntities []) ;;
    now' <- Date_now w ;;
    modify (withLastHeartbeatAt now')
  else ret tt.

(** [args.filePath || args.file_path || args.path] for a truthy [args] *)
Definition pathOf (args : Js.Value) : Js.Value :=
  match args with
  | Js.VObj fs =>
      if Js.truthyV (Js.field fs "filePath") then Js.field fs "filePath"
      else if Js.truthyV (Js.field fs "file_path") then Js.field fs "file_path"
      else Js.field fs "path"
  | _ => Js.VUndefined
  end.

(** [trackToolUsage(toolName, args, output)] *)
Definition trackToolUsage (toolName : string) (args output : Js.Value)
  : M WakaTimeTracker unit :=
  if negb (Js.truthyV args) then ret tt else
  match pathOf args with
  | Js.VStr filePath =>
      if negb (Js.truthy filePath) then ret tt else
      if String.eqb toolName "read" || String.eqb toolName "read_file" then
        trackFileEdit filePath "read" 0
      else if String.eqb toolName "write" || String.eqb toolName "write_file"
              || String.eqb toolName "edit" || String.eqb toolName "replace" then
        trackFileEdit filePath toolName 0
      else ret tt
  | _ => ret tt
  end.

End WithHost.
End Bundled.

(* ===================================================================== *)
(** * A concrete host for the examples *)
(* ===================================================================== *)

Module Example.

(** [l.join(sep)] *)
Fixpoint joinWith (sep : string) (l : list string) : string :=
  match l with
  | [] => ""
  | [x] => x
  | x :: r => (x ++ sep ++ joinWith sep r)%string
  end.

(** A natural number in decimal. *)
Definition digits (n : Z) : string :=
  NilZero.string_of_uint (N.to_uint (Z.to_N n)).

(** [String(ms / 1000)] for [0 <= ms] of the size of a present-day clock:
    the whole seconds, and the milliseconds as decimals without trailing
    zeros. *)
Definition seconds (ms : Z) : string :=
  let q := (ms / 1000)%Z in
  let r := (ms mod 1000)%Z in
  if (r =? 0)%Z then digits q
  else if (r mod 100 =? 0)%Z then (digits q ++ "." ++ digits (r / 100))%string
  else if (r mod 10 =? 0)%Z
       then (digits q ++ "." ++ digits (r / 100) ++ digits (r / 10 mod 10))%string
  else (digits q ++ "." ++ digits (r / 100) ++ digits (r / 10 mod 10)
        ++ digits (r mod 10))%string.

(** POSIX paths: absolute when they start with a slash; [join] as it is on
    segments that need no normalisation. *)
Definition posix : Node :=
  {| path_isAbsolute := fun p => Js.startsWith p "/";
     path_join := joinWith "/";
     String_of_seconds := seconds |}.

(** A file system given by its files, a CLI that answers [ok], a home
    directory and a clock that stands still at [now]. *)
Definition world (files : list (string * string)) (now : Z) : World :=
  {| fs_exists := fun p => match Js.map_get files p with Some _ => true | None => false end;
     fs_existsOther := fun _ => false;
     fs_readFile := Js.map_get files;
     proc_exec := fun _ _ _ => inr ("ok", "");
     os_homedir := "/home/u";
     clock := fun _ => now |}.

(** An object in a process that has not read the clock yet. *)
Definition start {T} (t : T) : Machine T := mkMachine t INFO 0.

(** The newline. *)
Definition nl : string := String "010" "".

(** A configuration whose key has an equals sign in it. *)
Definition config : string :=
  joinWith nl ["[settings]"; "api_key = a=b"; ""].

(** A file of three lines, the CLI and the configuration. *)
Definition files : list (string * string) :=
  [ ("/w/foo.txt", joinWith nl ["one"; "two"; "three"]);
    ("/usr/local/bin/wakatime-cli", "cli");
    ("/home/u/.wakatime.cfg", config) ].

(** The CLI is installed. *)
Definition installed (now : Z) : World := world files now.

(** The CLI is not installed. *)
Definition bare (now : Z) : World :=
  world [("/w/foo.txt", joinWith nl ["one"; "two"; "three"])] now.

(** The options once the configuration is loaded. *)
Definition trackerOptions : Tracker.Options :=
  {| Tracker.configFile := "/home/u/.wakatime.cfg";
     Tracker.internalConfigFile := "/home/u/.wakatime/wakatime-internal.cfg";
     Tracker.logFile := "/home/u/.wakatime/wakatime.log";
     Tracker._resourcesLocation := "/home/u/.wakatime";
     Tracker.configCache := [("/home/u/.wakatime.cfg", config)] |}.

(** The same for the bundle. *)
Definition bundleOptions : Bundled.Options :=
  {| Bundled.configFile := "/home/u/.wakatime.cfg";
     Bundled._resourcesLocation := "/home/u/.wakatime";
     Bundled.configCache := [("/home/u/.wakatime.cfg", config)] |}.

(** A tracker of tracker.ts in [/w] as [initialize] leaves it where the CLI
    is installed: the key of the configuration and the CLI are known. *)
Definition tracker (last : Z) (pending : Js.Map Z) : Tracker.WakaTimeTracker :=
  {| Tracker.options := Some trackerOptions;
     Tracker.dependencies :=
       Some {| Tracker.resourcesLocation := "/home/u/.wakatime";
               Tracker.cliLocation := Some "/usr/local/bin/wakatime-cli" |};
     Tracker.lastHeartbeatAt := last;
     Tracker.fileEntities := pending;
     Tracker.workingDirectory := "/w";
     Tracker.apiKey := Some "a" |}.

(** The same for the bundle. *)
Definition bundle (last : Z) (pending : Js.Map Z) : Bundled.WakaTimeTracker :=
  {| Bundled.options := bundleOptions;
     Bundled.dependencies := {| Bundled.cliLocation := Some "/usr/local/bin/wakatime-cli" |};
     Bundled.lastHeartbeatAt := last;
     Bundled.fileEntities := pending;
     Bundled.workingDirectory := "/w";
     Bundled.apiKey := Some "a" |}.

(** The call of the CLI for [path] at the time [time]. *)
Definition call (path time : string)
  : string * list string * option (list (string * string)) :=
  ("/usr/local/bin/wakatime-cli",
   ["--entity"; path; "--time"; time; "--write"],
   Some [("WAKATIME_API_KEY", "a")]).

End Example.

(* ===================================================================== *)
(** * Notions the statements use *)
(* ===================================================================== *)

Module Ini.

(** [has c s]: the code unit [c] occurs in [s]. *)
Fixpoint has (c : ascii) (s : string) : bool :=
  match s with
  | EmptyString => false
  | String d r => Ascii.eqb d c || has c r
  end.

(** A section header: trimmed, the line starts with an opening and ends
    with a closing bracket. *)
Definition isHeader (line : string) : bool :=
  Js.startsWith (Js.trim line) "[" && Js.endsWith (Js.trim line) "]".

(** The name a header gives its section. *)
Definition headerName (line : string) : string :=
  Js.toLowerCase
    (Js.substring (Js.trim line) 1 (Z.of_nat (String.length (Js.trim line)) - 1)).

(** The section in force after the lines [pre], [cur] being in force
    before them. *)
Fixpoint sectionAfter (cur : string) (pre : list string) : string :=
  match pre with
  | [] => cur
  | l :: r => sectionAfter (if isHeader l then headerName l else cur) r
  end.

(** The line gives [key] a value: it is no header, it has an equals sign,
    and what stands before the first one is, trimmed, [key]. *)
Definition assigns (key line : string) : bool :=
  negb (isHeader line) && has "=" line &&
  String.eqb (Js.trim (hd "" (Js.split "=" line))) key.

(** No line of [pre] that lies in [section] gives [key] a value. *)
Definition unassigned (section key : string) (pre : list string) : Prop :=
  forall p1 l p2,
    pre = p1 ++ l :: p2 -> sectionAfter "" p1 = section -> assigns key l = false.

(** What follows the first [c] of [s]. *)
Fixpoint afterFirst (c : ascii) (s : string) : string :=
  match s with
  | EmptyString => EmptyString
  | String d r => if Ascii.eqb d c then r else afterFirst c r
  end.

(** What stands between the first equals sign of the line and the next
    one, or the end of the line, trimmed. *)
Definition valueOf (line : string) : string :=
  Js.trim (hd "" (Js.split "=" (afterFirst "=" line))).

End Ini.

Module Flush.

(** What one pass of the flush over [entity] may do to the outside: nothing
    is executed, or the CLI once, for this entity, with the key in the
    environment of the call. *)
Definition Attempt (entity : string) (ev : list Event) : Prop :=
  execs ev = [] \/
  exists cli time key,
    execs ev = [(cli, ["--entity"; entity; "--time"; time; "--write"],
                 Some [("WAKATIME_API_KEY", key)])].

(** One attempt for each path, in the order of the paths. *)
Inductive Attempts : list string -> list Event -> Prop :=
| attempts_nil : Attempts [] []
| attempts_cons entity rest ev evs :
    Attempt entity ev -> Attempts rest evs -> Attempts (entity :: rest) (ev ++ evs).

(** The calls of a flush that skips nothing: one for each path, the [i]-th
    stamped with the [i]-th reading of the clock from [tick] on. *)
Fixpoint heartbeats (node : Node) (w : World) (cli key : string) (tick : nat)
         (paths : list string)
  : list (string * list string * option (list (string * string))) :=
  match paths with
  | [] => []
  | p :: r =>
      (cli, ["--entity"; p; "--time"; String_of_seconds node (clock w tick); "--write"],
       Some [("WAKATIME_API_KEY", key)])
      :: heartbeats node w cli key (S tick) r
  end.

(** The path an event is filed under:
    [path.isAbsolute(filePath) ? filePath : path.join(workingDirectory, filePath)] *)
Definition fullPath (node : Node) (workingDirectory filePath : string) : string :=
  if path_isAbsolute node filePath then filePath
  else path_join node [workingDirectory; filePath].

(** The count a path stands at; a path that is not pending stands at 0. *)
Definition count (entries : Js.Map Z) (path : string) : Z :=
  match Js.map_get entries path with
  | Some n => n
  | None => 0%Z
  end.

(** The number of pieces the newlines cut the file into; 0 for a file that
    cannot be read. *)
Definition lineCount (w : World) (path : string) : Z :=
  match fs_readFile w path with
  | Some content => Z.of_nat (List.length (Js.split "010" content))
  | None => 0%Z
  end.

(** The operation files a change: it is a write or an edit. *)
Definition isEdit (operation : string) : bool :=
  String.eqb operation "write" || String.eqb operation "edit".

(** The pending entries once [added] changes are filed under [path]. *)
Definition filed (entries : Js.Map Z) (path : string) (added : Z) : Js.Map Z :=
  Js.map_set entries path (count entries path + added)%Z.

(** The pending entries after an event: an edit is filed, a read is not. *)
Definition noted (operation : string) (entries : Js.Map Z) (path : string)
           (added : Z) : Js.Map Z :=
  if isEdit operation then filed entries path added else entries.

(** What is added when the caller gives [lineChanges]: that number, and for
    0 the fallback. *)
Definition addedOr (fallback lineChanges : Z) : Z :=
  if (lineChanges =? 0)%Z then fallback else lineChanges.

(** The value is no string. *)
Definition notString (v : Js.Value) : Prop :=
  match v with
  | Js.VStr _ => False
  | _ => True
  end.

(** The arguments of a tool call name no file: they are missing, or none
    of the three fields a path may come in holds a string. *)
Definition pathless (args : Js.Value) : Prop :=
  match args with
  | Js.VObj fs =>
      notString (Js.field fs "filePath") /\
      notString (Js.field fs "file_path") /\
      notString (Js.field fs "path")
  | _ => True
  end.

(** The flush is due: sixty seconds or more since the last one. *)
Definition due (now last : Z) : bool := (60000 <=? now - last)%Z.

(** The three places the CLI is looked for, in order. *)
Definition candidates (node : Node) (resources : string) : list string :=
  [ path_join node [resources; "wakatime-cli"];
    "/opt/homebrew/bin/wakatime-cli";
    "/usr/local/bin/wakatime-cli" ].

(** The elements of [l] up to the first that satisfies [f], that one
    included. *)
Fixpoint upTo {A} (f : A -> bool) (l : list A) : list A :=
  match l with
  | [] => []
  | x :: r => if f x then [x] else x :: upTo f r
  end.

(** The first path of [l] that exists, the empty string when none does. *)
Definition firstExistingOr (w : World) (l : list string) : string :=
  match List.find (fs_exists w) l with
  | Some p => p
  | None => ""
  end.

(** The tracker of tracker.ts can send: with a key it also has its
    [dependencies], as it has once [initialize] has set the two. *)
Definition ready (t : Tracker.WakaTimeTracker) : Prop :=
  Js.truthyOpt (Tracker.apiKey t) = true -> Tracker.dependencies t <> None.

End Flush.

(* ===================================================================== *)
(** * The status report and the entry of the plugin *)
(* ===================================================================== *)

(** ** [getStatus] of tracker.ts *)

Module TrackerMore.

(** The line break of a template literal. *)
Definition nl : string := String "010" "".

(** [`${n}`] for the size of a [Map]. *)
Definition decimal (n : nat) : string := NilZero.string_of_uint (Nat.to_uint n).

(** [`${b}`] for a boolean. *)
Definition boolean (b : bool) : string := if b then "true" else "false".

Section WithHost.
Variable node : Node.
Variable w : World.

(** [new Date(t).toISOString()] for [t] in milliseconds; it throws for a
    time that no [Date] holds. *)
Variable toISOString : Z -> JsError + string.

(** [getStatus()] *)
Definition getStatus : M Tracker.WakaTimeTracker string :=
  d <- gets Tracker.dependencies ;;
  match d with
  | None => ret "Initializing..."
  | Some _ =>
      cliLocation <- Tracker.onDependencies (Tracker.getCliLocation node w) ;;
      isInstalled <- Tracker.onDependencies (Tracker.isCliInstalled node w) ;;
      key <- gets Tracker.apiKey ;;
      entries <- gets Tracker.fileEntities ;;
      last <- gets Tracker.lastHeartbeatAt ;;
      match toISOString last with
      | inl e => throw e
      | inr iso =>
          ret ("WakaTime Status:" ++ nl
               ++ "- API Key: "
               ++ (if Js.truthyOpt key then "Configured" else "Not configured") ++ nl
               ++ "- CLI Location: "
               ++ (if Js.truthy cliLocation then cliLocation else "Not found") ++ nl
               ++ "- CLI Installed: " ++ boolean isInstalled ++ nl
               ++ "- Pending entities: " ++ decimal (List.length entries) ++ nl
               ++ "- Last heartbeat: " ++ iso)%string
      end
  end.

End WithHost.
End TrackerMore.

(** ** [getStatus] of the bundle *)

Module BundledMore.

Section WithHost.
Variable node : Node.
Variable w : World.

(** [getStatus()] *)
Definition getStatus : M Bundled.WakaTimeTracker string :=
  installed <- Bundled.onDependencies (Bundled.isCliInstalled node w) ;;
  loc <- Bundled.onDependencies (Bundled.getCliLocation node w) ;;
  key <- gets Bundled.apiKey ;;
  ret ("WakaTime Status:" ++ TrackerMore.nl
       ++ "- Installed: " ++ TrackerMore.boolean installed ++ TrackerMore.nl
       ++ "- Path: " ++ loc ++ TrackerMore.nl
       ++ "- API Key Configured: " ++ TrackerMore.boolean (Js.truthyOpt key))%string.

End WithHost.
End BundledMore.

(** ** The hooks the plugin hands to its host (the bundle, [Plugin Entry])

    Each hook receives what the host passes it as a value of type [any]. *)

Module Plugin.

(** [v.k] for a [v] that is neither [undefined] nor [null]: a primitive
    has none of the properties read here. *)
Definition prop (v : Js.Value) (k : string) : Js.Value :=
  match v with
  | Js.VObj fs => Js.field fs k
  | _ => Js.VUndefined
  end.

Section WithHost.
Variable node : Node.
Variable w : World.

(** The [try] around [tracker.initialize()]. *)
Definition start : M Bundled.WakaTimeTracker unit :=
  try_catch (Bundled.initialize node w)
    (fun e => emit (EvConsole ERROR [Txt "Initialization error:"; Err e])).

(** [event: async ({ event }) => ...], [event] being the field of that
    name of the object the hook is handed. *)
Definition event (event : Js.Value) : M Bundled.WakaTimeTracker unit :=
  if negb (Js.truthyV event) then ret tt else
  match prop event "type" with
  | Js.VStr type =>
      if String.eqb type "file.edited" then
        match prop (prop event "properties") "file" with
        | Js.VStr file =>
            if Js.truthy file then Bundled.trackFileEdit node w file "edit" 0
            else ret tt
        | _ => ret tt
        end
      else ret tt
  | _ => ret tt
  end.

(** ["tool.execute.before": async (i, o) => ...].  Reading [o.args] of an
    [o] that is [undefined] or [null] throws; a tool that is no string is
    equal to none of the names [trackToolUsage] compares it with. *)
Definition tool_execute_before (i o : Js.Value) : M Bundled.WakaTimeTracker unit :=
  if negb (Js.truthyV i) || negb (Js.truthyV (prop i "tool")) then ret tt else
  match o with
  | Js.VUndefined | Js.VNull =>
      throw (TypeError "Cannot read properties of undefined (reading 'args')")
  | _ =>
      match prop i "tool" with
      | Js.VStr toolName => Bundled.trackToolUsage node w toolName (prop o "args") o
      | _ => ret tt
      end
  end.

(** ["session.idle": async () => tracker.sendHeartbeat()] *)
Definition session_idle : M Bundled.WakaTimeTracker unit :=
  Bundled.sendHeartbeat node w.

End WithHost.
End Plugin.

(** ** The adapter the plugin builds (the bundle, [Plugin Entry])

    The adapter runs its commands with the shell [$] of the host.  A
    command resolves with its output, or it throws (when it exits with a
    code other than 0, or cannot be run) an error that may carry the
    output and has a message. *)

Module Adapter.

Inductive Run : Type :=
| Done (stdout stderr : string)
| Failed (stdout stderr : option string) (message : string).

(** The commands the adapter runs, and [process.env.HOME]. *)
Record Shell : Type := mkShell {
  test_e : string -> Run;
  cat : string -> Run;
  run : string -> list string -> option (list (string * string)) -> Run;
  HOME : option string
}.

(** [a || b] for [a : string | undefined] *)
Definition orElse (a : option string) (b : string) : string :=
  match a with
  | Some s => if Js.truthy s then s else b
  | None => b
  end.

(** [exists(p)]: [try { await $`test -e ${p}`; return true } catch { return false }] *)
Definition exists_ (sh : Shell) (p : string) : bool :=
  match test_e sh p with
  | Done _ _ => true
  | Failed _ _ _ => false
  end.

(** [readFile(p)]: the text [cat] prints, and the empty string when it
    fails. *)
Definition readFile (sh : Shell) (p : string) : string :=
  match cat sh p with
  | Done stdout _ => stdout
  | Failed _ _ _ => ""
  end.

(** [exec(cmd, args, env)]: the output of the run; of a failed run what
    the error carries, [e.stdout?.toString() || ''] and
    [e.stderr?.toString() || e.message]. *)
Definition exec (sh : Shell) (cmd : string) (args : list string)
           (env : option (list (string * string))) : string * string :=
  match run sh cmd args env with
  | Done stdout stderr => (stdout, stderr)
  | Failed stdout stderr message => (orElse stdout "", orElse stderr message)
  end.

(** [homedir()]: [process.env.HOME || '/'] *)
Definition homedir (sh : Shell) : string := orElse (HOME sh) "/".

(** The adapter as the world of the tracker: none of its methods rejects.
    [other] is what [exists] answers for a value that is no string, which
    the bundle never hands it. *)
Definition world (sh : Shell) (other : Js.Value -> bool) (clock : nat -> Z) : World :=
  {| fs_exists := exists_ sh;
     fs_existsOther := other;
     fs_readFile := fun p => Some (readFile sh p);
     proc_exec := fun cmd args env => inr (exec sh cmd args env);
     os_homedir := homedir sh;
     clock := clock |}.

(** Two shells for the examples, with the home directory [/home/u] and a
    clock that stands still.  In the first every file is there and none can
    be read; in the second the CLI fails at every run. *)
Definition unreadable : Shell :=
  {| test_e := fun _ => Done "" "";
     cat := fun _ => Failed None (Some "Permission denied") "exit code 1";
     run := fun _ _ _ => Done "" "";
     HOME := Some "/home/u" |}.

Definition failing : Shell :=
  {| test_e := fun _ => Done "" "";
     cat := fun _ => Failed None None "exit code 1";
     run := fun _ _ _ => Failed None None "exit code 1";
     HOME := Some "/home/u" |}.

Definition still (sh : Shell) : World :=
  world sh (fun _ => false) (fun _ => 1700000000000%Z).

End Adapter.

(* ===================================================================== *)
(** * More notions the statements use *)
(* ===================================================================== *)

Module Trace.

(** The event is a line on the console. *)
Definition isConsole (e : Event) : bool :=
  match e with
  | EvConsole _ _ => true
  | _ => false
  end.

(** The trace holds nothing but lines on the console: the adapter is not
    called. *)
Definition silent (tr : list Event) : bool := forallb isConsole tr.

(** The call is a heartbeat for one of [paths] with [key], and nothing
    else, in its environment. *)
Definition carries (key : string) (paths : list string)
           (call : string * list string * option (list (string * string))) : Prop :=
  (exists path time,
      In path paths /\
      snd (fst call) = ["--entity"; path; "--time"; time; "--write"]) /\
  snd call = Some [("WAKATIME_API_KEY", key)].

(** The trace holds no line of the level ERROR. *)
Definition noError (tr : list Event) : bool :=
  forallb (fun e => match e with
                    | EvConsole ERROR _ => false
                    | _ => true
                    end) tr.

End Trace.

Module Config.

(** The cache entry of [file] after a load: the text the adapter gives
    when the file exists and can be read, the entry from before when it
    does not exist or cannot be read. *)
Definition loaded (w : World) (before : Js.Map string) (file : string)
  : option string :=
  if fs_exists w file then
    match fs_readFile w file with
    | Some content => Some content
    | None => Js.map_get before file
    end
  else Js.map_get before file.

(** [debug === 'true' ? LogLevel.DEBUG : LogLevel.INFO] *)
Definition level (debug : option string) : LogLevel :=
  match debug with
  | Some d => if String.eqb d "true" then DEBUG else INFO
  | None => INFO
  end.

End Config.

(* ===================================================================== *)
(** * The test of [shouldSendHeartbeat] in doubles *)
(* ===================================================================== *)

Module Doubles.

(** The double of a whole number of at most 53 bits, as a reading of
    [Date.now()] is. *)
Definition number (z : Z) : PrimFloat.float := PrimFloat.of_uint63 (Uint63.of_Z z).

(** [Date.now() / 1000] *)
Definition seconds (millis : Z) : PrimFloat.float :=
  PrimFloat.div (number millis) (number 1000).

(** [now - this.lastHeartbeatAt >= 60] for [now = Date.now() / 1000] and a
    [lastHeartbeatAt] that was set to [Date.now() / 1000] at the reading
    [last]. *)
Definition shouldSendHeartbeat (now last : Z) : bool :=
  PrimFloat.leb (number 60) (PrimFloat.sub (seconds now) (seconds last)).

End Doubles.

(* ===================================================================== *)
(** * Proofs *)
(* ===================================================================== *)

(** Unfolds the monad of method bodies. *)
Ltac unfold_monad :=
  unfold bind, ret, throw, try_catch, gets, modify, emit, zoom, log, setLevel,
    exists_, existsOther, readFile, exec, Date_now, outcome, after, events in *.

(** Splits on the innermost scrutinee of a [match] of the goal. *)
Ltac break_match :=
  match goal with
  | |- context [match ?x with _ => _ end] =>
      lazymatch x with
      | context [match _ with _ => _ end] => fail
      | _ => destruct x eqn:?
      end
  end.

Ltac crunch := repeat (break_match; cbn).

(** ** Letter case *)

Lemma isUpper_lowerChar c : Js.isUpper (Js.lowerChar c) = false.
Proof. destruct c as [[] [] [] [] [] [] [] []]; reflexivity. Qed.

Lemma hasUpper_toLowerCase s : Js.hasUpper (Js.toLowerCase s) = false.
Proof.
  induction s as [|c r IH]; simpl; [reflexivity|].
  now rewrite isUpper_lowerChar, IH.
Qed.

Lemma hasUpper_differ a b :
  Js.hasUpper a = false -> Js.hasUpper b = true -> String.eqb a b = false.
Proof.
  intros Ha Hb. apply String.eqb_neq. intros ->. congruence.
Qed.


(** ** Splitting *)

Lemma split_not_nil sep s : Js.split sep s <> [].
Proof.
  destruct s as [|c r]; cbn; [discriminate|].
  destruct (Ascii.eqb c sep); [discriminate|].
  destruct (Js.split sep r); discriminate.
Qed.

Lemma split_length_has sep s :
  (1 <? List.length (Js.split sep s))%nat = Ini.has sep s.
Proof.
  induction s as [|c r IH]; cbn; [reflexivity|].
  destruct (Ascii.eqb c sep); cbn.
  - pose proof (split_not_nil sep r). destruct (Js.split sep r); [congruence|reflexivity].
  - rewrite <- IH. pose proof (split_not_nil sep r).
    destruct (Js.split sep r); [congruence|reflexivity].
Qed.

Lemma split_second sep s :
  Ini.has sep s = true ->
  nth 1 (Js.split sep s) "" = hd "" (Js.split sep (Ini.afterFirst sep s)).
Proof.
  induction s as [|c r IH]; cbn; [discriminate|].
  destruct (Ascii.eqb c sep); cbn.
  - intros _. destruct (Js.split sep r); reflexivity.
  - intros H. rewrite <- (IH H). pose proof (split_not_nil sep r).
    destruct (Js.split sep r) as [|h t]; [congruence|reflexivity].
Qed.

Lemma nth_0_hd {A} (l : list A) d : nth 0 l d = hd d l.
Proof. destruct l; reflexivity. Qed.

Lemma has_in_split sep c l s :
  In l (Js.split sep s) -> Ini.has c l = true -> Ini.has c s = true.
Proof.
  revert l. induction s as [|d r IH]; cbn; intros l.
  - intros [<-|[]]; auto.
  - destruct (Ascii.eqb d sep).
    + intros [<-|H] Hc; [discriminate|]. rewrite (IH _ H Hc). apply orb_true_r.
    + pose proof (split_not_nil sep r) as N.
      destruct (Js.split sep r) as [|h t]; [congruence|].
      intros [<-|H] Hc.
      * cbn in Hc. apply orb_true_iff in Hc as [Hc|Hc]; [now rewrite Hc|].
        rewrite (IH h (or_introl eq_refl) Hc). apply orb_true_r.
      * rewrite (IH l (or_intror H) Hc). apply orb_true_r.
Qed.

(** ** Trimming *)

Lemma trimEnd_cons c r :
  Js.isWhiteSpace c = false -> Js.trimEnd (String c r) = String c (Js.trimEnd r).
Proof. intros H. cbn. rewrite H. destruct (Js.trimEnd r); reflexivity. Qed.

Lemma trimEnd_has c s :
  Ini.has c s = true -> Js.isWhiteSpace c = false -> Ini.has c (Js.trimEnd s) = true.
Proof.
  intros H W. induction s as [|d r IH]; cbn in *; [discriminate|].
  destruct (Ascii.eqb_spec d c) as [->|N]; cbn in H.
  - rewrite W. destruct (Js.trimEnd r); cbn; now rewrite Ascii.eqb_refl.
  - specialize (IH H). destruct (Js.trimEnd r); [discriminate|].
    cbn in *. rewrite IH. apply orb_true_r.
Qed.

Lemma trimStart_has c s :
  Ini.has c s = true -> Js.isWhiteSpace c = false -> Ini.has c (Js.trimStart s) = true.
Proof.
  intros H W. induction s as [|d r IH]; cbn in *; [discriminate|].
  destruct (Js.isWhiteSpace d) eqn:Wd.
  - apply IH. destruct (Ascii.eqb_spec d c) as [->|N]; [congruence|exact H].
  - exact H.
Qed.

Lemma trim_truthy c s :
  Ini.has c s = true -> Js.isWhiteSpace c = false -> Js.truthy (Js.trim s) = true.
Proof.
  intros H W. unfold Js.trim.
  pose proof (trimEnd_has c _ (trimStart_has c s H W) W) as E.
  destruct (Js.trimEnd (Js.trimStart s)); [discriminate|reflexivity].
Qed.

Lemma trimStart_idem s : Js.trimStart (Js.trimStart s) = Js.trimStart s.
Proof.
  induction s as [|c r IH]; cbn; [reflexivity|].
  destruct (Js.isWhiteSpace c) eqn:W; [exact IH|]. cbn. now rewrite W.
Qed.

Lemma trimEnd_idem s : Js.trimEnd (Js.trimEnd s) = Js.trimEnd s.
Proof.
  induction s as [|c r IH]; cbn; [reflexivity|].
  destruct (Js.trimEnd r) as [|d t] eqn:E.
  - destruct (Js.isWhiteSpace c) eqn:W; cbn; [reflexivity|now rewrite W].
  - cbn [Js.trimEnd] in *. rewrite IH. reflexivity.
Qed.

Lemma trim_comm s : Js.trimStart (Js.trimEnd s) = Js.trimEnd (Js.trimStart s).
Proof.
  induction s as [|c r IH]; [reflexivity|].
  destruct (Js.isWhiteSpace c) eqn:W.
  - cbn [Js.trimStart]. rewrite W, <- IH. cbn [Js.trimEnd].
    destruct (Js.trimEnd r) as [|d t]; [now rewrite W|].
    cbn [Js.trimStart]. now rewrite W.
  - rewrite (trimEnd_cons _ _ W). cbn [Js.trimStart]. rewrite W.
    now rewrite (trimEnd_cons _ _ W).
Qed.

Lemma trim_trimStart s : Js.trim (Js.trimStart s) = Js.trim s.
Proof. unfold Js.trim. now rewrite trimStart_idem. Qed.

Lemma trim_trimEnd s : Js.trim (Js.trimEnd s) = Js.trim s.
Proof. unfold Js.trim. now rewrite trim_comm, trimEnd_idem. Qed.

(** A string with a [sep] in it, cut at the first one. *)
Lemma cut_at_first sep s :
  Ini.has sep s = true ->
  exists k, s = (k ++ String sep (Ini.afterFirst sep s))%string /\ Ini.has sep k = false.
Proof.
  induction s as [|c r IH]; cbn; [discriminate|].
  destruct (Ascii.eqb_spec c sep) as [->|N]; cbn.
  - intros _. now exists "".
  - intros H. destruct (IH H) as (k & E & Hk). exists (String c k). split.
    + cbn. now rewrite <- E.
    + cbn. rewrite Hk. apply Ascii.eqb_neq in N. now rewrite N.
Qed.

Lemma split_without sep s : Ini.has sep s = false -> Js.split sep s = [s].
Proof.
  induction s as [|c r IH]; cbn; [reflexivity|].
  destruct (Ascii.eqb c sep); cbn; [discriminate|].
  intros H. now rewrite (IH H).
Qed.

Lemma split_app sep k x :
  Ini.has sep k = false ->
  Js.split sep (k ++ String sep x) = k :: Js.split sep x.
Proof.
  induction k as [|c r IH]; cbn.
  - intros _. now rewrite Ascii.eqb_refl.
  - destruct (Ascii.eqb c sep); cbn; [discriminate|].
    intros H. now rewrite (IH H).
Qed.

Lemma trimStart_app k c x :
  Js.isWhiteSpace c = false ->
  Js.trimStart (k ++ String c x) = (Js.trimStart k ++ String c x)%string.
Proof.
  intros W. induction k as [|d r IH]; cbn; [now rewrite W|].
  destruct (Js.isWhiteSpace d); [exact IH|reflexivity].
Qed.

Lemma trimEnd_app k c x :
  Js.isWhiteSpace c = false ->
  Js.trimEnd (k ++ String c x) = (k ++ String c (Js.trimEnd x))%string.
Proof.
  intros W. induction k as [|d r IH].
  - cbn [String.append]. now apply trimEnd_cons.
  - cbn [String.append Js.trimEnd]. rewrite IH.
    destruct r; reflexivity.
Qed.

Lemma has_trimStart sep k : Ini.has sep k = false -> Ini.has sep (Js.trimStart k) = false.
Proof.
  induction k as [|c r IH]; cbn; [reflexivity|].
  intros H. apply orb_false_iff in H as [H1 H2].
  destruct (Js.isWhiteSpace c); [now apply IH|]. cbn. now rewrite H1, H2.
Qed.

Lemma has_trimEnd sep k : Ini.has sep k = false -> Ini.has sep (Js.trimEnd k) = false.
Proof.
  induction k as [|c r IH]; cbn; [reflexivity|].
  intros H. apply orb_false_iff in H as [H1 H2]. specialize (IH H2).
  destruct (Js.trimEnd r); [destruct (Js.isWhiteSpace c); cbn; now rewrite ?H1|].
  cbn in *. now rewrite H1, IH.
Qed.

Lemma has_app_sep sep k x : Ini.has sep (k ++ String sep x) = true.
Proof.
  induction k as [|c r IH]; cbn; [now rewrite Ascii.eqb_refl|].
  rewrite IH. apply orb_true_r.
Qed.

(** Splitting a trimmed line at a code unit that is no white space. *)
Section TrimSplit.
Variable sep : ascii.
Hypothesis notSpace : Js.isWhiteSpace sep = false.

Lemma trim_has s : Ini.has sep (Js.trim s) = Ini.has sep s.
Proof.
  destruct (Ini.has sep s) eqn:H.
  - unfold Js.trim. apply trimEnd_has; [|assumption]. now apply trimStart_has.
  - unfold Js.trim. now apply has_trimEnd, has_trimStart.
Qed.

Lemma trimEnd_split_hd s :
  Js.trim (hd "" (Js.split sep (Js.trimEnd s))) = Js.trim (hd "" (Js.split sep s)).
Proof.
  destruct (Ini.has sep s) eqn:H.
  - destruct (cut_at_first sep s H) as (k & E & Hk). rewrite E.
    rewrite (trimEnd_app _ _ _ notSpace), !split_app by assumption. reflexivity.
  - rewrite (split_without _ _ H), (split_without _ _ (has_trimEnd _ _ H)).
    cbn [hd]. apply trim_trimEnd.
Qed.

Lemma trim_split_first s :
  Js.trim (hd "" (Js.split sep (Js.trim s))) = Js.trim (hd "" (Js.split sep s)).
Proof.
  unfold Js.trim at 2. rewrite trimEnd_split_hd.
  destruct (Ini.has sep s) eqn:H.
  - destruct (cut_at_first sep s H) as (k & E & Hk). rewrite E.
    rewrite (trimStart_app _ _ _ notSpace), !split_app
      by (try apply has_trimStart; assumption).
    cbn [hd]. apply trim_trimStart.
  - rewrite (split_without _ _ H), (split_without _ _ (has_trimStart _ _ H)).
    cbn [hd]. apply trim_trimStart.
Qed.

Lemma trim_split_second s :
  Ini.has sep s = true ->
  Js.trim (nth 1 (Js.split sep (Js.trim s)) "") =
  Js.trim (hd "" (Js.split sep (Ini.afterFirst sep s))).
Proof.
  intros H. destruct (cut_at_first sep s H) as (k & E & Hk).
  rewrite E at 1. unfold Js.trim at 2.
  rewrite (trimStart_app _ _ _ notSpace), (trimEnd_app _ _ _ notSpace).
  rewrite split_app by now apply has_trimStart.
  cbn [nth]. rewrite nth_0_hd. apply trimEnd_split_hd.
Qed.
End TrimSplit.

Lemma substring_0_0 s : String.substring 0 0 s = "".
Proof. destruct s; reflexivity. Qed.

Lemma startsWith_bracket t : Tracker.startsWith t "[" = Js.startsWith t "[".
Proof.
  destruct t as [|c r]; [reflexivity|].
  unfold Tracker.startsWith, Js.startsWith, Js.slice.
  change (String.length "[") with 1%nat.
  assert (L : (1 <= Z.of_nat (String.length (String c r)))%Z) by (cbn [String.length]; lia).
  set (len := Z.of_nat (String.length (String c r))) in *.
  change (0 <? 0)%Z with false. change (Z.of_nat 1 <? 0)%Z with false. cbv iota.
  rewrite (Z.min_l 0 len) by lia. rewrite (Z.min_l (Z.of_nat 1) len) by lia.
  change (Z.to_nat 0) with 0%nat.
  change (Z.to_nat (Z.max (Z.of_nat 1 - 0) 0)) with 1%nat.
  cbn [String.substring String.prefix]. rewrite substring_0_0.
  replace (prefix "" r) with true by (destruct r; reflexivity).
  destruct (ascii_dec "[" c) as [<-|N]; [reflexivity|].
  apply String.eqb_neq. congruence.
Qed.

Lemma endsWith_bracket t : Tracker.endsWith t "]" = Js.endsWith t "]".
Proof.
  unfold Tracker.endsWith, Js.endsWith, Js.slice.
  change (String.length "]") with 1%nat. cbn [String.eqb orb].
  change (- Z.of_nat 1 <? 0)%Z with true. cbv iota.
  destruct t as [|c r]; [reflexivity|].
  set (n := String.length (String c r)).
  assert (L : (1 <= n)%nat) by (subst n; cbn [String.length]; lia).
  replace (1 <=? n)%nat with true by (symmetry; apply Nat.leb_le; exact L).
  rewrite Z.max_l by lia.
  replace (Z.to_nat (Z.of_nat n + - Z.of_nat 1)) with (n - 1)%nat by lia.
  replace (Z.to_nat (Z.max (Z.of_nat n - (Z.of_nat n + - Z.of_nat 1)) 0)) with 1%nat by lia.
  reflexivity.
Qed.

Lemma equals_not_space : Js.isWhiteSpace "=" = false.
Proof. reflexivity. Qed.

(** ** The scan reaches the first line of the section that gives the key
       a value *)
Section FirstAssignment.
Variables section key line : string.
Variable post : list string.
Hypothesis here : Ini.assigns key line = true.

Lemma Tracker_scan_first pre :
  forall cur,
    (forall p1 l p2, pre = p1 ++ l :: p2 ->
       Ini.sectionAfter cur p1 = section -> Ini.assigns key l = false) ->
    Ini.sectionAfter cur pre = section ->
    Tracker.scan section key cur (pre ++ line :: post)
    = Some (Tracker.removeNulls (Ini.valueOf line)).
Proof.
  induction pre as [|l r IH]; intros cur Hpre Hsec; cbn [app Tracker.scan].
  - cbn in Hsec. subst cur.
    unfold Ini.assigns in here.
    apply andb_true_iff in here as [H12 H3]. apply andb_true_iff in H12 as [H1 H2].
    rewrite startsWith_bracket, endsWith_bracket.
    fold (Ini.isHeader line). apply negb_true_iff in H1. rewrite H1.
    rewrite String.eqb_refl, nth_0_hd, H3, split_length_has, H2. cbn [andb].
    unfold Ini.valueOf. now rewrite split_second.
  - rewrite startsWith_bracket, endsWith_bracket. fold (Ini.isHeader l).
    cbn [Ini.sectionAfter] in Hsec.
    assert (Hr : forall p1 l' p2, r = p1 ++ l' :: p2 ->
              Ini.sectionAfter (if Ini.isHeader l then Ini.headerName l else cur) p1 = section ->
              Ini.assigns key l' = false).
    { intros p1 l' p2 E. apply (Hpre (l :: p1) l' p2). now rewrite E. }
    destruct (Ini.isHeader l) eqn:Hh.
    + now apply IH.
    + destruct (String.eqb_spec cur section) as [E|N]; [|now apply IH].
      specialize (Hpre [] l r eq_refl E). unfold Ini.assigns in Hpre.
      rewrite Hh in Hpre. cbn [negb andb] in Hpre.
      rewrite nth_0_hd, split_length_has, andb_comm, Hpre. now apply IH.
Qed.

Lemma Bundled_scan_first pre :
  forall cur,
    (forall p1 l p2, pre = p1 ++ l :: p2 ->
       Ini.sectionAfter cur p1 = section -> Ini.assigns key l = false) ->
    Ini.sectionAfter cur pre = section ->
    Bundled.scan section key cur (pre ++ line :: post) = Some (Ini.valueOf line).
Proof.
  induction pre as [|l r IH]; intros cur Hpre Hsec; cbn [app Bundled.scan]; cbv zeta.
  - cbn in Hsec. subst cur.
    unfold Ini.assigns in here.
    apply andb_true_iff in here as [H12 H3]. apply andb_true_iff in H12 as [H1 H2].
    fold (Ini.isHeader line). apply negb_true_iff in H1. rewrite H1.
    rewrite String.eqb_refl, nth_0_hd, (trim_split_first _ equals_not_space), H3.
    rewrite split_length_has, (trim_has _ equals_not_space), H2. cbn [andb].
    unfold Ini.valueOf. now rewrite (trim_split_second _ equals_not_space).
  - fold (Ini.isHeader l).
    cbn [Ini.sectionAfter] in Hsec.
    assert (Hr : forall p1 l' p2, r = p1 ++ l' :: p2 ->
              Ini.sectionAfter (if Ini.isHeader l then Ini.headerName l else cur) p1 = section ->
              Ini.assigns key l' = false).
    { intros p1 l' p2 E. apply (Hpre (l :: p1) l' p2). now rewrite E. }
    destruct (Ini.isHeader l) eqn:Hh.
    + now apply IH.
    + destruct (String.eqb_spec cur section) as [E|N]; [|now apply IH].
      specialize (Hpre [] l r eq_refl E). unfold Ini.assigns in Hpre.
      rewrite Hh in Hpre. cbn [negb andb] in Hpre.
      rewrite nth_0_hd, (trim_split_first _ equals_not_space).
      rewrite split_length_has, (trim_has _ equals_not_space), andb_comm, Hpre.
      now apply IH.
Qed.
End FirstAssignment.

Lemma removeNulls_clean s : Ini.has Ascii.zero s = false -> Tracker.removeNulls s = s.
Proof.
  induction s as [|c r IH]; cbn; [reflexivity|].
  intros H. apply orb_false_iff in H as [H1 H2]. now rewrite H1, IH.
Qed.

Lemma assigns_has key line : Ini.assigns key line = true -> Ini.has "=" line = true.
Proof.
  unfold Ini.assigns. intros H.
  apply andb_true_iff in H as [H _]. now apply andb_true_iff in H as [_ H].
Qed.

(** ** Sections whose name has a capital *)

Section Casing.
Variables section key : string.
Hypothesis upper : Js.hasUpper section = true.

Lemma Tracker_scan_upper lines :
  forall cur, Js.hasUpper cur = false -> Tracker.scan section key cur lines = None.
Proof.
  induction lines as [|l r IH]; intros cur Hc; cbn [Tracker.scan]; [reflexivity|].
  destruct (_ && _).
  - apply IH, hasUpper_toLowerCase.
  - rewrite (hasUpper_differ cur section Hc upper). now apply IH.
Qed.

Lemma Bundled_scan_upper lines :
  forall cur, Js.hasUpper cur = false -> Bundled.scan section key cur lines = None.
Proof.
  induction lines as [|l r IH]; intros cur Hc; cbn [Bundled.scan]; [reflexivity|].
  cbv zeta. destruct (_ && _).
  - apply IH, hasUpper_toLowerCase.
  - rewrite (hasUpper_differ cur section Hc upper). now apply IH.
Qed.
End Casing.


(** ** Traces *)

Lemma execs_app a b : execs (a ++ b) = execs a ++ execs b.
Proof.
  induction a as [|e r IH]; [reflexivity|]. destruct e; cbn; now rewrite IH.
Qed.

Lemma attempts_none paths : Flush.Attempts paths [].
Proof.
  induction paths as [|p r IH]; [constructor|].
  change (@nil Event) with (@nil Event ++ []). constructor; [now left|exact IH].
Qed.

Section TrackerFacts.
Variable node : Node.
Variable w : World.

Lemma Tracker_getCli_shape (md : Machine Tracker.Dependencies) :
  exists p d' ev,
    Tracker.getCliLocation node w md
    = (inr p, mkMachine d' (logLevel md) (ticks md), ev) /\
    execs ev = [].
Proof.
  unfold Tracker.getCliLocation, Tracker.locate. unfold_monad.
  destruct md as [[r c] lv t]. cbn.
  crunch; do 3 eexists; split; reflexivity.
Qed.

Local Abbreviation single := (Tracker.sendSingleHeartbeat node w).

Local Opaque Tracker.getCliLocation.

Lemma Tracker_single_shape entity c m :
  exists r d' n ev,
    single entity c m
    = (r, mkMachine (Tracker.withDependencies d' (self m)) (logLevel m) (ticks m + n), ev) /\
    (Tracker.dependencies (self m) = None <-> d' = None) /\
    Flush.Attempt entity ev /\
    (Flush.ready (self m) -> r = inr tt).
Proof.
  unfold Flush.ready, Tracker.sendSingleHeartbeat, Tracker.onDependencies.
  destruct m as [[o d l e wd k] lv t].
  destruct k as [k|]; [destruct (Js.truthy k) eqn:Tk; [destruct d as [d|] |] |].
  - destruct (Tracker_getCli_shape {| self := d; logLevel := lv; ticks := t |})
      as (p & d' & ev & E & X).
    unfold_monad. cbn.
    repeat (first [rewrite E | rewrite Tk | break_match]; cbn).
    all: exists (inr tt), (Some d').
    all: first [ exists 0%nat; rewrite Nat.add_0_r; eexists; split; [reflexivity|]
               | exists 1%nat; rewrite Nat.add_1_r; eexists; split; [reflexivity|] ].
    all: (split; [split; discriminate|]).
    all: (split; [|reflexivity]); unfold Flush.Attempt; cbn [execs];
      rewrite ?execs_app, ?X; cbn.
    all: first [ left; reflexivity | right; do 3 eexists; reflexivity ].
  - unfold_monad. cbn. repeat (first [rewrite Tk | break_match]; cbn).
    all: exists (inl (TypeError "this.dependencies is undefined")), None, 0%nat;
      rewrite Nat.add_0_r; eexists; (split; [reflexivity|]).
    all: (split; [split; reflexivity|]); split; [left; reflexivity|].
    all: intros R; exfalso; now apply R.
  - unfold_monad. cbn. repeat (first [rewrite Tk | break_match]; cbn).
    all: exists (inr tt), d, 0%nat; rewrite Nat.add_0_r;
      eexists; (split; [reflexivity|]).
    all: (split; [split; intros H; exact H|]); split; [left; reflexivity|reflexivity].
  - unfold_monad. cbn. crunch.
    all: exists (inr tt), d, 0%nat; rewrite Nat.add_0_r;
      eexists; (split; [reflexivity|]).
    all: (split; [split; intros H; exact H|]); split; [left; reflexivity|reflexivity].
Qed.

Local Transparent Tracker.getCliLocation.

Local Abbreviation body :=
  (fun '(entity, changes) => Tracker.sendSingleHeartbeat node w entity changes).

Lemma Tracker_loop_shape es :
  forall m, exists r d' n ev,
    for_of es body m
    = (r, mkMachine (Tracker.withDependencies d' (self m)) (logLevel m) (ticks m + n), ev) /\
    (Tracker.dependencies (self m) = None <-> d' = None) /\
    Flush.Attempts (Js.keys es) ev /\
    (Flush.ready (self m) -> r = inr tt).
Proof.
  induction es as [|[entity c] es IH]; intros m.
  - exists (inr tt), (Tracker.dependencies (self m)), 0%nat, [].
    rewrite Nat.add_0_r. destruct m as [[o d l e wd k] lv t]. cbn.
    repeat split; auto. constructor.
  - destruct (Tracker_single_shape entity c m) as (r1 & d1 & n1 & ev1 & E1 & D1 & A1 & R1).
    cbn [for_of Js.keys map fst]. unfold bind. cbv beta iota. rewrite E1.
    destruct r1 as [err|[]].
    + exists (inl err), d1, n1, ev1. repeat split; try apply D1.
      * rewrite <- (app_nil_r ev1). constructor; [exact A1|apply attempts_none].
      * intros R. specialize (R1 R). discriminate.
    + destruct (IH (mkMachine (Tracker.withDependencies d1 (self m)) (logLevel m) (ticks m + n1)))
        as (r2 & d2 & n2 & ev2 & E2 & D2 & A2 & R2).
      rewrite E2. cbn [self logLevel ticks] in *.
      exists r2, d2, (n1 + n2)%nat, (ev1 ++ ev2).
      rewrite Nat.add_assoc. repeat split.
      * intros H. apply D2. cbn. now apply D1.
      * intros H. apply D1. apply D2 in H. exact H.
      * now constructor.
      * intros R. apply R2. unfold Flush.ready in *. cbn.
        intros K N. apply D1 in N. now apply R.
Qed.

(** The flush of a tracker that can send. *)
Lemma Tracker_flush_shape m :
  Flush.ready (self m) ->
  exists d' n ev,
    Tracker.sendHeartbeat node w m
    = (inr tt,
       mkMachine (Tracker.withLastHeartbeatAt (clock w (ticks m + n))
                    (Tracker.withFileEntities []
                       (Tracker.withDependencies d' (self m))))
                 (logLevel m) (S (ticks m + n)),
       ev) /\
    (Tracker.dependencies (self m) = None <-> d' = None) /\
    Flush.Attempts (Js.keys (Tracker.fileEntities (self m))) ev.
Proof.
  intros R.
  destruct (Tracker_loop_shape (Tracker.fileEntities (self m)) m)
    as (r & d' & n & ev & E & D & A & T).
  rewrite (T R) in E. exists d', n, ev. split; [|split; assumption].
  unfold Tracker.sendHeartbeat, Tracker.sendHeartbeats, Tracker.clearEntities.
  unfold bind at 1. unfold bind at 1. unfold gets at 1.
  rewrite E. unfold_monad. cbn. now rewrite app_nil_r.
Qed.

Local Opaque Tracker.getCliLocation.

(** One heartbeat on two trackers that differ in what is pending, for two
    counts: the same outcome, the same change, the same calls. *)
Lemma Tracker_single_counts entity c1 c2 e1 e2 t lv tk :
  exists r d' n ev1 ev2,
    single entity c1 (mkMachine (Tracker.withFileEntities e1 t) lv tk)
    = (r, mkMachine (Tracker.withDependencies d' (Tracker.withFileEntities e1 t)) lv (tk + n), ev1) /\
    single entity c2 (mkMachine (Tracker.withFileEntities e2 t) lv tk)
    = (r, mkMachine (Tracker.withDependencies d' (Tracker.withFileEntities e2 t)) lv (tk + n), ev2) /\
    execs ev1 = execs ev2.
Proof.
  unfold Tracker.sendSingleHeartbeat, Tracker.onDependencies.
  destruct t as [o d l e wd k].
  destruct k as [k|]; [destruct (Js.truthy k) eqn:Tk; [destruct d as [d|] |] |].
  - destruct (Tracker_getCli_shape {| self := d; logLevel := lv; ticks := tk |})
      as (p & d' & ev & E & X).
    unfold_monad. cbn.
    repeat (first [rewrite E | rewrite Tk | break_match]; cbn).
    all: exists (inr tt), (Some d').
    all: first [ exists 0%nat; rewrite Nat.add_0_r; do 2 eexists;
                 split; [reflexivity|split; [reflexivity|] ]
               | exists 1%nat; rewrite Nat.add_1_r; do 2 eexists;
                 split; [reflexivity|split; [reflexivity|] ] ].
    all: cbn [execs]; rewrite ?execs_app, ?X; reflexivity.
  - unfold_monad. cbn. repeat (first [rewrite Tk | break_match]; cbn).
    all: exists (inl (TypeError "this.dependencies is undefined")), None, 0%nat;
      rewrite Nat.add_0_r; do 2 eexists;
      split; [reflexivity|split; [reflexivity|] ]; reflexivity.
  - unfold_monad. cbn. repeat (first [rewrite Tk | break_match]; cbn).
    all: exists (inr tt), d, 0%nat; rewrite Nat.add_0_r; do 2 eexists;
      split; [reflexivity|split; [reflexivity|] ]; reflexivity.
  - unfold_monad. cbn. crunch.
    all: exists (inr tt), d, 0%nat; rewrite Nat.add_0_r; do 2 eexists;
      split; [reflexivity|split; [reflexivity|] ]; reflexivity.
Qed.

Local Transparent Tracker.getCliLocation.

(** One heartbeat with the key set and the CLI found and still there. *)
Lemma Tracker_single_sent entity c t lv tk key d cli :
  Tracker.apiKey t = Some key -> Js.truthy key = true ->
  Tracker.dependencies t = Some d ->
  Tracker.cliLocation d = Some cli -> Js.truthy cli = true ->
  fs_exists w cli = true ->
  exists ev,
    single entity c (mkMachine t lv tk) = (inr tt, mkMachine t lv (S tk), ev) /\
    execs ev = Flush.heartbeats node w cli key tk [entity].
Proof.
  intros K Tk D C Tc X.
  unfold Tracker.sendSingleHeartbeat, Tracker.onDependencies.
  destruct t as [o d0 l e wd k]. cbn in K, D. subst k d0. destruct d as [res c0].
  cbn in C. subst c0.
  unfold Tracker.getCliLocation.
  unfold_monad. cbn.
  repeat (first [rewrite Tk | rewrite Tc | rewrite X | break_match]; cbn).
  all: eexists; split; reflexivity.
Qed.

Lemma Tracker_loop_counts es1 :
  forall es2 e1 e2 t lv tk,
    Js.keys es1 = Js.keys es2 ->
    exists r d' n ev1 ev2,
      for_of es1 body (mkMachine (Tracker.withFileEntities e1 t) lv tk)
      = (r, mkMachine (Tracker.withDependencies d' (Tracker.withFileEntities e1 t)) lv (tk + n), ev1) /\
      for_of es2 body (mkMachine (Tracker.withFileEntities e2 t) lv tk)
      = (r, mkMachine (Tracker.withDependencies d' (Tracker.withFileEntities e2 t)) lv (tk + n), ev2) /\
      execs ev1 = execs ev2.
Proof.
  induction es1 as [|[entity c1] es1 IH]; intros [|[entity' c2] es2] e1 e2 t lv tk K;
    try discriminate K.
  - exists (inr tt), (Tracker.dependencies t), 0%nat, [], [].
    rewrite Nat.add_0_r. destruct t. cbn. repeat split.
  - cbn in K. injection K as <- K.
    destruct (Tracker_single_counts entity c1 c2 e1 e2 t lv tk)
      as (r1 & d1 & n1 & ev1 & ev2 & E1 & E2 & X).
    cbn [for_of]. unfold bind. cbv beta iota. rewrite E1, E2.
    destruct r1 as [err|[]].
    + exists (inl err), d1, n1, ev1, ev2. repeat split. exact X.
    + destruct (IH es2 e1 e2 (Tracker.withDependencies d1 t) lv (tk + n1)%nat K)
        as (r2 & d2 & n2 & ev1' & ev2' & E1' & E2' & X').
      change (Tracker.withDependencies d1 (Tracker.withFileEntities e1 t))
        with (Tracker.withFileEntities e1 (Tracker.withDependencies d1 t)).
      change (Tracker.withDependencies d1 (Tracker.withFileEntities e2 t))
        with (Tracker.withFileEntities e2 (Tracker.withDependencies d1 t)).
      rewrite E1', E2'.
      exists r2, d2, (n1 + n2)%nat, (ev1 ++ ev1'), (ev2 ++ ev2').
      rewrite Nat.add_assoc, !execs_app, X, X'. repeat split.
Qed.

Lemma Tracker_loop_sent es :
  forall t lv tk key d cli,
    Tracker.apiKey t = Some key -> Js.truthy key = true ->
    Tracker.dependencies t = Some d ->
    Tracker.cliLocation d = Some cli -> Js.truthy cli = true ->
    fs_exists w cli = true ->
    exists ev,
      for_of es body (mkMachine t lv tk)
      = (inr tt, mkMachine t lv (tk + List.length es), ev) /\
      execs ev = Flush.heartbeats node w cli key tk (Js.keys es).
Proof.
  induction es as [|[entity c] es IH]; intros t lv tk key d cli K Tk D C Tc X.
  - exists []. cbn. now rewrite Nat.add_0_r.
  - destruct (Tracker_single_sent entity c t lv tk key d cli K Tk D C Tc X) as (ev1 & E1 & X1).
    destruct (IH t lv (S tk) key d cli K Tk D C Tc X) as (ev2 & E2 & X2).
    cbn [for_of]. unfold bind. cbv beta iota. rewrite E1, E2.
    exists (ev1 ++ ev2). cbn [List.length]. rewrite Nat.add_succ_r. split; [reflexivity|].
    rewrite execs_app, X1, X2. reflexivity.
Qed.

(** The flush with the key set and the CLI found and still there. *)
Lemma Tracker_flush_sent m key d cli :
  Tracker.apiKey (self m) = Some key -> Js.truthy key = true ->
  Tracker.dependencies (self m) = Some d ->
  Tracker.cliLocation d = Some cli -> Js.truthy cli = true ->
  fs_exists w cli = true ->
  let x := Tracker.sendHeartbeat node w m in
  outcome x = inr tt /\
  execs (events x)
  = Flush.heartbeats node w cli key (ticks m) (Js.keys (Tracker.fileEntities (self m))).
Proof.
  intros K Tk D C Tc X. cbv zeta. destruct m as [t lv tk]. cbn [self ticks] in *.
  destruct (Tracker_loop_sent (Tracker.fileEntities t) t lv tk key d cli K Tk D C Tc X)
    as (ev & E & H).
  assert (Q : exists m', Tracker.sendHeartbeat node w (mkMachine t lv tk) = (inr tt, m', ev)).
  { unfold Tracker.sendHeartbeat, Tracker.sendHeartbeats, Tracker.clearEntities.
    unfold bind at 1. unfold bind at 1. unfold gets at 1. cbn [self].
    rewrite E. unfold_monad. cbn. rewrite ?app_nil_r. eexists. reflexivity. }
  destruct Q as (m' & Q). rewrite Q. split; [reflexivity|exact H].
Qed.

(** The flush on two trackers that differ in the counts only. *)
Lemma Tracker_flush_counts t lv tk e1 e2 :
  Js.keys e1 = Js.keys e2 ->
  let x1 := Tracker.sendHeartbeat node w (mkMachine (Tracker.withFileEntities e1 t) lv tk) in
  let x2 := Tracker.sendHeartbeat node w (mkMachine (Tracker.withFileEntities e2 t) lv tk) in
  outcome x1 = outcome x2 /\ execs (events x1) = execs (events x2).
Proof.
  intros K. cbv zeta.
  destruct (Tracker_loop_counts e1 e2 e1 e2 t lv tk K)
    as (r & d' & n & ev1 & ev2 & E1 & E2 & X).
  assert (Q1 : exists m', Tracker.sendHeartbeat node w (mkMachine (Tracker.withFileEntities e1 t) lv tk)
                          = (r, m', ev1)).
  { unfold Tracker.sendHeartbeat, Tracker.sendHeartbeats, Tracker.clearEntities.
    unfold bind at 1. unfold bind at 1. unfold gets at 1.
    cbn [self Tracker.fileEntities Tracker.withFileEntities].
    cbn [Tracker.withFileEntities] in E1. rewrite E1.
    destruct r as [err|[]]; unfold_monad; cbn; rewrite ?app_nil_r; eexists; reflexivity. }
  assert (Q2 : exists m', Tracker.sendHeartbeat node w (mkMachine (Tracker.withFileEntities e2 t) lv tk)
                          = (r, m', ev2)).
  { unfold Tracker.sendHeartbeat, Tracker.sendHeartbeats, Tracker.clearEntities.
    unfold bind at 1. unfold bind at 1. unfold gets at 1.
    cbn [self Tracker.fileEntities Tracker.withFileEntities].
    cbn [Tracker.withFileEntities] in E2. rewrite E2.
    destruct r as [err|[]]; unfold_monad; cbn; rewrite ?app_nil_r; eexists; reflexivity. }
  destruct Q1 as (m1 & Q1). destruct Q2 as (m2 & Q2). rewrite Q1, Q2.
  split; [reflexivity|exact X].
Qed.

Local Opaque Tracker.sendHeartbeat.

(** [trackFileEdit], step by step, for a file that exists. *)
Lemma Tracker_trackFileEdit_eq filePath operation lineChanges m :
  Flush.ready (self m) ->
  fs_exists w filePath = true ->
  let t := self m in
  let path := Flush.fullPath node (Tracker.workingDirectory t) filePath in
  let added := Flush.addedOr (Flush.lineCount w path) lineChanges in
  let t1 := Tracker.withFileEntities
              (Flush.noted operation (Tracker.fileEntities t) path added) t in
  let pre := EvExists filePath
             :: (if Flush.isEdit operation && (lineChanges =? 0)%Z
                 then [EvReadFile path] else []) in
  let m1 := mkMachine t1 (logLevel m) (S (ticks m)) in
  Tracker.trackFileEdit node w filePath operation lineChanges m
  = if Flush.due (clock w (ticks m)) (Tracker.lastHeartbeatAt t)
    then (outcome (Tracker.sendHeartbeat node w m1),
          after (Tracker.sendHeartbeat node w m1),
          pre ++ events (Tracker.sendHeartbeat node w m1))
    else (inr tt, m1, pre).
Proof.
  intros R X. cbv zeta.
  unfold Tracker.trackFileEdit, Tracker.isValidFilePath, Tracker.calculateLineChanges,
    Tracker.shouldSendHeartbeat, Flush.fullPath, Flush.lineCount, Flush.due,
    Flush.noted, Flush.filed, Flush.count, Flush.addedOr, Flush.isEdit.
  change (bind (Tracker.sendHeartbeats node w) (fun _ => Tracker.clearEntities w))
    with (Tracker.sendHeartbeat node w).
  destruct m as [[o d l e wd k] lv tk]. cbn [self ticks logLevel Tracker.workingDirectory
    Tracker.fileEntities Tracker.lastHeartbeatAt] in *.
  set (path := if path_isAbsolute node filePath then filePath
               else path_join node [wd; filePath]).
  destruct (String.eqb operation "write" || String.eqb operation "edit") eqn:Ed;
    destruct (lineChanges =? 0)%Z eqn:L0;
    destruct (60000 <=? clock w tk - l)%Z eqn:Du;
    try destruct (fs_readFile w path) as [content|] eqn:RF.
  all: unfold Tracker.withFileEntities; unfold_monad; cbn; rewrite ?X, ?Ed, ?L0; cbn;
    fold path; rewrite ?RF; cbn; rewrite ?Du; cbn.
  all: try reflexivity.
  all: match goal with
       | |- context [Tracker.sendHeartbeat node w ?mm] =>
           destruct (Tracker_flush_shape mm R) as (d' & n & ev & E & _ & _);
           rewrite E; reflexivity
       end.
Qed.

Local Transparent Tracker.sendHeartbeat.

End TrackerFacts.

Section BundledFacts.
Variable node : Node.
Variable w : World.

Lemma Bundled_getCli_shape opts (md : Machine Bundled.Dependencies) :
  exists p d' ev,
    Bundled.getCliLocation node w opts md
    = (inr p, mkMachine d' (logLevel md) (ticks md), ev) /\
    execs ev = [].
Proof.
  unfold Bundled.getCliLocation, Bundled.firstExisting. unfold_monad.
  destruct md as [[c] lv t]. cbn.
  crunch; do 3 eexists; split; reflexivity.
Qed.

Local Abbreviation single := (Bundled.sendSingleHeartbeat node w).
Local Abbreviation body :=
  (fun '(entity, changes) => Bundled.sendSingleHeartbeat node w entity changes).

Local Opaque Bundled.getCliLocation.

Lemma Bundled_single_counts entity c1 c2 e1 e2 t lv tk :
  exists d' n ev1 ev2,
    single entity c1 (mkMachine (Bundled.withFileEntities e1 t) lv tk)
    = (inr tt, mkMachine (Bundled.withDependencies d' (Bundled.withFileEntities e1 t)) lv (tk + n), ev1) /\
    single entity c2 (mkMachine (Bundled.withFileEntities e2 t) lv tk)
    = (inr tt, mkMachine (Bundled.withDependencies d' (Bundled.withFileEntities e2 t)) lv (tk + n), ev2) /\
    execs ev1 = execs ev2 /\
    Flush.Attempt entity ev1.
Proof.
  unfold Bundled.sendSingleHeartbeat, Bundled.onDependencies.
  destruct t as [o d l e wd k].
  destruct k as [k|]; [destruct (Js.truthy k) eqn:Tk|].
  - destruct (Bundled_getCli_shape o {| self := d; logLevel := lv; ticks := tk |})
      as (p & d' & ev & E & X).
    unfold_monad. cbn.
    repeat (first [rewrite E | rewrite Tk | break_match]; cbn).
    all: exists d'.
    all: first [ exists 0%nat; rewrite Nat.add_0_r; do 2 eexists;
                 split; [reflexivity|split; [reflexivity|] ]
               | exists 1%nat; rewrite Nat.add_1_r; do 2 eexists;
                 split; [reflexivity|split; [reflexivity|] ] ].
    all: unfold Flush.Attempt; cbn [execs]; rewrite ?execs_app, ?X; cbn.
    all: split; [reflexivity|].
    all: first [ left; reflexivity | right; do 3 eexists; reflexivity ].
  - unfold_monad. cbn. repeat (first [rewrite Tk | break_match]; cbn).
    all: exists d, 0%nat; rewrite Nat.add_0_r; do 2 eexists;
      split; [reflexivity|split; [reflexivity|] ]; split; [reflexivity|left; reflexivity].
  - unfold_monad. cbn.
    exists d, 0%nat; rewrite Nat.add_0_r; do 2 eexists;
      split; [reflexivity|split; [reflexivity|] ]; split; [reflexivity|left; reflexivity].
Qed.

Local Transparent Bundled.getCliLocation.

Lemma Bundled_single_sent entity c t lv tk key cli :
  Bundled.apiKey t = Some key -> Js.truthy key = true ->
  Bundled.cliLocation (Bundled.dependencies t) = Some cli -> Js.truthy cli = true ->
  exists ev,
    single entity c (mkMachine t lv tk) = (inr tt, mkMachine t lv (S tk), ev) /\
    execs ev = Flush.heartbeats node w cli key tk [entity].
Proof.
  intros K Tk C Tc.
  unfold Bundled.sendSingleHeartbeat, Bundled.onDependencies, Bundled.getCliLocation.
  destruct t as [o [c0] l e wd k]. cbn in K, C. subst k c0.
  unfold_monad. cbn.
  repeat (first [rewrite Tk | rewrite Tc | break_match]; cbn).
  all: eexists; split; reflexivity.
Qed.

Lemma Bundled_loop_counts es1 :
  forall es2 e1 e2 t lv tk,
    Js.keys es1 = Js.keys es2 ->
    exists d' n ev1 ev2,
      for_of es1 body (mkMachine (Bundled.withFileEntities e1 t) lv tk)
      = (inr tt, mkMachine (Bundled.withDependencies d' (Bundled.withFileEntities e1 t)) lv (tk + n), ev1) /\
      for_of es2 body (mkMachine (Bundled.withFileEntities e2 t) lv tk)
      = (inr tt, mkMachine (Bundled.withDependencies d' (Bundled.withFileEntities e2 t)) lv (tk + n), ev2) /\
      execs ev1 = execs ev2 /\
      Flush.Attempts (Js.keys es1) ev1.
Proof.
  induction es1 as [|[entity c1] es1 IH]; intros [|[entity' c2] es2] e1 e2 t lv tk K;
    try discriminate K.
  - exists (Bundled.dependencies t), 0%nat, [], [].
    rewrite Nat.add_0_r. destruct t. cbn. repeat split. constructor.
  - cbn in K. injection K as <- K.
    destruct (Bundled_single_counts entity c1 c2 e1 e2 t lv tk)
      as (d1 & n1 & ev1 & ev2 & E1 & E2 & X & A).
    cbn [for_of]. unfold bind. cbv beta iota. rewrite E1, E2.
    destruct (IH es2 e1 e2 (Bundled.withDependencies d1 t) lv (tk + n1)%nat K)
      as (d2 & n2 & ev1' & ev2' & E1' & E2' & X' & A').
    change (Bundled.withDependencies d1 (Bundled.withFileEntities e1 t))
      with (Bundled.withFileEntities e1 (Bundled.withDependencies d1 t)).
    change (Bundled.withDependencies d1 (Bundled.withFileEntities e2 t))
      with (Bundled.withFileEntities e2 (Bundled.withDependencies d1 t)).
    rewrite E1', E2'.
    exists d2, (n1 + n2)%nat, (ev1 ++ ev1'), (ev2 ++ ev2').
    rewrite Nat.add_assoc, !execs_app, X, X'. repeat split.
    cbn. now constructor.
Qed.

Lemma Bundled_loop_sent es :
  forall t lv tk key cli,
    Bundled.apiKey t = Some key -> Js.truthy key = true ->
    Bundled.cliLocation (Bundled.dependencies t) = Some cli -> Js.truthy cli = true ->
    exists ev,
      for_of es body (mkMachine t lv tk)
      = (inr tt, mkMachine t lv (tk + List.length es), ev) /\
      execs ev = Flush.heartbeats node w cli key tk (Js.keys es).
Proof.
  induction es as [|[entity c] es IH]; intros t lv tk key cli K Tk C Tc.
  - exists []. cbn. now rewrite Nat.add_0_r.
  - destruct (Bundled_single_sent entity c t lv tk key cli K Tk C Tc) as (ev1 & E1 & X1).
    destruct (IH t lv (S tk) key cli K Tk C Tc) as (ev2 & E2 & X2).
    cbn [for_of]. unfold bind. cbv beta iota. rewrite E1, E2.
    exists (ev1 ++ ev2). cbn [List.length]. rewrite Nat.add_succ_r. split; [reflexivity|].
    rewrite execs_app, X1, X2. reflexivity.
Qed.

(** The flush of the bundle. *)
Lemma Bundled_flush_shape m :
  exists d' n ev,
    Bundled.sendHeartbeat node w m
    = (inr tt,
       mkMachine (Bundled.withLastHeartbeatAt (clock w (ticks m + n))
                    (Bundled.withFileEntities []
                       (Bundled.withDependencies d' (self m))))
                 (logLevel m) (S (ticks m + n)),
       ev) /\
    Flush.Attempts (Js.keys (Bundled.fileEntities (self m))) ev.
Proof.
  destruct m as [t lv tk].
  destruct (Bundled_loop_counts (Bundled.fileEntities t) (Bundled.fileEntities t)
              (Bundled.fileEntities t) (Bundled.fileEntities t) t lv tk eq_refl)
    as (d' & n & ev & ev' & E & _ & _ & A).
  exists d', n, ev. split; [|exact A].
  unfold Bundled.sendHeartbeat, Bundled.sendHeartbeats.
  unfold bind at 1. unfold bind at 1. unfold gets at 1.
  cbn [self].
  replace (Bundled.withFileEntities (Bundled.fileEntities t) t) with t in E
    by (destruct t; reflexivity).
  rewrite E. unfold_monad. cbn. now rewrite app_nil_r.
Qed.

Lemma Bundled_flush_sent m key cli :
  Bundled.apiKey (self m) = Some key -> Js.truthy key = true ->
  Bundled.cliLocation (Bundled.dependencies (self m)) = Some cli -> Js.truthy cli = true ->
  let x := Bundled.sendHeartbeat node w m in
  execs (events x)
  = Flush.heartbeats node w cli key (ticks m) (Js.keys (Bundled.fileEntities (self m))).
Proof.
  intros K Tk C Tc. cbv zeta. destruct m as [t lv tk]. cbn [self ticks] in *.
  destruct (Bundled_loop_sent (Bundled.fileEntities t) t lv tk key cli K Tk C Tc)
    as (ev & E & H).
  assert (Q : exists m', Bundled.sendHeartbeat node w (mkMachine t lv tk) = (inr tt, m', ev)).
  { unfold Bundled.sendHeartbeat, Bundled.sendHeartbeats.
    unfold bind at 1. unfold bind at 1. unfold gets at 1. cbn [self].
    rewrite E. unfold_monad. cbn. rewrite ?app_nil_r. eexists. reflexivity. }
  destruct Q as (m' & Q). rewrite Q. exact H.
Qed.

Lemma Bundled_flush_counts t lv tk e1 e2 :
  Js.keys e1 = Js.keys e2 ->
  let x1 := Bundled.sendHeartbeat node w (mkMachine (Bundled.withFileEntities e1 t) lv tk) in
  let x2 := Bundled.sendHeartbeat node w (mkMachine (Bundled.withFileEntities e2 t) lv tk) in
  after x1 = after x2 /\ execs (events x1) = execs (events x2).
Proof.
  intros K. cbv zeta.
  destruct (Bundled_loop_counts e1 e2 e1 e2 t lv tk K)
    as (d' & n & ev1 & ev2 & E1 & E2 & X & _).
  assert (Q1 : Bundled.sendHeartbeat node w (mkMachine (Bundled.withFileEntities e1 t) lv tk)
               = (inr tt,
                  mkMachine (Bundled.withLastHeartbeatAt (clock w (tk + n))
                               (Bundled.withFileEntities [] (Bundled.withDependencies d' t)))
                            lv (S (tk + n)), ev1)).
  { unfold Bundled.sendHeartbeat, Bundled.sendHeartbeats.
    unfold bind at 1. unfold bind at 1. unfold gets at 1.
    cbn [self Bundled.fileEntities Bundled.withFileEntities].
    cbn [Bundled.withFileEntities] in E1. rewrite E1.
    unfold_monad; cbn; rewrite ?app_nil_r; reflexivity. }
  assert (Q2 : Bundled.sendHeartbeat node w (mkMachine (Bundled.withFileEntities e2 t) lv tk)
               = (inr tt,
                  mkMachine (Bundled.withLastHeartbeatAt (clock w (tk + n))
                               (Bundled.withFileEntities [] (Bundled.withDependencies d' t)))
                            lv (S (tk + n)), ev2)).
  { unfold Bundled.sendHeartbeat, Bundled.sendHeartbeats.
    unfold bind at 1. unfold bind at 1. unfold gets at 1.
    cbn [self Bundled.fileEntities Bundled.withFileEntities].
    cbn [Bundled.withFileEntities] in E2. rewrite E2.
    unfold_monad; cbn; rewrite ?app_nil_r; reflexivity. }
  rewrite Q1, Q2. split; [reflexivity|exact X].
Qed.

Local Opaque Bundled.sendHeartbeat.

Lemma Bundled_trackFileEdit_eq filePath operation lineChanges m :
  let t := self m in
  let path := Flush.fullPath node (Bundled.workingDirectory t) filePath in
  fs_exists w path = true ->
  let added := Flush.addedOr 1 lineChanges in
  let t1 := Bundled.withFileEntities
              (Flush.noted operation (Bundled.fileEntities t) path added) t in
  let m1 := mkMachine t1 (logLevel m) (S (ticks m)) in
  Bundled.trackFileEdit node w filePath operation lineChanges m
  = if Flush.due (clock w (ticks m)) (Bundled.lastHeartbeatAt t)
    then (outcome (Bundled.sendHeartbeat node w m1),
          after (Bundled.sendHeartbeat node w m1),
          EvExists path :: events (Bundled.sendHeartbeat node w m1))
    else (inr tt, m1, [EvExists path]).
Proof.
  cbv zeta. intros X.
  unfold Bundled.trackFileEdit, Flush.fullPath, Flush.due,
    Flush.noted, Flush.filed, Flush.count, Flush.addedOr, Flush.isEdit in *.
  change (bind (Bundled.sendHeartbeats node w)
            (fun _ => bind (modify (Bundled.withFileEntities []))
               (fun _ => bind (Date_now w)
                  (fun now' => modify (Bundled.withLastHeartbeatAt now')))))
    with (Bundled.sendHeartbeat node w).
  destruct m as [[o d l e wd k] lv tk]. cbn [self ticks logLevel Bundled.workingDirectory
    Bundled.fileEntities Bundled.lastHeartbeatAt] in *.
  set (path := if path_isAbsolute node filePath then filePath
               else path_join node [wd; filePath]) in *.
  destruct (String.eqb operation "write" || String.eqb operation "edit") eqn:Ed;
    destruct (lineChanges =? 0)%Z eqn:L0;
    destruct (60000 <=? clock w tk - l)%Z eqn:Du.
  all: unfold Bundled.withFileEntities; unfold_monad; cbn; fold path;
    rewrite ?X, ?Ed, ?L0; cbn; rewrite ?Du; cbn.
  all: try reflexivity.
  all: match goal with
       | |- context [Bundled.sendHeartbeat node w ?mm] =>
           destruct (Bundled_flush_shape mm) as (d' & n & ev & E & _);
           rewrite E; reflexivity
       end.
Qed.

Local Transparent Bundled.sendHeartbeat.

End BundledFacts.

Section Locator.
Variable node : Node.
Variables w0 w : World.

(** A lookup without a usable memo checks the candidates in order and
    answers with the first that exists. *)
Lemma Tracker_lookup_fresh (md : Machine Tracker.Dependencies) :
  Js.truthyOpt (Tracker.cliLocation (self md)) = false ->
  let x := Tracker.getCliLocation node w md in
  let cands := Flush.candidates node (Tracker.resourcesLocation (self md)) in
  outcome x = inr (Flush.firstExistingOr w cands) /\
  checks (events x) = Flush.upTo (fs_exists w) cands /\
  Tracker.cliLocation (self (after x)) = Some (Flush.firstExistingOr w cands).
Proof.
  destruct md as [[r c] lv t]. cbn [self Tracker.cliLocation Tracker.resourcesLocation].
  intros F. cbv zeta.
  unfold Tracker.getCliLocation, Tracker.locate, Flush.candidates, Flush.firstExistingOr.
  unfold_monad. cbn.
  destruct c as [p|]; cbn in F; rewrite ?F; crunch; repeat split;
    cbn in *; congruence.
Qed.

(** After a lookup that answered with the empty string there is no usable
    memo. *)
Lemma Tracker_lookup_missed (md : Machine Tracker.Dependencies) :
  outcome (Tracker.getCliLocation node w0 md) = inr "" ->
  Js.truthyOpt (Tracker.cliLocation (self (after (Tracker.getCliLocation node w0 md)))) = false /\
  Tracker.resourcesLocation (self (after (Tracker.getCliLocation node w0 md)))
  = Tracker.resourcesLocation (self md).
Proof.
  destruct md as [[r c] lv t].
  unfold Tracker.getCliLocation, Tracker.locate.
  unfold_monad. cbn.
  destruct c as [p|]; crunch; intros H; try discriminate H; split; try reflexivity.
  all: try (injection H as ->; try discriminate; reflexivity).
  all: try (injection H as H; cbn; now rewrite H).
Qed.

Lemma Bundled_lookup_fresh opts (md : Machine Bundled.Dependencies) :
  Js.truthyOpt (Bundled.cliLocation (self md)) = false ->
  let x := Bundled.getCliLocation node w opts md in
  let cands := Flush.candidates node (Bundled._resourcesLocation opts) in
  outcome x = inr (Flush.firstExistingOr w cands) /\
  checks (events x) = Flush.upTo (fs_exists w) cands.
Proof.
  destruct md as [[c] lv t]. cbn [self Bundled.cliLocation].
  intros F. cbv zeta.
  unfold Bundled.getCliLocation, Bundled.firstExisting, Flush.candidates, Flush.firstExistingOr.
  unfold_monad. cbn. rewrite F. cbn.
  crunch; repeat split; cbn in *; congruence.
Qed.

Lemma Bundled_lookup_missed opts (md : Machine Bundled.Dependencies) :
  outcome (Bundled.getCliLocation node w0 opts md) = inr "" ->
  Js.truthyOpt (Bundled.cliLocation (self (after (Bundled.getCliLocation node w0 opts md)))) = false.
Proof.
  destruct md as [[c] lv t].
  unfold Bundled.getCliLocation, Bundled.firstExisting.
  unfold_monad. cbn.
  destruct (Js.truthyOpt c) eqn:F; cbn.
  - destruct c as [p|]; [|discriminate F]. cbn in F. intros H. injection H as ->. discriminate F.
  - crunch; intros H; try discriminate H; try exact F.
    all: injection H as H; cbn; now rewrite H.
Qed.
End Locator.

(** ** What [trackFileEdit] does to a file that exists *)

Section Tracking.
Variable node : Node.
Variable w : World.

Lemma Tracker_edit_idle filePath operation lineChanges m :
  Flush.ready (self m) ->
  fs_exists w filePath = true ->
  Flush.due (clock w (ticks m)) (Tracker.lastHeartbeatAt (self m)) = false ->
  let path := Flush.fullPath node (Tracker.workingDirectory (self m)) filePath in
  let pending := Flush.noted operation (Tracker.fileEntities (self m)) path
                   (Flush.addedOr (Flush.lineCount w path) lineChanges) in
  Tracker.trackFileEdit node w filePath operation lineChanges m
  = (inr tt,
     mkMachine (Tracker.withFileEntities pending (self m)) (logLevel m) (S (ticks m)),
     EvExists filePath
     :: (if Flush.isEdit operation && (lineChanges =? 0)%Z then [EvReadFile path] else [])).
Proof.
  intros R X D. rewrite Tracker_trackFileEdit_eq by assumption. cbv zeta. now rewrite D.
Qed.

Lemma Tracker_edit_due filePath operation lineChanges m :
  Flush.ready (self m) ->
  fs_exists w filePath = true ->
  Flush.due (clock w (ticks m)) (Tracker.lastHeartbeatAt (self m)) = true ->
  let path := Flush.fullPath node (Tracker.workingDirectory (self m)) filePath in
  let pending := Flush.noted operation (Tracker.fileEntities (self m)) path
                   (Flush.addedOr (Flush.lineCount w path) lineChanges) in
  exists d' n ev,
    Tracker.trackFileEdit node w filePath operation lineChanges m
    = (inr tt,
       mkMachine (Tracker.withLastHeartbeatAt (clock w (S (ticks m) + n))
                    (Tracker.withFileEntities []
                       (Tracker.withDependencies d' (self m))))
                 (logLevel m) (S (S (ticks m) + n)),
       (EvExists filePath
        :: (if Flush.isEdit operation && (lineChanges =? 0)%Z then [EvReadFile path] else []))
       ++ ev) /\
    (Tracker.dependencies (self m) = None <-> d' = None) /\
    Flush.Attempts (Js.keys pending) ev.
Proof.
  intros R X D. cbv zeta. rewrite Tracker_trackFileEdit_eq by assumption. cbv zeta.
  rewrite D.
  match goal with
  | |- context [Tracker.sendHeartbeat node w ?mm] =>
      destruct (Tracker_flush_shape node w mm R) as (d' & n & ev & E & N & A)
  end.
  rewrite E. exists d', n, ev. cbn [outcome after events fst snd self ticks logLevel] in *.
  repeat split; try apply N; exact A.
Qed.

Lemma Bundled_edit_idle filePath operation lineChanges m :
  let path := Flush.fullPath node (Bundled.workingDirectory (self m)) filePath in
  fs_exists w path = true ->
  Flush.due (clock w (ticks m)) (Bundled.lastHeartbeatAt (self m)) = false ->
  let pending := Flush.noted operation (Bundled.fileEntities (self m)) path
                   (Flush.addedOr 1 lineChanges) in
  Bundled.trackFileEdit node w filePath operation lineChanges m
  = (inr tt,
     mkMachine (Bundled.withFileEntities pending (self m)) (logLevel m) (S (ticks m)),
     [EvExists path]).
Proof.
  cbv zeta. intros X D. rewrite Bundled_trackFileEdit_eq by assumption. cbv zeta. now rewrite D.
Qed.

Lemma Bundled_edit_due filePath operation lineChanges m :
  let path := Flush.fullPath node (Bundled.workingDirectory (self m)) filePath in
  fs_exists w path = true ->
  Flush.due (clock w (ticks m)) (Bundled.lastHeartbeatAt (self m)) = true ->
  let pending := Flush.noted operation (Bundled.fileEntities (self m)) path
                   (Flush.addedOr 1 lineChanges) in
  exists d' n ev,
    Bundled.trackFileEdit node w filePath operation lineChanges m
    = (inr tt,
       mkMachine (Bundled.withLastHeartbeatAt (clock w (S (ticks m) + n))
                    (Bundled.withFileEntities []
                       (Bundled.withDependencies d' (self m))))
                 (logLevel m) (S (S (ticks m) + n)),
       EvExists path :: ev) /\
    Flush.Attempts (Js.keys pending) ev.
Proof.
  cbv zeta. intros X D. rewrite Bundled_trackFileEdit_eq by assumption. cbv zeta.
  rewrite D.
  match goal with
  | |- context [Bundled.sendHeartbeat node w ?mm] =>
      destruct (Bundled_flush_shape node w mm) as (d' & n & ev & E & A)
  end.
  rewrite E. exists d', n, ev. cbn [outcome after events fst snd self ticks logLevel] in *.
  split; [reflexivity|exact A].
Qed.

Lemma Tracker_edit_missing filePath operation lineChanges m :
  fs_exists w filePath = false ->
  Tracker.trackFileEdit node w filePath operation lineChanges m
  = (inr tt, m, [EvExists filePath]).
Proof.
  intros X. unfold Tracker.trackFileEdit, Tracker.isValidFilePath.
  unfold bind at 1. unfold exists_ at 1. unfold_monad. cbn. rewrite X. reflexivity.
Qed.

Lemma Bundled_edit_missing filePath operation lineChanges m :
  let path := Flush.fullPath node (Bundled.workingDirectory (self m)) filePath in
  fs_exists w path = false ->
  Bundled.trackFileEdit node w filePath operation lineChanges m
  = (inr tt, m, [EvExists path]).
Proof.
  cbv zeta. unfold Flush.fullPath. intros X. unfold Bundled.trackFileEdit.
  unfold_monad. cbn. rewrite X. reflexivity.
Qed.

End Tracking.

(** ** The pending paths stay distinct *)

Lemma keys_map_set {V} (m : Js.Map V) k v :
  Js.keys (Js.map_set m k v)
  = if existsb (String.eqb k) (Js.keys m) then Js.keys m else Js.keys m ++ [k].
Proof.
  unfold Js.keys. induction m as [|[k' v'] r IH]; cbn; [reflexivity|].
  rewrite (String.eqb_sym k k').
  destruct (String.eqb k' k) eqn:E; cbn; [reflexivity|].
  rewrite IH. now destruct (existsb _ _).
Qed.

Lemma map_set_distinct {V} (m : Js.Map V) k v :
  NoDup (Js.keys m) -> NoDup (Js.keys (Js.map_set m k v)).
Proof.
  intros N. rewrite keys_map_set.
  destruct (existsb (String.eqb k) (Js.keys m)) eqn:E; [exact N|].
  apply NoDup_app; [exact N|repeat constructor; intros []|].
  intros x Hx [<-|[]].
  assert (existsb (String.eqb k) (Js.keys m) = true); [|congruence].
  apply existsb_exists. exists k. split; [exact Hx|apply String.eqb_refl].
Qed.

Lemma map_get_set {V} (m : Js.Map V) k v : Js.map_get (Js.map_set m k v) k = Some v.
Proof.
  induction m as [|[k' v'] r IH]; cbn; [now rewrite String.eqb_refl|].
  destruct (String.eqb k' k) eqn:E; cbn; rewrite E; [reflexivity|exact IH].
Qed.

Lemma count_filed entries path added :
  Flush.count (Flush.filed entries path added) path
  = (Flush.count entries path + added)%Z.
Proof. unfold Flush.filed. unfold Flush.count at 1. now rewrite map_get_set. Qed.

(** ** An event that flushes: what is executed *)



Section Flushing.
Variable node : Node.
Variable w : World.

(** In [tracker.ts]: the event is noted, and then the tracker flushes as
    [sendHeartbeat] does. *)
Lemma Tracker_edit_flushes filePath operation lineChanges m :
  Flush.ready (self m) ->
  fs_exists w filePath = true ->
  Flush.due (clock w (ticks m)) (Tracker.lastHeartbeatAt (self m)) = true ->
  let t := self m in
  let path := Flush.fullPath node (Tracker.workingDirectory t) filePath in
  let pending := Flush.noted operation (Tracker.fileEntities t) path
                   (Flush.addedOr (Flush.lineCount w path) lineChanges) in
  let flush := Tracker.sendHeartbeat node w
                 (mkMachine (Tracker.withFileEntities pending t) (logLevel m) (S (ticks m))) in
  Tracker.trackFileEdit node w filePath operation lineChanges m
  = (inr tt, after flush,
     (EvExists filePath
      :: (if Flush.isEdit operation && (lineChanges =? 0)%Z then [EvReadFile path] else []))
     ++ events flush) /\
  Tracker.fileEntities (self (after flush)) = [] /\
  Tracker.lastHeartbeatAt (self (after flush)) = clock w (pred (ticks (after flush))) /\
  (ticks m + 2 <= ticks (after flush))%nat /\
  forall key d cli,
    Tracker.apiKey t = Some key -> Js.truthy key = true ->
    Tracker.dependencies t = Some d ->
    Tracker.cliLocation d = Some cli -> Js.truthy cli = true ->
    fs_exists w cli = true ->
    execs (events flush) = Flush.heartbeats node w cli key (S (ticks m)) (Js.keys pending).
Proof.
  intros R X D. cbv zeta.
  pose proof (Tracker_trackFileEdit_eq node w filePath operation lineChanges m R X) as Q.
  cbv zeta in Q. rewrite D in Q. rewrite Q. clear Q.
  set (m1 := mkMachine _ (logLevel m) (S (ticks m))).
  assert (R1 : Flush.ready (self m1)) by exact R.
  destruct (Tracker_flush_shape node w m1 R1) as (d' & n & ev & E & _ & _).
  split; [now rewrite E|].
  split; [now rewrite E|].
  split; [now rewrite E|].
  split; [rewrite E; cbn; lia|].
  intros key d cli K Tk Dp C Tc Xc.
  exact (proj2 (Tracker_flush_sent node w m1 key d cli K Tk Dp C Tc Xc)).
Qed.

(** The same in the bundle. *)
Lemma Bundled_edit_flushes filePath operation lineChanges m :
  let t := self m in
  let path := Flush.fullPath node (Bundled.workingDirectory t) filePath in
  fs_exists w path = true ->
  Flush.due (clock w (ticks m)) (Bundled.lastHeartbeatAt t) = true ->
  let pending := Flush.noted operation (Bundled.fileEntities t) path
                   (Flush.addedOr 1 lineChanges) in
  let flush := Bundled.sendHeartbeat node w
                 (mkMachine (Bundled.withFileEntities pending t) (logLevel m) (S (ticks m))) in
  Bundled.trackFileEdit node w filePath operation lineChanges m
  = (inr tt, after flush, EvExists path :: events flush) /\
  Bundled.fileEntities (self (after flush)) = [] /\
  Bundled.lastHeartbeatAt (self (after flush)) = clock w (pred (ticks (after flush))) /\
  (ticks m + 2 <= ticks (after flush))%nat /\
  forall key cli,
    Bundled.apiKey t = Some key -> Js.truthy key = true ->
    Bundled.cliLocation (Bundled.dependencies t) = Some cli -> Js.truthy cli = true ->
    execs (events flush) = Flush.heartbeats node w cli key (S (ticks m)) (Js.keys pending).
Proof.
  cbv zeta. intros X D.
  pose proof (Bundled_trackFileEdit_eq node w filePath operation lineChanges m X) as Q.
  cbv zeta in Q. rewrite D in Q. rewrite Q. clear Q.
  set (m1 := mkMachine _ (logLevel m) (S (ticks m))).
  destruct (Bundled_flush_shape node w m1) as (d' & n & ev & E & _).
  split; [now rewrite E|].
  split; [now rewrite E|].
  split; [now rewrite E|].
  split; [rewrite E; cbn; lia|].
  intros key cli K Tk C Tc.
  exact (Bundled_flush_sent node w m1 key cli K Tk C Tc).
Qed.

End Flushing.

(** The test in doubles next to the test in whole milliseconds.  A second
    short of sixty, a second past it, and at sixty from 0 the two agree; at
    exactly sixty seconds from a later reading the quotients can round
    apart, and the code waits where the whole milliseconds are due. *)
Example doubles_at_sixty_seconds :
  (Doubles.shouldSendHeartbeat 59999 0 = false /\ Flush.due 59999 0 = false) /\
  (Doubles.shouldSendHeartbeat 60000 0 = true /\ Flush.due 60000 0 = true) /\
  (Doubles.shouldSendHeartbeat 1700000059000 1700000000000 = false /\
   Flush.due 1700000059000 1700000000000 = false) /\
  (Doubles.shouldSendHeartbeat 1700000061000 1700000000000 = true /\
   Flush.due 1700000061000 1700000000000 = true) /\
  (Doubles.shouldSendHeartbeat 2147483648001 2147483588002 = false /\
   Flush.due 2147483648001 2147483588002 = false) /\
  (Doubles.shouldSendHeartbeat 2147483648003 2147483588002 = true /\
   Flush.due 2147483648003 2147483588002 = true) /\
  (Doubles.shouldSendHeartbeat 2147483648002 2147483588002 = false /\
   Flush.due 2147483648002 2147483588002 = true).
Proof. repeat split; vm_compute; reflexivity. Qed.

(** ** Trackers that can send *)

Lemma ready_new workingDirectory : Flush.ready (Tracker.newTracker workingDirectory).
Proof. intros H. discriminate H. Qed.

Section Ready.
Variable node : Node.
Variable w : World.

Lemma Tracker_loadConfigs_shape (mo : Machine Tracker.Options) :
  exists o' ev,
    Tracker.loadConfigs w mo = (inr tt, mkMachine o' (logLevel mo) (ticks mo), ev).
Proof.
  unfold Tracker.loadConfigs, Tracker.loadOne. unfold_monad.
  destruct mo as [o lv tk]. cbn.
  crunch; do 2 eexists; reflexivity.
Qed.

Lemma Tracker_checkCli_shape (md : Machine Tracker.Dependencies) :
  exists d' ev,
    Tracker.checkAndInstallCli node w md = (inr tt, mkMachine d' (logLevel md) (ticks md), ev).
Proof.
  unfold Tracker.checkAndInstallCli, Tracker.isCliInstalled.
  destruct (Tracker_getCli_shape node w md) as (p & d' & ev & E & _).
  assert (L : forall T l msg (m : Machine T), exists ev, log l msg m = (inr tt, m, ev)).
  { intros T l msg m. unfold log. destruct (_ <=? _)%nat; eexists; reflexivity. }
  unfold bind at 1. destruct (L _ DEBUG [Txt "Checking WakaTime CLI..."] md) as (e0 & ->).
  unfold bind at 1. unfold bind at 1. rewrite E.
  destruct (Js.truthy p); unfold exists_; unfold_monad; cbn; crunch; do 2 eexists; reflexivity.
Qed.

Local Opaque Tracker.loadConfigs Tracker.checkAndInstallCli Tracker.getSetting.

(** [initialize] returns, and leaves a tracker that can send. *)
Lemma ready_initialize m :
  exists m' ev,
    Tracker.initialize node w m = (inr tt, m', ev) /\ Flush.ready (self m').
Proof.
  unfold Tracker.initialize, Tracker.loadConfig, Tracker.onOptions, Tracker.onDependencies.
  destruct m as [[o d l e wd k] lv tk].
  destruct (Tracker_loadConfigs_shape (mkMachine (Tracker.newOptions node w) lv tk))
    as (o' & ev & E).
  unfold_monad. cbn. rewrite E. cbn.
  match goal with
  | |- context [Tracker.checkAndInstallCli node w ?md] =>
      destruct (Tracker_checkCli_shape md) as (d' & ev' & E')
  end.
  rewrite E'. cbn. do 2 eexists. split; [reflexivity|]. intros _. discriminate.
Qed.

Local Transparent Tracker.loadConfigs Tracker.checkAndInstallCli Tracker.getSetting.

(** A flush and an event keep it so. *)
Lemma ready_sendHeartbeat m :
  Flush.ready (self m) -> Flush.ready (self (after (Tracker.sendHeartbeat node w m))).
Proof.
  intros R. destruct (Tracker_flush_shape node w m R) as (d' & n & ev & E & D & _).
  rewrite E. unfold Flush.ready in *. cbn. intros K N. apply D in N. now apply R.
Qed.

Lemma ready_trackFileEdit filePath operation lineChanges m :
  Flush.ready (self m) ->
  Flush.ready (self (after (Tracker.trackFileEdit node w filePath operation lineChanges m))).
Proof.
  intros R. destruct (fs_exists w filePath) eqn:X.
  - destruct (Flush.due (clock w (ticks m)) (Tracker.lastHeartbeatAt (self m))) eqn:D.
    + destruct (Tracker_edit_due node w filePath operation lineChanges m R X D)
        as (d' & n & ev & E & N & _).
      rewrite E. unfold Flush.ready in *. cbn. intros K H. apply N in H. now apply R.
    + rewrite (Tracker_edit_idle node w filePath operation lineChanges m R X D).
      exact R.
  - now rewrite Tracker_edit_missing.
Qed.
End Ready.

(** ** A run from start to flush *)

(** The configuration holds a key; [foo.txt] is written with three changed
    lines; the session goes idle.  The CLI is executed once, for the
    resolved path, with the key in the environment of the call. *)
Example write_then_idle :
  let w := Example.world
             [ ("/home/u/.wakatime.cfg",
                Example.joinWith Example.nl ["[settings]"; "api_key = ABC123"; ""]);
               ("/home/u/.wakatime/wakatime-cli", "cli");
               ("foo.txt", "text"); ("/w/foo.txt", "text") ]
             1700000000000 in
  let run (T : Type) (c : M T unit) (m : Machine T) := after (c m) in
  let t := run _ (Tracker.trackFileEdit Example.posix w "foo.txt" "write" 3)
             (mkMachine
                (Tracker.withLastHeartbeatAt 1700000000000
                   (self (run _ (Tracker.initialize Example.posix w)
                            (Example.start (Tracker.newTracker "/w")))))
                INFO 0) in
  let b := run _ (Bundled.trackFileEdit Example.posix w "foo.txt" "write" 3)
             (mkMachine
                (Bundled.withLastHeartbeatAt 1700000000000
                   (self (run _ (Bundled.initialize Example.posix w)
                            (Example.start (Bundled.newTracker Example.posix w "/w")))))
                INFO 0) in
  Tracker.fileEntities (self t) = [("/w/foo.txt", 3%Z)] /\
  execs (events (Tracker.sendHeartbeat Example.posix w t))
  = [("/home/u/.wakatime/wakatime-cli",
      ["--entity"; "/w/foo.txt"; "--time"; "1700000000"; "--write"],
      Some [("WAKATIME_API_KEY", "ABC123")])] /\
  Bundled.fileEntities (self b) = [("/w/foo.txt", 3%Z)] /\
  execs (events (Bundled.sendHeartbeat Example.posix w b))
  = [("/home/u/.wakatime/wakatime-cli",
      ["--entity"; "/w/foo.txt"; "--time"; "1700000000"; "--write"],
      Some [("WAKATIME_API_KEY", "ABC123")])].
Proof. cbv zeta. repeat split; vm_compute; reflexivity. Qed.

(** The trackers of the examples are the ones [initialize] leaves. *)
Example initialize_leaves_the_example_trackers :
  after (Tracker.initialize Example.posix (Example.installed 0)
           (Example.start (Tracker.newTracker "/w")))
  = Example.start (Example.tracker 0 []) /\
  after (Bundled.initialize Example.posix (Example.installed 0)
           (Example.start (Bundled.newTracker Example.posix (Example.installed 0) "/w")))
  = Example.start (Example.bundle 0 []).
Proof. split; vm_compute; reflexivity. Qed.

(* ===================================================================== *)
(** * The claims *)
(* ===================================================================== *)

(** ** C7 *)

(** C7.  When the existence check of the path answers no ([tracker.ts]
    asks for the path as given, the bundle for the resolved path),
    [trackFileEdit] returns normally, leaves the tracker as it was, the
    pending entries and the time of the last flush included, and executes
    nothing. *)
Theorem missing_file_is_ignored :
  forall node w filePath operation lineChanges,
    (forall m,
       fs_exists w filePath = false ->
       let x := Tracker.trackFileEdit node w filePath operation lineChanges m in
       outcome x = inr tt /\
       after x = m /\
       Tracker.fileEntities (self (after x)) = Tracker.fileEntities (self m) /\
       Tracker.lastHeartbeatAt (self (after x)) = Tracker.lastHeartbeatAt (self m) /\
       execs (events x) = []) /\
    (forall m,
       fs_exists w (Flush.fullPath node (Bundled.workingDirectory (self m)) filePath) = false ->
       let x := Bundled.trackFileEdit node w filePath operation lineChanges m in
       outcome x = inr tt /\
       after x = m /\
       Bundled.fileEntities (self (after x)) = Bundled.fileEntities (self m) /\
       Bundled.lastHeartbeatAt (self (after x)) = Bundled.lastHeartbeatAt (self m) /\
       execs (events x) = []).
Proof.
  intros node w filePath operation lineChanges. split; intros m X; cbv zeta.
  - rewrite Tracker_edit_missing by assumption. repeat split.
  - rewrite Bundled_edit_missing by assumption. repeat split.
Qed.

Lemma missing_file_is_ignored_witness :
  let w := Example.installed 1700000000000 in
  let m := Example.start (Example.tracker 0 [("/w/foo.txt", 3%Z)]) in
  let b := Example.start (Example.bundle 0 [("/w/foo.txt", 3%Z)]) in
  fs_exists w "/w/gone.txt" = false /\
  fs_exists w (Flush.fullPath Example.posix "/w" "gone.txt") = false /\
  after (Tracker.trackFileEdit Example.posix w "/w/gone.txt" "write" 0 m) = m /\
  execs (events (Tracker.trackFileEdit Example.posix w "/w/gone.txt" "write" 0 m)) = [] /\
  after (Bundled.trackFileEdit Example.posix w "gone.txt" "write" 0 b) = b /\
  execs (events (Bundled.trackFileEdit Example.posix w "gone.txt" "write" 0 b)) = [].
Proof.
  cbv zeta.
  split; [reflexivity|]. split; [reflexivity|].
  destruct (missing_file_is_ignored Example.posix (Example.installed 1700000000000)
              "/w/gone.txt" "write" 0%Z) as [T _].
  destruct (missing_file_is_ignored Example.posix (Example.installed 1700000000000)
              "gone.txt" "write" 0%Z) as [_ B].
  specialize (T (Example.start (Example.tracker 0 [("/w/foo.txt", 3%Z)])) eq_refl).
  specialize (B (Example.start (Example.bundle 0 [("/w/foo.txt", 3%Z)])) eq_refl).
  cbv zeta in T, B.
  destruct T as (_ & T1 & _ & _ & T2). destruct B as (_ & B1 & _ & _ & B2).
  repeat split; assumption.
Defined.

(** ** C1 *)




(** ** C9 *)

(** C9, as the code has it.  With the time of the last flush at its
    initial 0, an event on an existing file flushes at once when the clock
    stands at sixty seconds or more: it flushes as [sendHeartbeat] does on
    the tracker with the event noted, executing the CLI once for each
    pending path when the key is set and the CLI is in its place.  When the
    clock stands below sixty seconds the event is noted and nothing is
    executed: the change stays pending and the time of the last flush
    stays 0. *)
Theorem first_event_flushes_after_a_minute :
  forall node w filePath operation lineChanges,
    (forall m,
       Flush.ready (self m) ->
       Tracker.lastHeartbeatAt (self m) = 0%Z ->
       fs_exists w filePath = true ->
       let t := self m in
       let x := Tracker.trackFileEdit node w filePath operation lineChanges m in
       let path := Flush.fullPath node (Tracker.workingDirectory t) filePath in
       let pending := Flush.noted operation (Tracker.fileEntities t) path
                        (Flush.addedOr (Flush.lineCount w path) lineChanges) in
       let flush := Tracker.sendHeartbeat node w
                      (mkMachine (Tracker.withFileEntities pending t)
                                 (logLevel m) (S (ticks m))) in
       ((60000 <= clock w (ticks m))%Z ->
        outcome x = inr tt /\
        after x = after flush /\
        events x
        = (EvExists filePath
           :: (if Flush.isEdit operation && (lineChanges =? 0)%Z
               then [EvReadFile path] else []))
          ++ events flush /\
        Tracker.fileEntities (self (after x)) = [] /\
        Tracker.lastHeartbeatAt (self (after x)) = clock w (pred (ticks (after x))) /\
        (ticks m + 2 <= ticks (after x))%nat /\
        forall key d cli,
          Tracker.apiKey t = Some key -> Js.truthy key = true ->
          Tracker.dependencies t = Some d ->
          Tracker.cliLocation d = Some cli -> Js.truthy cli = true ->
          fs_exists w cli = true ->
          execs (events x)
          = Flush.heartbeats node w cli key (S (ticks m)) (Js.keys pending)) /\
       ((clock w (ticks m) < 60000)%Z ->
        outcome x = inr tt /\
        Tracker.fileEntities (self (after x)) = pending /\
        Tracker.lastHeartbeatAt (self (after x)) = 0%Z /\
        execs (events x) = [])) /\
    (forall m,
       Bundled.lastHeartbeatAt (self m) = 0%Z ->
       let t := self m in
       let path := Flush.fullPath node (Bundled.workingDirectory t) filePath in
       fs_exists w path = true ->
       let x := Bundled.trackFileEdit node w filePath operation lineChanges m in
       let pending := Flush.noted operation (Bundled.fileEntities t) path
                        (Flush.addedOr 1 lineChanges) in
       let flush := Bundled.sendHeartbeat node w
                      (mkMachine (Bundled.withFileEntities pending t)
                                 (logLevel m) (S (ticks m))) in
       ((60000 <= clock w (ticks m))%Z ->
        outcome x = inr tt /\
        after x = after flush /\
        events x = EvExists path :: events flush /\
        Bundled.fileEntities (self (after x)) = [] /\
        Bundled.lastHeartbeatAt (self (after x)) = clock w (pred (ticks (after x))) /\
        (ticks m + 2 <= ticks (after x))%nat /\
        forall key cli,
          Bundled.apiKey t = Some key -> Js.truthy key = true ->
          Bundled.cliLocation (Bundled.dependencies t) = Some cli ->
          Js.truthy cli = true ->
          execs (events x)
          = Flush.heartbeats node w cli key (S (ticks m)) (Js.keys pending)) /\
       ((clock w (ticks m) < 60000)%Z ->
        outcome x = inr tt /\
        Bundled.fileEntities (self (after x)) = pending /\
        Bundled.lastHeartbeatAt (self (after x)) = 0%Z /\
        execs (events x) = [])).
Proof.
  intros node w filePath operation lineChanges. split.
  - intros m R Z X. cbv zeta. split.
    + intros C.
      assert (D : Flush.due (clock w (ticks m)) (Tracker.lastHeartbeatAt (self m)) = true).
      { unfold Flush.due. rewrite Z. apply Z.leb_le. lia. }
      destruct (Tracker_edit_flushes node w filePath operation lineChanges m R X D)
        as (E & F1 & F2 & F3 & F4).
      cbv zeta in E. rewrite E. cbn [outcome after events fst snd].
      repeat split; trivial.
      intros key d cli K Tk Dp Cl Tc Xc.
      rewrite execs_app, (F4 key d cli K Tk Dp Cl Tc Xc).
      now destruct (Flush.isEdit operation && (lineChanges =? 0)%Z).
    + intros C.
      assert (D : Flush.due (clock w (ticks m)) (Tracker.lastHeartbeatAt (self m)) = false).
      { unfold Flush.due. rewrite Z. apply Z.leb_gt. lia. }
      rewrite (Tracker_edit_idle node w filePath operation lineChanges m R X D).
      cbn [outcome after events fst snd self ticks
           Tracker.fileEntities Tracker.lastHeartbeatAt Tracker.withFileEntities].
      repeat split; [exact Z|].
      now destruct (Flush.isEdit operation && (lineChanges =? 0)%Z).
  - intros m Z. cbv zeta. intros X. split.
    + intros C.
      assert (D : Flush.due (clock w (ticks m)) (Bundled.lastHeartbeatAt (self m)) = true).
      { unfold Flush.due. rewrite Z. apply Z.leb_le. lia. }
      destruct (Bundled_edit_flushes node w filePath operation lineChanges m X D)
        as (E & F1 & F2 & F3 & F4).
      cbv zeta in E. rewrite E. cbn [outcome after events fst snd].
      repeat split; trivial.
    + intros C.
      assert (D : Flush.due (clock w (ticks m)) (Bundled.lastHeartbeatAt (self m)) = false).
      { unfold Flush.due. rewrite Z. apply Z.leb_gt. lia. }
      rewrite (Bundled_edit_idle node w filePath operation lineChanges m X D).
      cbn [outcome after events fst snd self ticks
           Bundled.fileEntities Bundled.lastHeartbeatAt Bundled.withFileEntities].
      repeat split. exact Z.
Qed.

Lemma first_event_flushes_after_a_minute_witness :
  let w := Example.installed 1700000000000 in
  let early := Example.installed 59999 in
  let m := Example.start (Example.tracker 0 []) in
  let b := Example.start (Example.bundle 0 []) in
  let x := Tracker.trackFileEdit Example.posix w "/w/foo.txt" "write" 0 m in
  let y := Bundled.trackFileEdit Example.posix w "/w/foo.txt" "write" 0 b in
  let x' := Tracker.trackFileEdit Example.posix early "/w/foo.txt" "write" 0 m in
  let y' := Bundled.trackFileEdit Example.posix early "/w/foo.txt" "write" 0 b in
  Flush.ready (self m) /\
  Tracker.lastHeartbeatAt (self m) = 0%Z /\
  Bundled.lastHeartbeatAt (self b) = 0%Z /\
  fs_exists w "/w/foo.txt" = true /\
  (60000 <= clock w (ticks m))%Z /\
  (clock early (ticks m) < 60000)%Z /\
  (execs (events x) = [Example.call "/w/foo.txt" "1700000000"] /\
   Tracker.fileEntities (self (after x)) = []) /\
  (execs (events y) = [Example.call "/w/foo.txt" "1700000000"] /\
   Bundled.fileEntities (self (after y)) = []) /\
  (execs (events x') = [] /\
   Tracker.fileEntities (self (after x')) = [("/w/foo.txt", 3%Z)]) /\
  (execs (events y') = [] /\
   Bundled.fileEntities (self (after y')) = [("/w/foo.txt", 1%Z)]).
Proof.
  cbv zeta.
  assert (R : Flush.ready (self (Example.start (Example.tracker 0 []))))
    by (intros _; discriminate).
  assert (C : (60000 <= 1700000000000)%Z) by (intros H; discriminate H).
  assert (C' : (59999 < 60000)%Z) by reflexivity.
  split; [exact R|]. do 3 (split; [reflexivity|]). split; [exact C|]. split; [exact C'|].
  destruct (first_event_flushes_after_a_minute Example.posix
              (Example.installed 1700000000000) "/w/foo.txt" "write" 0%Z) as [T B].
  destruct (first_event_flushes_after_a_minute Example.posix
              (Example.installed 59999) "/w/foo.txt" "write" 0%Z) as [T' B'].
  destruct (T (Example.start (Example.tracker 0 [])) R eq_refl eq_refl) as [T1 _].
  destruct (B (Example.start (Example.bundle 0 [])) eq_refl eq_refl) as [B1 _].
  destruct (T' (Example.start (Example.tracker 0 [])) R eq_refl eq_refl) as [_ T2].
  destruct (B' (Example.start (Example.bundle 0 [])) eq_refl eq_refl) as [_ B2].
  destruct (T1 C) as (_ & _ & _ & T1e & _ & _ & T1x).
  destruct (B1 C) as (_ & _ & _ & B1e & _ & _ & B1x).
  destruct (T2 C') as (_ & T2e & _ & T2x).
  destruct (B2 C') as (_ & B2e & _ & B2x).
  split; [split; [exact (T1x _ _ _ eq_refl eq_refl eq_refl eq_refl eq_refl eq_refl)
                 |exact T1e]|].
  split; [split; [exact (B1x _ _ eq_refl eq_refl eq_refl eq_refl)|exact B1e]|].
  split; [split; [exact T2x|exact T2e]|split; [exact B2x|exact B2e]].
Defined.

(** C9 as stated fails: the clock may stand at a positive time below sixty
    seconds, and the first event then files its change and flushes
    nothing: the change stays pending and the time of the last flush
    stays 0. *)
Lemma first_event_in_the_first_minute_waits :
  let w := Example.installed 59999 in
  let x := Tracker.trackFileEdit Example.posix w "/w/foo.txt" "write" 0
             (Example.start (Example.tracker 0 [])) in
  let y := Bundled.trackFileEdit Example.posix w "/w/foo.txt" "write" 0
             (Example.start (Example.bundle 0 [])) in
  (0 < clock w 0)%Z /\
  (Tracker.fileEntities (self (after x)) = [("/w/foo.txt", 3%Z)] /\
   Tracker.lastHeartbeatAt (self (after x)) = 0%Z /\
   execs (events x) = []) /\
  (Bundled.fileEntities (self (after y)) = [("/w/foo.txt", 1%Z)] /\
   Bundled.lastHeartbeatAt (self (after y)) = 0%Z /\
   execs (events y) = []) /\
  Tracker.fileEntities (self (after x)) <> [] /\
  Bundled.fileEntities (self (after y)) <> [].
Proof.
  cbv zeta. repeat split; try (vm_compute; reflexivity).
  - intros H. vm_compute in H. discriminate H.
  - intros H. vm_compute in H. discriminate H.
Qed.

(** ** C5 *)




(** ** C2 *)

Lemma heartbeats_length node w cli key tick paths :
  List.length (Flush.heartbeats node w cli key tick paths) = List.length paths.
Proof.
  revert tick. induction paths as [|p r IH]; intros tick; cbn; [reflexivity|].
  now rewrite IH.
Qed.

(** C2.  A flush makes one attempt for each pending path, in the order of
    the paths: each attempt executes the CLI once for its path or executes
    nothing.  Afterwards nothing is pending, whatever the executions
    returned.  With the key set and the CLI found the attempts are as many
    executions as there are pending paths, one for each.  (The tracker of
    [tracker.ts] is taken with its [dependencies] set whenever its key
    is.) *)
Theorem flush_attempts_each_pending_path_once :
  forall node w,
    (forall m,
       Flush.ready (self m) ->
       let x := Tracker.sendHeartbeat node w m in
       let paths := Js.keys (Tracker.fileEntities (self m)) in
       outcome x = inr tt /\
       Tracker.fileEntities (self (after x)) = [] /\
       Flush.Attempts paths (events x) /\
       forall key d cli,
         Tracker.apiKey (self m) = Some key -> Js.truthy key = true ->
         Tracker.dependencies (self m) = Some d ->
         Tracker.cliLocation d = Some cli -> Js.truthy cli = true ->
         fs_exists w cli = true ->
         execs (events x) = Flush.heartbeats node w cli key (ticks m) paths /\
         List.length (execs (events x)) = List.length (Tracker.fileEntities (self m))) /\
    (forall m,
       let x := Bundled.sendHeartbeat node w m in
       let paths := Js.keys (Bundled.fileEntities (self m)) in
       outcome x = inr tt /\
       Bundled.fileEntities (self (after x)) = [] /\
       Flush.Attempts paths (events x) /\
       forall key cli,
         Bundled.apiKey (self m) = Some key -> Js.truthy key = true ->
         Bundled.cliLocation (Bundled.dependencies (self m)) = Some cli ->
         Js.truthy cli = true ->
         execs (events x) = Flush.heartbeats node w cli key (ticks m) paths /\
         List.length (execs (events x)) = List.length (Bundled.fileEntities (self m))).
Proof.
  intros node w. split.
  - intros m R. cbv zeta.
    destruct (Tracker_flush_shape node w m R) as (d' & n & ev & E & _ & A).
    split; [now rewrite E|]. split; [now rewrite E|]. split; [now rewrite E|].
    intros key d cli K Tk D C Tc X.
    destruct (Tracker_flush_sent node w m key d cli K Tk D C Tc X) as [_ H].
    split; [exact H|]. rewrite H, heartbeats_length. unfold Js.keys. apply length_map.
  - intros m. cbv zeta.
    destruct (Bundled_flush_shape node w m) as (d' & n & ev & E & A).
    split; [now rewrite E|]. split; [now rewrite E|]. split; [now rewrite E|].
    intros key cli K Tk C Tc.
    pose proof (Bundled_flush_sent node w m key cli K Tk C Tc) as H.
    split; [exact H|]. rewrite H, heartbeats_length. unfold Js.keys. apply length_map.
Qed.

Lemma flush_attempts_each_pending_path_once_witness :
  let w := Example.installed 1700000000000 in
  let pending := [("/w/foo.txt", 3%Z); ("/w/bar.txt", 1%Z)] in
  let m := Example.start (Example.tracker 0 pending) in
  let b := Example.start (Example.bundle 0 pending) in
  Flush.ready (self m) /\
  (Tracker.fileEntities (self (after (Tracker.sendHeartbeat Example.posix w m))) = [] /\
   List.length (execs (events (Tracker.sendHeartbeat Example.posix w m))) = 2%nat) /\
  (Bundled.fileEntities (self (after (Bundled.sendHeartbeat Example.posix w b))) = [] /\
   List.length (execs (events (Bundled.sendHeartbeat Example.posix w b))) = 2%nat).
Proof.
  cbv zeta.
  assert (R : Flush.ready
                (self (Example.start
                         (Example.tracker 0 [("/w/foo.txt", 3%Z); ("/w/bar.txt", 1%Z)]))))
    by (intros _; discriminate).
  split; [exact R|].
  destruct (flush_attempts_each_pending_path_once Example.posix
              (Example.installed 1700000000000)) as [T B].
  destruct (T _ R) as (_ & T1 & _ & T2).
  destruct (B (Example.start
                 (Example.bundle 0 [("/w/foo.txt", 3%Z); ("/w/bar.txt", 1%Z)])))
    as (_ & B1 & _ & B2).
  split; (split; [assumption|]).
  - exact (proj2 (T2 "a" _ "/usr/local/bin/wakatime-cli"
                    eq_refl eq_refl eq_refl eq_refl eq_refl eq_refl)).
  - exact (proj2 (B2 "a" "/usr/local/bin/wakatime-cli"
                    eq_refl eq_refl eq_refl eq_refl)).
Defined.

(** ** C8 *)

(** C8.  Two trackers that differ only in the counts kept for the same
    pending paths, in the same order, flush with the same sequence of
    executions: command, arguments and environment. *)
Theorem flush_calls_do_not_depend_on_counts :
  forall node w,
    (forall t lv tk e1 e2,
       Js.keys e1 = Js.keys e2 ->
       execs (events (Tracker.sendHeartbeat node w
                        (mkMachine (Tracker.withFileEntities e1 t) lv tk)))
       = execs (events (Tracker.sendHeartbeat node w
                          (mkMachine (Tracker.withFileEntities e2 t) lv tk)))) /\
    (forall t lv tk e1 e2,
       Js.keys e1 = Js.keys e2 ->
       execs (events (Bundled.sendHeartbeat node w
                        (mkMachine (Bundled.withFileEntities e1 t) lv tk)))
       = execs (events (Bundled.sendHeartbeat node w
                          (mkMachine (Bundled.withFileEntities e2 t) lv tk)))).
Proof.
  intros node w. split; intros t lv tk e1 e2 K.
  - apply (Tracker_flush_counts node w t lv tk e1 e2 K).
  - apply (Bundled_flush_counts node w t lv tk e1 e2 K).
Qed.

Lemma flush_calls_do_not_depend_on_counts_witness :
  let w := Example.installed 1700000000000 in
  let e1 := [("/w/foo.txt", 3%Z); ("/w/bar.txt", 1%Z)] in
  let e2 := [("/w/foo.txt", 40%Z); ("/w/bar.txt", 7%Z)] in
  Js.keys e1 = Js.keys e2 /\
  execs (events (Tracker.sendHeartbeat Example.posix w
                   (mkMachine (Tracker.withFileEntities e1 (Example.tracker 0 [])) DEBUG 0)))
  = execs (events (Tracker.sendHeartbeat Example.posix w
                     (mkMachine (Tracker.withFileEntities e2 (Example.tracker 0 [])) DEBUG 0))) /\
  execs (events (Bundled.sendHeartbeat Example.posix w
                   (mkMachine (Bundled.withFileEntities e1 (Example.bundle 0 [])) DEBUG 0)))
  = execs (events (Bundled.sendHeartbeat Example.posix w
                     (mkMachine (Bundled.withFileEntities e2 (Example.bundle 0 [])) DEBUG 0))).
Proof.
  cbv zeta. split; [reflexivity|].
  destruct (flush_calls_do_not_depend_on_counts Example.posix
              (Example.installed 1700000000000)) as [T B].
  split.
  - apply T. reflexivity.
  - apply B. reflexivity.
Defined.


(** ** C4 *)

(** C4, as the code has it.  A lookup that found no candidate leaves no
    usable memo: the empty string it stores or returns counts as no
    location.  The next lookup checks the candidates again, in the same
    order, and answers with the first that exists by then. *)
Theorem lookup_after_a_miss_checks_again :
  forall node w0 w,
    (forall md,
       outcome (Tracker.getCliLocation node w0 md) = inr "" ->
       let x := Tracker.getCliLocation node w (after (Tracker.getCliLocation node w0 md)) in
       let cands := Flush.candidates node (Tracker.resourcesLocation (self md)) in
       outcome x = inr (Flush.firstExistingOr w cands) /\
       checks (events x) = Flush.upTo (fs_exists w) cands) /\
    (forall opts md,
       outcome (Bundled.getCliLocation node w0 opts md) = inr "" ->
       let x := Bundled.getCliLocation node w opts
                  (after (Bundled.getCliLocation node w0 opts md)) in
       let cands := Flush.candidates node (Bundled._resourcesLocation opts) in
       outcome x = inr (Flush.firstExistingOr w cands) /\
       checks (events x) = Flush.upTo (fs_exists w) cands).
Proof.
  intros node w0 w. split.
  - intros md H. cbv zeta.
    destruct (Tracker_lookup_missed node w0 md H) as [F Rl].
    destruct (Tracker_lookup_fresh node w _ F) as (O & C & _).
    cbv zeta in O, C. rewrite Rl in O, C. split; assumption.
  - intros opts md H. cbv zeta.
    pose proof (Bundled_lookup_missed node w0 opts md H) as F.
    destruct (Bundled_lookup_fresh node w opts _ F) as (O & C).
    split; assumption.
Qed.

Lemma lookup_after_a_miss_checks_again_witness :
  let d := Example.start {| Tracker.resourcesLocation := "/home/u/.wakatime";
                            Tracker.cliLocation := None |} in
  let b := Example.start {| Bundled.cliLocation := None |} in
  let miss := Tracker.getCliLocation Example.posix (Example.bare 0) d in
  let miss' := Bundled.getCliLocation Example.posix (Example.bare 0) Example.bundleOptions b in
  outcome miss = inr "" /\
  outcome miss' = inr "" /\
  outcome (Tracker.getCliLocation Example.posix (Example.installed 0) (after miss))
  = inr "/usr/local/bin/wakatime-cli" /\
  outcome (Bundled.getCliLocation Example.posix (Example.installed 0)
             Example.bundleOptions (after miss'))
  = inr "/usr/local/bin/wakatime-cli".
Proof.
  cbv zeta. do 2 (split; [reflexivity|]).
  destruct (lookup_after_a_miss_checks_again Example.posix (Example.bare 0)
              (Example.installed 0)) as [T B].
  split.
  - exact (proj1 (T (Example.start {| Tracker.resourcesLocation := "/home/u/.wakatime";
                                      Tracker.cliLocation := None |}) eq_refl)).
  - exact (proj1 (B Example.bundleOptions (Example.start {| Bundled.cliLocation := None |})
                    eq_refl)).
Defined.

(** C4 as stated fails: after a lookup that found nothing, the CLI is
    installed, and the next lookup checks the three candidates and finds
    it: it neither returns the empty string nor leaves the file system
    alone. *)
Lemma miss_is_not_memoized :
  let d := Example.start {| Tracker.resourcesLocation := "/home/u/.wakatime";
                            Tracker.cliLocation := None |} in
  let b := Example.start {| Bundled.cliLocation := None |} in
  let miss := Tracker.getCliLocation Example.posix (Example.bare 0) d in
  let again := Tracker.getCliLocation Example.posix (Example.installed 0) (after miss) in
  let miss' := Bundled.getCliLocation Example.posix (Example.bare 0) Example.bundleOptions b in
  let again' := Bundled.getCliLocation Example.posix (Example.installed 0)
                  Example.bundleOptions (after miss') in
  (outcome miss = inr "" /\
   Tracker.cliLocation (self (after miss)) = Some "" /\
   outcome again = inr "/usr/local/bin/wakatime-cli" /\
   checks (events again)
   = ["/home/u/.wakatime/wakatime-cli"; "/opt/homebrew/bin/wakatime-cli";
      "/usr/local/bin/wakatime-cli"]) /\
  (outcome miss' = inr "" /\
   outcome again' = inr "/usr/local/bin/wakatime-cli" /\
   checks (events again')
   = ["/home/u/.wakatime/wakatime-cli"; "/opt/homebrew/bin/wakatime-cli";
      "/usr/local/bin/wakatime-cli"]) /\
  ~ (outcome again = inr "" /\ checks (events again) = []) /\
  ~ (outcome again' = inr "" /\ checks (events again') = []).
Proof.
  cbv zeta. repeat split; try (vm_compute; reflexivity).
  - intros [H _]. vm_compute in H. discriminate H.
  - intros [H _]. vm_compute in H. discriminate H.
Qed.

(** ** C6 *)

(** C6, at the input where [tracker.ts] breaks it: [trackToolUsage] with
    the tool [read] and no arguments reads [args.filePath] of [undefined]
    and throws. *)
Theorem trackToolUsage_without_args_raises :
  forall node w output m,
    Tracker.trackToolUsage node w "read" Js.VUndefined output m
    = (inl (TypeError "Cannot read properties of undefined (reading 'filePath')"), m, []).
Proof. intros node w output m. destruct m as [t lv tk]. reflexivity. Qed.

(** The bundle does what C6 says: a call whose arguments name no file
    returns at once and changes nothing. *)
Lemma Bundled_trackToolUsage_pathless node w toolName args output m :
  Flush.pathless args ->
  Bundled.trackToolUsage node w toolName args output m = (inr tt, m, []).
Proof.
  unfold Bundled.trackToolUsage, Bundled.pathOf, Flush.pathless.
  destruct args as [| |b|n|s|fs]; cbn; try reflexivity.
  - now destruct b.
  - now destruct (n =? 0)%Z.
  - now destruct (Js.truthy s).
  - intros (A & B & C).
    destruct (Js.truthyV (Js.field fs "filePath"));
      [|destruct (Js.truthyV (Js.field fs "file_path"))].
    + destruct (Js.field fs "filePath"); try reflexivity. destruct A.
    + destruct (Js.field fs "file_path"); try reflexivity. destruct B.
    + destruct (Js.field fs "path"); try reflexivity. destruct C.
Qed.

(** In [tracker.ts] a call with an arguments object that has no
    [filePath] returns at once too. *)
Lemma Tracker_trackToolUsage_no_filePath node w toolName fs output m :
  Js.truthyV (Js.field fs "filePath") = false ->
  Tracker.trackToolUsage node w toolName (Js.VObj fs) output m = (inr tt, m, []).
Proof.
  intros F. unfold Tracker.trackToolUsage, Tracker.filePathOf. unfold_monad.
  destruct (String.eqb toolName "read");
    destruct (String.eqb toolName "write" || String.eqb toolName "edit");
    cbn; rewrite ?F; reflexivity.
Qed.

(** ** C3 *)

(** C3, as the code has it.  Let a line of the cached text give [key] a
    value, lie in [section], and be the first such line.  Then
    [getSetting(section, key)] returns what stands between the first equals
    sign of that line and the next one, or the end of the line, trimmed;
    [getSetting] of [options.ts] also removes the NULs, and for the bundle
    the statement is about values without NUL. *)
Theorem getSetting_first_assignment :
  forall (section key content line : string) (pre post : list string),
    Js.split "010" content = pre ++ line :: post ->
    Ini.sectionAfter "" pre = section ->
    Ini.unassigned section key pre ->
    Ini.assigns key line = true ->
    (forall o internal,
       Js.map_get (Tracker.configCache o)
         (Tracker.getConfigFile o (match internal with Some b => b | None => false end))
       = Some content ->
       Tracker.getSetting o section key internal
       = Some (Tracker.removeNulls (Ini.valueOf line))) /\
    (forall o,
       Js.map_get (Bundled.configCache o) (Bundled.configFile o) = Some content ->
       Ini.has Ascii.zero (Ini.valueOf line) = false ->
       Bundled.getSetting o section key
       = Some (Tracker.removeNulls (Ini.valueOf line))).
Proof.
  intros section key content line pre post Hl Hs Hu Ha.
  assert (Hc : Ini.has "=" content = true).
  { apply (has_in_split "010" "=" line).
    - rewrite Hl. apply in_or_app. right. now left.
    - now apply (assigns_has key). }
  assert (T : Js.truthy content = true).
  { destruct content; [discriminate|reflexivity]. }
  split.
  - intros o internal G. unfold Tracker.getSetting. rewrite G, T. cbn [negb].
    rewrite (trim_truthy "=" content Hc equals_not_space), Hl.
    now apply Tracker_scan_first.
  - intros o G Z. unfold Bundled.getSetting. rewrite G, T. cbn [negb]. rewrite Hl.
    rewrite (removeNulls_clean _ Z). now apply Bundled_scan_first.
Qed.

Lemma getSetting_first_assignment_witness :
  Js.split "010" Example.config = ["[settings]"] ++ "api_key = a=b" :: [""] /\
  Ini.sectionAfter "" ["[settings]"] = "settings" /\
  Ini.assigns "api_key" "api_key = a=b" = true /\
  Tracker.getSetting Example.trackerOptions "settings" "api_key" None = Some "a" /\
  Bundled.getSetting Example.bundleOptions "settings" "api_key" = Some "a".
Proof.
  do 3 (split; [reflexivity|]).
  assert (U : Ini.unassigned "settings" "api_key" ["[settings]"]).
  { intros [|l' p1] l p2 E S.
    - injection E as <- _. reflexivity.
    - destruct p1; discriminate E. }
  destruct (getSetting_first_assignment "settings" "api_key" Example.config
              "api_key = a=b" ["[settings]"] [""] eq_refl eq_refl U eq_refl) as [T B].
  split.
  - exact (T Example.trackerOptions None eq_refl).
  - exact (B Example.bundleOptions eq_refl eq_refl).
Defined.

(** C3 as stated fails: of the value [a=b] only [a] is returned, not all
    that follows the first equals sign. *)
Lemma value_is_cut_at_the_second_equals :
  Js.trim (Ini.afterFirst "=" "api_key = a=b") = "a=b" /\
  Tracker.getSetting Example.trackerOptions "settings" "api_key" None = Some "a" /\
  Bundled.getSetting Example.bundleOptions "settings" "api_key" = Some "a" /\
  Tracker.getSetting Example.trackerOptions "settings" "api_key" None
  <> Some (Tracker.removeNulls (Js.trim (Ini.afterFirst "=" "api_key = a=b"))) /\
  Bundled.getSetting Example.bundleOptions "settings" "api_key"
  <> Some (Tracker.removeNulls (Js.trim (Ini.afterFirst "=" "api_key = a=b"))).
Proof.
  repeat split; try (vm_compute; reflexivity).
  - intros H. vm_compute in H. discriminate H.
  - intros H. vm_compute in H. discriminate H.
Qed.

(** ** C10 *)

(** C10.  The names of the sections of the file are lowered before they
    are compared, the section asked for is not: for a section with a
    capital letter in its name [getSetting] returns nothing, whatever the
    cached text. *)
Theorem getSetting_upper_section_absent :
  forall (section key : string),
    Js.hasUpper section = true ->
    (forall o internal, Tracker.getSetting o section key internal = None) /\
    (forall o, Bundled.getSetting o section key = None).
Proof.
  intros section key U. split.
  - intros o internal. unfold Tracker.getSetting.
    destruct (Js.map_get _ _) as [content|]; [|reflexivity].
    destruct (negb _); [reflexivity|].
    destruct (Js.truthy _); [|reflexivity].
    now apply Tracker_scan_upper.
  - intros o. unfold Bundled.getSetting.
    destruct (Js.map_get _ _) as [content|]; [|reflexivity].
    destruct (negb _); [reflexivity|].
    now apply Bundled_scan_upper.
Qed.

Lemma getSetting_upper_section_absent_witness :
  Js.hasUpper "Settings" = true /\
  Js.split "010" (Example.joinWith Example.nl ["[Settings]"; "api_key = k"])
  = ["[Settings]"; "api_key = k"] /\
  Tracker.getSetting
    {| Tracker.configFile := "/home/u/.wakatime.cfg";
       Tracker.internalConfigFile := "/home/u/.wakatime/wakatime-internal.cfg";
       Tracker.logFile := "/home/u/.wakatime/wakatime.log";
       Tracker._resourcesLocation := "/home/u/.wakatime";
       Tracker.configCache :=
         [("/home/u/.wakatime.cfg",
           Example.joinWith Example.nl ["[Settings]"; "api_key = k"])] |}
    "Settings" "api_key" None = None /\
  Bundled.getSetting
    {| Bundled.configFile := "/home/u/.wakatime.cfg";
       Bundled._resourcesLocation := "/home/u/.wakatime";
       Bundled.configCache :=
         [("/home/u/.wakatime.cfg",
           Example.joinWith Example.nl ["[Settings]"; "api_key = k"])] |}
    "Settings" "api_key" = None.
Proof.
  do 2 (split; [reflexivity|]).
  destruct (getSetting_upper_section_absent "Settings" "api_key" eq_refl) as [T B].
  split; [apply T|apply B].
Defined.

(* ===================================================================== *)
(** * Further properties: the reader of the configuration *)
(* ===================================================================== *)

(** ** Where the scan can stop *)

Lemma Tracker_scan_sound section key lines :
  forall cur v,
    Tracker.scan section key cur lines = Some v ->
    exists pre line post,
      lines = pre ++ line :: post /\
      Ini.sectionAfter cur pre = section /\
      Ini.assigns key line = true /\
      (forall p1 l p2, pre = p1 ++ l :: p2 ->
         Ini.sectionAfter cur p1 = section -> Ini.assigns key l = false) /\
      v = Tracker.removeNulls (Ini.valueOf line).
Proof.
  induction lines as [|l r IH]; intros cur v; cbn [Tracker.scan]; [discriminate|].
  rewrite startsWith_bracket, endsWith_bracket. fold (Ini.isHeader l).
  assert (Later : forall cur',
            cur' = (if Ini.isHeader l then Ini.headerName l else cur) ->
            (cur = section -> Ini.assigns key l = false) ->
            Tracker.scan section key cur' r = Some v ->
            exists pre line post,
              l :: r = pre ++ line :: post /\
              Ini.sectionAfter cur pre = section /\
              Ini.assigns key line = true /\
              (forall p1 l' p2, pre = p1 ++ l' :: p2 ->
                 Ini.sectionAfter cur p1 = section -> Ini.assigns key l' = false) /\
              v = Tracker.removeNulls (Ini.valueOf line)).
  { intros cur' E No S. destruct (IH _ _ S) as (pre & line & post & E1 & E2 & E3 & E4 & E5).
    exists (l :: pre), line, post. subst cur'. repeat split; trivial.
    - now rewrite E1.
    - intros [|x p1] l' p2 Q; cbn in Q; injection Q as -> ->.
      + exact No.
      + cbn [Ini.sectionAfter]. now apply E4 with (p2 := p2). }
  destruct (Ini.isHeader l) eqn:Hh.
  - apply Later; [reflexivity|]. intros _. unfold Ini.assigns. now rewrite Hh.
  - destruct (String.eqb_spec cur section) as [E|N].
    + rewrite nth_0_hd, split_length_has.
      destruct (String.eqb (Js.trim (hd "" (Js.split "=" l))) key && Ini.has "=" l) eqn:T.
      * intros Q. injection Q as <-.
        apply andb_true_iff in T as [T1 T2].
        exists [], l, r. repeat split; trivial.
        -- unfold Ini.assigns. now rewrite Hh, T1, T2.
        -- intros [|? ?] ? ? Q; discriminate Q.
        -- unfold Ini.valueOf. now rewrite split_second.
      * apply Later; [reflexivity|]. intros _. unfold Ini.assigns.
        rewrite Hh. cbn [negb andb]. now rewrite andb_comm.
    + apply Later; [reflexivity|]. intros E. now destruct N.
Qed.

Lemma Bundled_scan_sound section key lines :
  forall cur v,
    Bundled.scan section key cur lines = Some v ->
    exists pre line post,
      lines = pre ++ line :: post /\
      Ini.sectionAfter cur pre = section /\
      Ini.assigns key line = true /\
      (forall p1 l p2, pre = p1 ++ l :: p2 ->
         Ini.sectionAfter cur p1 = section -> Ini.assigns key l = false) /\
      v = Ini.valueOf line.
Proof.
  induction lines as [|l r IH]; intros cur v; cbn [Bundled.scan]; [discriminate|].
  cbv zeta. fold (Ini.isHeader l).
  assert (Later : forall cur',
            cur' = (if Ini.isHeader l then Ini.headerName l else cur) ->
            (cur = section -> Ini.assigns key l = false) ->
            Bundled.scan section key cur' r = Some v ->
            exists pre line post,
              l :: r = pre ++ line :: post /\
              Ini.sectionAfter cur pre = section /\
              Ini.assigns key line = true /\
              (forall p1 l' p2, pre = p1 ++ l' :: p2 ->
                 Ini.sectionAfter cur p1 = section -> Ini.assigns key l' = false) /\
              v = Ini.valueOf line).
  { intros cur' E No S. destruct (IH _ _ S) as (pre & line & post & E1 & E2 & E3 & E4 & E5).
    exists (l :: pre), line, post. subst cur'. repeat split; trivial.
    - now rewrite E1.
    - intros [|x p1] l' p2 Q; cbn in Q; injection Q as -> ->.
      + exact No.
      + cbn [Ini.sectionAfter]. now apply E4 with (p2 := p2). }
  destruct (Ini.isHeader l) eqn:Hh.
  - apply Later; [reflexivity|]. intros _. unfold Ini.assigns. now rewrite Hh.
  - destruct (String.eqb_spec cur section) as [E|N].
    + rewrite nth_0_hd, (trim_split_first _ equals_not_space).
      rewrite split_length_has, (trim_has _ equals_not_space).
      destruct (String.eqb (Js.trim (hd "" (Js.split "=" l))) key && Ini.has "=" l) eqn:T.
      * intros Q. injection Q as <-.
        apply andb_true_iff in T as [T1 T2].
        exists [], l, r. repeat split; trivial.
        -- unfold Ini.assigns. now rewrite Hh, T1, T2.
        -- intros [|? ?] ? ? Q; discriminate Q.
        -- unfold Ini.valueOf. now rewrite (trim_split_second _ equals_not_space).
      * apply Later; [reflexivity|]. intros _. unfold Ini.assigns.
        rewrite Hh. cbn [negb andb]. now rewrite andb_comm.
    + apply Later; [reflexivity|]. intros E. now destruct N.
Qed.

(** What [getSetting] reads is the cached text of its file. *)
Lemma Tracker_getSetting_scan o section key internal v :
  Tracker.getSetting o section key internal = Some v ->
  exists content,
    Js.map_get (Tracker.configCache o)
      (Tracker.getConfigFile o (match internal with Some b => b | None => false end))
    = Some content /\
    Tracker.scan section key "" (Js.split "010" content) = Some v.
Proof.
  unfold Tracker.getSetting. cbv zeta.
  destruct (Js.map_get _ _) as [content|]; [|discriminate].
  destruct (negb (Js.truthy content)); [discriminate|].
  destruct (Js.truthy (Js.trim content)); [|discriminate].
  intros S. now exists content.
Qed.

Lemma Bundled_getSetting_scan o section key v :
  Bundled.getSetting o section key = Some v ->
  exists content,
    Js.map_get (Bundled.configCache o) (Bundled.configFile o) = Some content /\
    Bundled.scan section key "" (Js.split "010" content) = Some v.
Proof.
  unfold Bundled.getSetting.
  destruct (Js.map_get _ _) as [content|]; [|discriminate].
  destruct (negb (Js.truthy content)); [discriminate|].
  intros S. now exists content.
Qed.

(** ** Pieces of a split and what trimming keeps out *)

Lemma split_pieces_clean sep s p : In p (Js.split sep s) -> Ini.has sep p = false.
Proof.
  revert p. induction s as [|c r IH]; intros p; cbn.
  - now intros [<-|[]].
  - destruct (Ascii.eqb c sep) eqn:E.
    + intros [<-|H]; [reflexivity|now apply IH].
    + destruct (Js.split sep r) as [|h t] eqn:S.
      * intros [<-|[]]. cbn. now rewrite E.
      * intros [<-|H].
        -- cbn. rewrite E. apply IH. now left.
        -- apply IH. now right.
Qed.

Lemma hd_split_in sep s : In (hd "" (Js.split sep s)) (Js.split sep s).
Proof.
  destruct (Js.split sep s) eqn:E; [now destruct (split_not_nil sep s)|now left].
Qed.

Lemma has_afterFirst c d s : Ini.has c s = false -> Ini.has c (Ini.afterFirst d s) = false.
Proof.
  induction s as [|x r IH]; cbn; [reflexivity|].
  intros H. apply orb_false_iff in H as [H1 H2].
  destruct (Ascii.eqb x d); [exact H2|now apply IH].
Qed.

Lemma has_trim c s : Ini.has c s = false -> Ini.has c (Js.trim s) = false.
Proof. intros H. unfold Js.trim. now apply has_trimEnd, has_trimStart. Qed.

Lemma has_removeNulls c s :
  Ini.has c s = false -> Ini.has c (Tracker.removeNulls s) = false.
Proof.
  induction s as [|x r IH]; cbn; [reflexivity|].
  intros H. apply orb_false_iff in H as [H1 H2].
  destruct (Ascii.eqb x Ascii.zero); cbn; [now apply IH|].
  rewrite H1. now apply IH.
Qed.

Lemma removeNulls_none s : Ini.has Ascii.zero (Tracker.removeNulls s) = false.
Proof.
  induction s as [|x r IH]; cbn; [reflexivity|].
  destruct (Ascii.eqb x Ascii.zero) eqn:E; cbn; [exact IH|now rewrite E].
Qed.

Lemma trim_idem s : Js.trim (Js.trim s) = Js.trim s.
Proof. unfold Js.trim at 2. now rewrite trim_trimEnd, trim_trimStart. Qed.

Lemma has_valueOf c line : Ini.has c line = false -> Ini.has c (Ini.valueOf line) = false.
Proof.
  intros H. unfold Ini.valueOf. apply has_trim.
  destruct (Ini.has c (hd "" (Js.split "=" (Ini.afterFirst "=" line)))) eqn:E; [|reflexivity].
  pose proof (has_in_split "=" c _ _ (hd_split_in "=" (Ini.afterFirst "=" line)) E) as T.
  rewrite (has_afterFirst c "=" line H) in T. discriminate T.
Qed.

Lemma valueOf_no_equals line : Ini.has "=" (Ini.valueOf line) = false.
Proof.
  unfold Ini.valueOf. apply has_trim.
  eapply split_pieces_clean. apply hd_split_in.
Qed.

(** The section in force after some lines is the one before them or the
    name of one of their headers. *)
Lemma sectionAfter_from pre :
  forall cur,
    Ini.sectionAfter cur pre = cur \/
    exists l, In l pre /\ Ini.isHeader l = true /\ Ini.headerName l = Ini.sectionAfter cur pre.
Proof.
  induction pre as [|l r IH]; intros cur; cbn [Ini.sectionAfter]; [now left|].
  destruct (IH (if Ini.isHeader l then Ini.headerName l else cur)) as [E|(x & I & H & E)].
  - rewrite E. destruct (Ini.isHeader l) eqn:Hh; [|now left].
    right. exists l. repeat split; trivial. now left.
  - right. exists x. repeat split; trivial. now right.
Qed.

(** ** X1 *)

(** X1. [getSetting] finds a value only where the text gives one: when it
    returns [v], the cached text of the file has a line that gives [key] a
    value, lies in [section] and is the first such line, and [v] is what
    stands between the first equals sign of that line and the next one,
    trimmed (in options.ts with the NULs removed). *)
Theorem getSetting_found_only_where_assigned :
  forall section key v,
    (forall o internal,
       Tracker.getSetting o section key internal = Some v ->
       exists content pre line post,
         Js.map_get (Tracker.configCache o)
           (Tracker.getConfigFile o (match internal with Some b => b | None => false end))
         = Some content /\
         Js.split "010" content = pre ++ line :: post /\
         Ini.sectionAfter "" pre = section /\
         Ini.assigns key line = true /\
         Ini.unassigned section key pre /\
         v = Tracker.removeNulls (Ini.valueOf line)) /\
    (forall o,
       Bundled.getSetting o section key = Some v ->
       exists content pre line post,
         Js.map_get (Bundled.configCache o) (Bundled.configFile o) = Some content /\
         Js.split "010" content = pre ++ line :: post /\
         Ini.sectionAfter "" pre = section /\
         Ini.assigns key line = true /\
         Ini.unassigned section key pre /\
         v = Ini.valueOf line).
Proof.
  intros section key v. split.
  - intros o internal G.
    destruct (Tracker_getSetting_scan _ _ _ _ _ G) as (content & C & S).
    destruct (Tracker_scan_sound _ _ _ _ _ S) as (pre & line & post & E1 & E2 & E3 & E4 & E5).
    now exists content, pre, line, post.
  - intros o G.
    destruct (Bundled_getSetting_scan _ _ _ _ G) as (content & C & S).
    destruct (Bundled_scan_sound _ _ _ _ _ S) as (pre & line & post & E1 & E2 & E3 & E4 & E5).
    now exists content, pre, line, post.
Qed.

Lemma getSetting_found_only_where_assigned_witness :
  Tracker.getSetting Example.trackerOptions "settings" "api_key" None = Some "a" /\
  exists content pre line post,
    Js.map_get (Tracker.configCache Example.trackerOptions)
      (Tracker.getConfigFile Example.trackerOptions false) = Some content /\
    Js.split "010" content = pre ++ line :: post /\
    Ini.sectionAfter "" pre = "settings" /\
    Ini.assigns "api_key" line = true /\
    Ini.unassigned "settings" "api_key" pre /\
    "a" = Tracker.removeNulls (Ini.valueOf line).
Proof.
  split; [reflexivity|].
  exact (proj1 (getSetting_found_only_where_assigned "settings" "api_key" "a")
           Example.trackerOptions None eq_refl).
Defined.

(** ** X2 *)

(** X2. A setting that the text does not hold is absent: when no line of
    the cached text gives [key] a value, or when [section] is not the empty
    name and no header of the text names it, [getSetting] returns
    [undefined]; it does so too when the file is not in the cache. *)
Theorem getSetting_absent :
  forall section key,
    (forall o internal,
       match Js.map_get (Tracker.configCache o)
               (Tracker.getConfigFile o (match internal with Some b => b | None => false end))
       with
       | None => True
       | Some content =>
           (forall l, In l (Js.split "010" content) -> Ini.assigns key l = false) \/
           (section <> "" /\
            forall l, In l (Js.split "010" content) ->
                      Ini.isHeader l = true -> Ini.headerName l <> section)
       end ->
       Tracker.getSetting o section key internal = None) /\
    (forall o,
       match Js.map_get (Bundled.configCache o) (Bundled.configFile o) with
       | None => True
       | Some content =>
           (forall l, In l (Js.split "010" content) -> Ini.assigns key l = false) \/
           (section <> "" /\
            forall l, In l (Js.split "010" content) ->
                      Ini.isHeader l = true -> Ini.headerName l <> section)
       end ->
       Bundled.getSetting o section key = None).
Proof.
  intros section key.
  assert (No : forall content pre line post,
            Js.split "010" content = pre ++ line :: post ->
            Ini.sectionAfter "" pre = section ->
            Ini.assigns key line = true ->
            (forall l, In l (Js.split "010" content) -> Ini.assigns key l = false) \/
            (section <> "" /\
             forall l, In l (Js.split "010" content) ->
                       Ini.isHeader l = true -> Ini.headerName l <> section) ->
            False).
  { intros content pre line post E1 E2 E3 [K|[N H]].
    - rewrite K in E3; [discriminate|]. rewrite E1. apply in_or_app. right. now left.
    - destruct (sectionAfter_from pre "") as [Q|(l & I & Hl & Q)].
      + apply N. now rewrite <- E2, Q.
      + apply (H l); [rewrite E1; apply in_or_app; now left|exact Hl|].
        now rewrite Q. }
  split.
  - intros o internal A.
    destruct (Tracker.getSetting o section key internal) as [v|] eqn:G; [|reflexivity].
    destruct (Tracker_getSetting_scan _ _ _ _ _ G) as (content & C & S).
    destruct (Tracker_scan_sound _ _ _ _ _ S) as (pre & line & post & E1 & E2 & E3 & _).
    rewrite C in A. destruct (No content pre line post E1 E2 E3 A).
  - intros o A.
    destruct (Bundled.getSetting o section key) as [v|] eqn:G; [|reflexivity].
    destruct (Bundled_getSetting_scan _ _ _ _ G) as (content & C & S).
    destruct (Bundled_scan_sound _ _ _ _ _ S) as (pre & line & post & E1 & E2 & E3 & _).
    rewrite C in A. destruct (No content pre line post E1 E2 E3 A).
Qed.

Lemma getSetting_absent_witness :
  Tracker.getSetting Example.trackerOptions "settings" "debug" None = None /\
  Bundled.getSetting Example.bundleOptions "git" "api_key" = None.
Proof.
  split.
  - apply (proj1 (getSetting_absent "settings" "debug")). cbn.
    left. intros l [<-|[<-|[<-|[]]]]; reflexivity.
  - apply (proj2 (getSetting_absent "git" "api_key")). cbn.
    right. split; [discriminate|].
    intros l [<-|[<-|[<-|[]]]]; vm_compute; discriminate.
Defined.

(** ** X3 *)

(** X3. The value [getSetting] returns is clean: it holds no equals sign
    and no line break; from options.ts it holds no NUL, and from the bundle
    it has no white space at either end. *)
Theorem getSetting_value_is_clean :
  forall section key v,
    (forall o internal,
       Tracker.getSetting o section key internal = Some v ->
       Ini.has Ascii.zero v = false /\ Ini.has "=" v = false /\ Ini.has "010" v = false) /\
    (forall o,
       Bundled.getSetting o section key = Some v ->
       Js.trim v = v /\ Ini.has "=" v = false /\ Ini.has "010" v = false).
Proof.
  intros section key v. split.
  - intros o internal G.
    destruct (Tracker_getSetting_scan _ _ _ _ _ G) as (content & C & S).
    destruct (Tracker_scan_sound _ _ _ _ _ S) as (pre & line & post & E1 & _ & _ & _ & ->).
    repeat split.
    + apply removeNulls_none.
    + apply has_removeNulls, valueOf_no_equals.
    + apply has_removeNulls, has_valueOf. apply (split_pieces_clean "010" content).
      rewrite E1. apply in_or_app. right. now left.
  - intros o G.
    destruct (Bundled_getSetting_scan _ _ _ _ G) as (content & C & S).
    destruct (Bundled_scan_sound _ _ _ _ _ S) as (pre & line & post & E1 & _ & _ & _ & ->).
    repeat split.
    + unfold Ini.valueOf. apply trim_idem.
    + apply valueOf_no_equals.
    + apply has_valueOf. apply (split_pieces_clean "010" content).
      rewrite E1. apply in_or_app. right. now left.
Qed.

Lemma getSetting_value_is_clean_witness :
  Tracker.getSetting Example.trackerOptions "settings" "api_key" None = Some "a" /\
  Bundled.getSetting Example.bundleOptions "settings" "api_key" = Some "a" /\
  Ini.has "=" "a" = false /\ Js.trim "a" = "a".
Proof.
  split; [reflexivity|]. split; [reflexivity|].
  split.
  - exact (proj1 (proj2 (proj1 (getSetting_value_is_clean "settings" "api_key" "a")
                           Example.trackerOptions None eq_refl))).
  - exact (proj1 (proj2 (getSetting_value_is_clean "settings" "api_key" "a")
                    Example.bundleOptions eq_refl)).
Defined.

(* ===================================================================== *)
(** * Further properties: loading the configuration and starting up *)
(* ===================================================================== *)

Lemma map_get_set_other {V} (m : Js.Map V) k k' v :
  k <> k' -> Js.map_get (Js.map_set m k v) k' = Js.map_get m k'.
Proof.
  intros N. induction m as [|[x y] r IH]; cbn.
  - destruct (String.eqb_spec k k'); [contradiction|reflexivity].
  - destruct (String.eqb_spec x k) as [->|Nk]; cbn.
    + destruct (String.eqb_spec k k'); [contradiction|reflexivity].
    + destruct (String.eqb_spec x k'); [reflexivity|exact IH].
Qed.

Lemma silent_app a b : Trace.silent (a ++ b) = Trace.silent a && Trace.silent b.
Proof. apply forallb_app. Qed.

Lemma silent_execs ev : Trace.silent ev = true -> execs ev = [].
Proof.
  induction ev as [|e r IH]; [reflexivity|].
  destruct e; cbn; try discriminate; exact IH.
Qed.

Lemma silent_checks ev : Trace.silent ev = true -> checks ev = [].
Proof.
  induction ev as [|e r IH]; [reflexivity|].
  destruct e; cbn; try discriminate; exact IH.
Qed.

Lemma log_shape {T} l msg (m : Machine T) :
  exists ev, log l msg m = (inr tt, m, ev) /\ Trace.silent ev = true.
Proof. unfold log. destruct (_ <=? _)%nat; eexists; split; reflexivity. Qed.

Section Loading.
Variable node : Node.
Variable w : World.

(** One [try] block of [loadConfigs] of options.ts. *)
Lemma Tracker_loadOne_shape file (mo : Machine Tracker.Options) :
  exists o' ev,
    Tracker.loadOne w file mo = (inr tt, mkMachine o' (logLevel mo) (ticks mo), ev) /\
    execs ev = [] /\
    Tracker.configFile o' = Tracker.configFile (self mo) /\
    Tracker.internalConfigFile o' = Tracker.internalConfigFile (self mo) /\
    Tracker._resourcesLocation o' = Tracker._resourcesLocation (self mo) /\
    forall f,
      Js.map_get (Tracker.configCache o') f
      = if String.eqb file f
        then Config.loaded w (Tracker.configCache (self mo)) file
        else Js.map_get (Tracker.configCache (self mo)) f.
Proof.
  unfold Tracker.loadOne, Config.loaded. unfold_monad.
  destruct mo as [o lv tk]. cbn.
  destruct (fs_exists w file); [destruct (fs_readFile w file) as [content|]|]; cbn.
  - do 2 eexists. split; [reflexivity|]. repeat split. cbn. intros f.
    destruct (String.eqb_spec file f) as [<-|N].
    + apply map_get_set.
    + now apply map_get_set_other.
  - do 2 eexists. split; [reflexivity|]. repeat split. intros f.
    destruct (String.eqb_spec file f) as [<-|N]; reflexivity.
  - do 2 eexists. split; [reflexivity|]. repeat split. intros f.
    destruct (String.eqb_spec file f) as [<-|N]; reflexivity.
Qed.

Lemma Tracker_loadConfigs_loaded (mo : Machine Tracker.Options) :
  exists o' ev,
    Tracker.loadConfigs w mo = (inr tt, mkMachine o' (logLevel mo) (ticks mo), ev) /\
    execs ev = [] /\
    Tracker.configFile o' = Tracker.configFile (self mo) /\
    Tracker.internalConfigFile o' = Tracker.internalConfigFile (self mo) /\
    Tracker._resourcesLocation o' = Tracker._resourcesLocation (self mo) /\
    Js.map_get (Tracker.configCache o') (Tracker.configFile (self mo))
    = Config.loaded w (Tracker.configCache (self mo)) (Tracker.configFile (self mo)) /\
    Js.map_get (Tracker.configCache o') (Tracker.internalConfigFile (self mo))
    = Config.loaded w (Tracker.configCache (self mo)) (Tracker.internalConfigFile (self mo)).
Proof.
  destruct (Tracker_loadOne_shape (Tracker.configFile (self mo)) mo)
    as (o1 & ev1 & E1 & X1 & C1 & I1 & R1 & G1).
  destruct (Tracker_loadOne_shape (Tracker.internalConfigFile (self mo))
              (mkMachine o1 (logLevel mo) (ticks mo)))
    as (o2 & ev2 & E2 & X2 & C2 & I2 & R2 & G2).
  cbn [self logLevel ticks] in *.
  exists o2, (ev1 ++ ev2).
  split.
  { unfold Tracker.loadConfigs. unfold bind at 1. unfold bind at 1. unfold gets at 1.
    rewrite E1. unfold bind at 1. unfold gets at 1. cbn [self]. rewrite I1, E2.
    reflexivity. }
  split; [now rewrite execs_app, X1, X2|].
  split; [congruence|]. split; [congruence|]. split; [congruence|].
  clear E1 E2 X1 X2 C1 C2 I1 I2 R1 R2.
  remember (Tracker.configFile (self mo)) as c eqn:Hc.
  remember (Tracker.internalConfigFile (self mo)) as i eqn:Hi.
  remember (Tracker.configCache (self mo)) as c0 eqn:H0.
  clear Hc Hi H0. split.
  - rewrite G2. destruct (String.eqb_spec i c) as [Q|N].
    + subst i. unfold Config.loaded. rewrite G1, String.eqb_refl. unfold Config.loaded.
      destruct (fs_exists w c); [destruct (fs_readFile w c)|]; reflexivity.
    + now rewrite G1, String.eqb_refl.
  - rewrite G2, String.eqb_refl. unfold Config.loaded at 1. rewrite G1.
    destruct (String.eqb_spec c i) as [Q|N].
    + subst i. unfold Config.loaded.
      destruct (fs_exists w c); [destruct (fs_readFile w c)|]; reflexivity.
    + reflexivity.
Qed.

Lemma Bundled_loadConfigs_loaded (mo : Machine Bundled.Options) :
  exists o' ev,
    Bundled.loadConfigs w mo = (inr tt, mkMachine o' (logLevel mo) (ticks mo), ev) /\
    execs ev = [] /\
    Bundled.configFile o' = Bundled.configFile (self mo) /\
    Bundled._resourcesLocation o' = Bundled._resourcesLocation (self mo) /\
    Js.map_get (Bundled.configCache o') (Bundled.configFile (self mo))
    = Config.loaded w (Bundled.configCache (self mo)) (Bundled.configFile (self mo)).
Proof.
  unfold Bundled.loadConfigs, Config.loaded. unfold_monad.
  destruct mo as [o lv tk]. cbn.
  destruct (fs_exists w (Bundled.configFile o));
    [destruct (fs_readFile w (Bundled.configFile o)) as [content|]|]; cbn.
  all: do 2 eexists; (split; [reflexivity|]); repeat split.
  cbn. apply map_get_set.
Qed.

(** ** X4 *)

(** X4. [loadConfigs] never rejects and never executes anything.  After
    it, the cache holds for each configuration file the text the adapter
    gave for it, when the file exists and can be read; a file that does not
    exist or cannot be read leaves its entry as it was.  The names of the
    files stay. *)
Theorem loadConfigs_caches_what_it_reads :
  (forall mo,
     let x := Tracker.loadConfigs w mo in
     let o := self mo in
     let o' := self (after x) in
     outcome x = inr tt /\
     execs (events x) = [] /\
     Tracker.configFile o' = Tracker.configFile o /\
     Tracker.internalConfigFile o' = Tracker.internalConfigFile o /\
     Js.map_get (Tracker.configCache o') (Tracker.configFile o)
     = Config.loaded w (Tracker.configCache o) (Tracker.configFile o) /\
     Js.map_get (Tracker.configCache o') (Tracker.internalConfigFile o)
     = Config.loaded w (Tracker.configCache o) (Tracker.internalConfigFile o)) /\
  (forall mo,
     let x := Bundled.loadConfigs w mo in
     let o := self mo in
     let o' := self (after x) in
     outcome x = inr tt /\
     execs (events x) = [] /\
     Bundled.configFile o' = Bundled.configFile o /\
     Js.map_get (Bundled.configCache o') (Bundled.configFile o)
     = Config.loaded w (Bundled.configCache o) (Bundled.configFile o)).
Proof.
  split; intros mo; cbv zeta.
  - destruct (Tracker_loadConfigs_loaded mo) as (o' & ev & -> & X & C & I & _ & G1 & G2).
    cbn. repeat split; trivial.
  - destruct (Bundled_loadConfigs_loaded mo) as (o' & ev & -> & X & C & _ & G).
    cbn. repeat split; trivial.
Qed.

(** [checkAndInstallCli] looks and logs. *)
Lemma Tracker_checkCli_quiet (md : Machine Tracker.Dependencies) :
  exists d' ev,
    Tracker.checkAndInstallCli node w md = (inr tt, mkMachine d' (logLevel md) (ticks md), ev) /\
    execs ev = [].
Proof.
  unfold Tracker.checkAndInstallCli, Tracker.isCliInstalled.
  destruct (Tracker_getCli_shape node w md) as (p & d' & ev & E & X).
  unfold bind at 1. destruct (log_shape DEBUG [Txt "Checking WakaTime CLI..."] md) as (e0 & -> & S0).
  unfold bind at 1. unfold bind at 1. rewrite E.
  destruct (Js.truthy p); unfold exists_; unfold_monad; cbn; crunch.
  all: do 2 eexists; (split; [reflexivity|]).
  all: rewrite ?execs_app, (silent_execs _ S0), ?X; reflexivity.
Qed.

Lemma Bundled_checkCli_quiet opts (md : Machine Bundled.Dependencies) :
  exists d' ev,
    Bundled.checkAndInstallCli node w opts md
    = (inr tt, mkMachine d' (logLevel md) (ticks md), ev) /\
    execs ev = [].
Proof.
  unfold Bundled.checkAndInstallCli, Bundled.isCliInstalled.
  destruct (Bundled_getCli_shape node w opts md) as (p & d' & ev & E & X).
  unfold bind at 1. unfold bind at 1. rewrite E.
  unfold_monad; cbn; crunch.
  all: do 2 eexists; (split; [reflexivity|]).
  all: rewrite ?execs_app, ?X, ?app_nil_r; try exact X; reflexivity.
Qed.

Local Opaque Tracker.loadConfigs Tracker.checkAndInstallCli Tracker.getSetting.
Local Opaque Bundled.loadConfigs Bundled.checkAndInstallCli Bundled.getSetting.

Lemma Tracker_initialize_shape m :
  exists o d ev,
    Tracker.initialize node w m
    = (inr tt,
       mkMachine
         (Tracker.mkTracker (Some o) (Some d)
            (Tracker.lastHeartbeatAt (self m)) (Tracker.fileEntities (self m))
            (Tracker.workingDirectory (self m))
            (Tracker.getSetting o "settings" "api_key" None))
         (Config.level (Tracker.getSetting o "settings" "debug" None))
         (ticks m),
       ev) /\
    execs ev = [] /\
    Tracker.configFile o = path_join node [os_homedir w; ".wakatime.cfg"] /\
    Js.map_get (Tracker.configCache o) (Tracker.configFile o)
    = Config.loaded w [] (Tracker.configFile o).
Proof.
  unfold Tracker.initialize, Tracker.loadConfig, Tracker.onOptions, Tracker.onDependencies.
  destruct m as [[o d l e wd k] lv tk].
  destruct (Tracker_loadConfigs_loaded (mkMachine (Tracker.newOptions node w) lv tk))
    as (o' & ev & E & X & C & _ & _ & G & _).
  unfold_monad. cbn. rewrite E. cbn.
  match goal with
  | |- context [Tracker.checkAndInstallCli node w ?md] =>
      destruct (Tracker_checkCli_quiet md) as (d' & ev' & E' & X')
  end.
  rewrite E'. cbn. exists o', d'. eexists. split; [reflexivity|].
  cbn in C, G. rewrite C. repeat split.
  - now rewrite !execs_app, X, X'.
  - exact G.
Qed.

Lemma Bundled_initialize_shape m :
  exists o d ev,
    Bundled.initialize node w m
    = (inr tt,
       mkMachine
         (Bundled.mkTracker o d
            (Bundled.lastHeartbeatAt (self m)) (Bundled.fileEntities (self m))
            (Bundled.workingDirectory (self m))
            (Bundled.getSetting o "settings" "api_key"))
         (Config.level (Bundled.getSetting o "settings" "debug"))
         (ticks m),
       ev) /\
    execs ev = [] /\
    Bundled.configFile o = Bundled.configFile (Bundled.options (self m)) /\
    Js.map_get (Bundled.configCache o) (Bundled.configFile o)
    = Config.loaded w (Bundled.configCache (Bundled.options (self m))) (Bundled.configFile o).
Proof.
  unfold Bundled.initialize, Bundled.onOptions, Bundled.onDependencies.
  destruct m as [[o d l e wd k] lv tk].
  destruct (Bundled_loadConfigs_loaded (mkMachine o lv tk))
    as (o' & ev & E & X & C & _ & G).
  unfold_monad. cbn. rewrite E. cbn.
  match goal with
  | |- context [Bundled.checkAndInstallCli node w ?op ?md] =>
      destruct (Bundled_checkCli_quiet op md) as (d' & ev' & E' & X')
  end.
  rewrite E'. cbn. exists o', d'. eexists. split; [reflexivity|].
  cbn in C, G. rewrite C. repeat split.
  - now rewrite !execs_app, X, X'.
  - exact G.
Qed.

Local Transparent Tracker.loadConfigs Tracker.checkAndInstallCli Tracker.getSetting.
Local Transparent Bundled.loadConfigs Bundled.checkAndInstallCli Bundled.getSetting.

(** ** X5 *)

(** X5. [initialize] never rejects, never executes anything and never
    reads the clock.  It leaves the tracker with its options and its
    dependencies, with the API key that [getSetting('settings', 'api_key')]
    gives on the loaded options, and with what was pending and the time of
    the last flush as they were; the logger is at DEBUG when
    [settings.debug] is ['true'] and at INFO otherwise. *)
Theorem initialize_reads_the_settings :
  (forall m,
     let x := Tracker.initialize node w m in
     let t := self (after x) in
     outcome x = inr tt /\
     execs (events x) = [] /\
     ticks (after x) = ticks m /\
     Tracker.fileEntities t = Tracker.fileEntities (self m) /\
     Tracker.lastHeartbeatAt t = Tracker.lastHeartbeatAt (self m) /\
     Tracker.dependencies t <> None /\
     exists o,
       Tracker.options t = Some o /\
       Tracker.configFile o = path_join node [os_homedir w; ".wakatime.cfg"] /\
       Js.map_get (Tracker.configCache o) (Tracker.configFile o)
       = Config.loaded w [] (Tracker.configFile o) /\
       Tracker.apiKey t = Tracker.getSetting o "settings" "api_key" None /\
       logLevel (after x) = Config.level (Tracker.getSetting o "settings" "debug" None)) /\
  (forall m,
     let x := Bundled.initialize node w m in
     let t := self (after x) in
     let o := Bundled.options t in
     outcome x = inr tt /\
     execs (events x) = [] /\
     ticks (after x) = ticks m /\
     Bundled.fileEntities t = Bundled.fileEntities (self m) /\
     Bundled.lastHeartbeatAt t = Bundled.lastHeartbeatAt (self m) /\
     Bundled.configFile o = Bundled.configFile (Bundled.options (self m)) /\
     Js.map_get (Bundled.configCache o) (Bundled.configFile o)
     = Config.loaded w (Bundled.configCache (Bundled.options (self m))) (Bundled.configFile o) /\
     Bundled.apiKey t = Bundled.getSetting o "settings" "api_key" /\
     logLevel (after x) = Config.level (Bundled.getSetting o "settings" "debug")).
Proof.
  split; intros m; cbv zeta.
  - destruct (Tracker_initialize_shape m) as (o & d & ev & -> & X & C & G).
    cbn. repeat split; trivial; [discriminate|].
    exists o. repeat split; trivial.
  - destruct (Bundled_initialize_shape m) as (o & d & ev & -> & X & C & G).
    cbn. repeat split; trivial.
Qed.

End Loading.

(* ===================================================================== *)
(** * Further properties: the flush *)
(* ===================================================================== *)

Section FlushFacts.
Variable node : Node.
Variable w : World.

(** ** Without a key *)

Lemma Tracker_single_nokey entity c m :
  Js.truthyOpt (Tracker.apiKey (self m)) = false ->
  exists ev,
    Tracker.sendSingleHeartbeat node w entity c m = (inr tt, m, ev) /\
    Trace.silent ev = true.
Proof.
  unfold Tracker.sendSingleHeartbeat. destruct m as [[o d l e wd k] lv t].
  cbn [self Tracker.apiKey Js.truthyOpt]. intros K.
  destruct k as [k|]; [change (Js.truthy k = false) in K|]; unfold_monad; cbn.
  all: repeat (first [rewrite K | break_match]; cbn).
  all: eexists; split; reflexivity.
Qed.

Lemma Tracker_loop_nokey es :
  forall m,
    Js.truthyOpt (Tracker.apiKey (self m)) = false ->
    exists ev,
      for_of es (fun '(entity, changes) => Tracker.sendSingleHeartbeat node w entity changes) m
      = (inr tt, m, ev) /\
      Trace.silent ev = true.
Proof.
  induction es as [|[entity c] es IH]; intros m K.
  - exists []. split; reflexivity.
  - destruct (Tracker_single_nokey entity c m K) as (ev1 & E1 & S1).
    destruct (IH m K) as (ev2 & E2 & S2).
    cbn [for_of]. unfold bind. rewrite E1, E2. exists (ev1 ++ ev2).
    split; [reflexivity|]. now rewrite silent_app, S1, S2.
Qed.

Lemma Bundled_single_nokey entity c m :
  Js.truthyOpt (Bundled.apiKey (self m)) = false ->
  Bundled.sendSingleHeartbeat node w entity c m = (inr tt, m, []).
Proof.
  unfold Bundled.sendSingleHeartbeat. destruct m as [[o d l e wd k] lv t].
  cbn [self Bundled.apiKey Js.truthyOpt]. intros K.
  destruct k as [k|]; [change (Js.truthy k = false) in K|];
    unfold_monad; cbn; [rewrite K|]; reflexivity.
Qed.

Lemma Bundled_loop_nokey es :
  forall m,
    Js.truthyOpt (Bundled.apiKey (self m)) = false ->
    for_of es (fun '(entity, changes) => Bundled.sendSingleHeartbeat node w entity changes) m
    = (inr tt, m, []).
Proof.
  induction es as [|[entity c] es IH]; intros m K; [reflexivity|].
  cbn [for_of]. unfold bind. now rewrite (Bundled_single_nokey entity c m K), (IH m K).
Qed.

Lemma Bundled_flush_nokey m :
  Js.truthyOpt (Bundled.apiKey (self m)) = false ->
  Bundled.sendHeartbeat node w m
  = (inr tt,
     mkMachine (Bundled.withLastHeartbeatAt (clock w (ticks m))
                  (Bundled.withFileEntities [] (self m)))
               (logLevel m) (S (ticks m)),
     []).
Proof.
  intros K. unfold Bundled.sendHeartbeat, Bundled.sendHeartbeats.
  unfold bind at 1. unfold bind at 1. unfold gets at 1.
  rewrite (Bundled_loop_nokey _ m K). reflexivity.
Qed.

End FlushFacts.

(** ** X6 *)

(** X6. Without an API key (none was configured, or [initialize] has not
    run) a flush calls the adapter for nothing: no existence check, no
    read, no execution; tracker.ts writes to the console at most.  It
    still drops what was pending and sets the time of the last flush to
    the clock, which it reads once. *)
Theorem flush_without_a_key_calls_nothing :
  forall node w,
  (forall m,
     Js.truthyOpt (Tracker.apiKey (self m)) = false ->
     exists ev,
       Tracker.sendHeartbeat node w m
       = (inr tt,
          mkMachine (Tracker.withLastHeartbeatAt (clock w (ticks m))
                       (Tracker.withFileEntities [] (self m)))
                    (logLevel m) (S (ticks m)),
          ev) /\
       Trace.silent ev = true /\ execs ev = [] /\ checks ev = []) /\
  (forall m,
     Js.truthyOpt (Bundled.apiKey (self m)) = false ->
     Bundled.sendHeartbeat node w m
     = (inr tt,
        mkMachine (Bundled.withLastHeartbeatAt (clock w (ticks m))
                     (Bundled.withFileEntities [] (self m)))
                  (logLevel m) (S (ticks m)),
        [])).
Proof.
  intros node w. split; intros m K.
  - destruct (Tracker_loop_nokey node w (Tracker.fileEntities (self m)) m K) as (ev & E & S).
    exists ev. split; [|split; [exact S|split; [now apply silent_execs|now apply silent_checks]]].
    unfold Tracker.sendHeartbeat, Tracker.sendHeartbeats, Tracker.clearEntities.
    unfold bind at 1. unfold bind at 1. unfold gets at 1.
    rewrite E. unfold_monad. cbn. now rewrite app_nil_r.
  - now apply Bundled_flush_nokey.
Qed.

Lemma flush_without_a_key_calls_nothing_witness :
  let w := Example.installed 1700000000000 in
  let m := Example.start (Tracker.newTracker "/w") in
  let b := Example.start
             (Bundled.withFileEntities [("/w/foo.txt", 3%Z)]
                (Bundled.newTracker Example.posix w "/w")) in
  Js.truthyOpt (Tracker.apiKey (self m)) = false /\
  Js.truthyOpt (Bundled.apiKey (self b)) = false /\
  (exists ev,
     Tracker.sendHeartbeat Example.posix w m
     = (inr tt,
        mkMachine (Tracker.withLastHeartbeatAt 1700000000000
                     (Tracker.withFileEntities [] (self m))) INFO 1,
        ev) /\
     Trace.silent ev = true /\ execs ev = [] /\ checks ev = []) /\
  Bundled.fileEntities (self (after (Bundled.sendHeartbeat Example.posix w b))) = [] /\
  events (Bundled.sendHeartbeat Example.posix w b) = [].
Proof.
  cbv zeta. split; [reflexivity|]. split; [reflexivity|]. split.
  - exact (proj1 (flush_without_a_key_calls_nothing Example.posix
                    (Example.installed 1700000000000))
             (Example.start (Tracker.newTracker "/w")) eq_refl).
  - rewrite (proj2 (flush_without_a_key_calls_nothing Example.posix
                      (Example.installed 1700000000000))
               (Example.start
                  (Bundled.withFileEntities [("/w/foo.txt", 3%Z)]
                     (Bundled.newTracker Example.posix
                        (Example.installed 1700000000000) "/w")))
               eq_refl).
    split; reflexivity.
Defined.

(** ** Without a CLI *)

Lemma find_none_in {A} (f : A -> bool) l :
  (forall x, In x l -> f x = false) -> List.find f l = None.
Proof.
  induction l as [|x r IH]; intros H; cbn; [reflexivity|].
  rewrite (H x) by now left. apply IH. intros y I. apply H. now right.
Qed.

Section NoCli.
Variable node : Node.
Variable w : World.

(** The place the object knows, if it is one, is gone, and so are the
    three candidates. *)
Local Abbreviation gone d :=
  ((forall q, Tracker.cliLocation d = Some q -> Js.truthy q = true ->
               fs_exists w q = false) /\
   (forall p, In p (Flush.candidates node (Tracker.resourcesLocation d)) ->
              fs_exists w p = false)).

Lemma Tracker_getCli_gone (md : Machine Tracker.Dependencies) :
  gone (self md) ->
  exists p d' ev,
    Tracker.getCliLocation node w md = (inr p, mkMachine d' (logLevel md) (ticks md), ev) /\
    execs ev = [] /\
    (Js.truthy p = true -> fs_exists w p = false) /\
    gone d'.
Proof.
  intros [M C].
  unfold Tracker.getCliLocation, Tracker.locate. unfold_monad.
  destruct md as [[r c] lv t]. cbn in *.
  assert (C1 := C _ (or_introl eq_refl)).
  assert (C2 := C _ (or_intror (or_introl eq_refl))).
  assert (C3 := C _ (or_intror (or_intror (or_introl eq_refl)))).
  cbn in C2, C3.
  destruct c as [q|]; [destruct (Js.truthy q) eqn:T|]; cbn; rewrite ?C1, ?C2, ?C3; cbn.
  all: do 3 eexists; (split; [reflexivity|]); (split; [reflexivity|]); cbn.
  - split; [now apply M|]. split; [exact M|exact C].
  - split; [discriminate|]. split; [|exact C]. intros q' Q. injection Q as <-.
    discriminate.
  - split; [discriminate|]. split; [|exact C]. intros q' Q. injection Q as <-.
    discriminate.
Qed.

Local Opaque Tracker.getCliLocation.

Lemma Tracker_single_nocli entity c m d :
  Tracker.dependencies (self m) = Some d ->
  gone d ->
  exists d' ev,
    Tracker.sendSingleHeartbeat node w entity c m
    = (inr tt, mkMachine (Tracker.withDependencies (Some d') (self m)) (logLevel m) (ticks m),
       ev) /\
    gone d' /\
    execs ev = [].
Proof.
  unfold Tracker.sendSingleHeartbeat, Tracker.onDependencies.
  destruct m as [[o d0 l e wd k] lv t]. cbn [self Tracker.dependencies].
  intros -> G.
  destruct (Tracker_getCli_gone {| self := d; logLevel := lv; ticks := t |} G)
    as (p & d' & ev & E & X & P & G').
  destruct k as [k|]; [destruct (Js.truthy k) eqn:Tk|].
  - unfold_monad. cbn.
    repeat (first [rewrite E | rewrite Tk | break_match]; cbn).
    all: try match goal with
             | H : negb (fs_exists w _) = false |- _ =>
                 rewrite (P eq_refl) in H; cbn in H; discriminate H
             end.
    all: exists d'; eexists; (split; [reflexivity|]); (split; [exact G'|]).
    all: cbn [execs]; rewrite ?execs_app, ?X; reflexivity.
  - unfold_monad. cbn. repeat (first [rewrite Tk | break_match]; cbn).
    all: exists d; eexists; (split; [reflexivity|]); (split; [exact G|reflexivity]).
  - unfold_monad. cbn. crunch.
    all: exists d; eexists; (split; [reflexivity|]); (split; [exact G|reflexivity]).
Qed.

Local Transparent Tracker.getCliLocation.

Lemma Tracker_loop_nocli es :
  forall m d,
    Tracker.dependencies (self m) = Some d ->
    gone d ->
    exists d' ev,
      for_of es (fun '(entity, changes) => Tracker.sendSingleHeartbeat node w entity changes) m
      = (inr tt, mkMachine (Tracker.withDependencies (Some d') (self m)) (logLevel m) (ticks m),
         ev) /\
      execs ev = [].
Proof.
  induction es as [|[entity c] es IH]; intros m d D G.
  - exists d, []. destruct m as [[o d0 l e wd k] lv t]. cbn in *. subst d0.
    split; reflexivity.
  - destruct (Tracker_single_nocli entity c m d D G) as (d1 & ev1 & E1 & G1 & X1).
    cbn [for_of]. unfold bind. rewrite E1.
    destruct (IH (mkMachine (Tracker.withDependencies (Some d1) (self m))
                    (logLevel m) (ticks m)) d1 eq_refl G1)
      as (d2 & ev2 & E2 & X2).
    rewrite E2. cbn [self logLevel ticks] in *.
    exists d2, (ev1 ++ ev2). split; [reflexivity|].
    now rewrite execs_app, X1, X2.
Qed.

Lemma Bundled_getCli_nocli opts (md : Machine Bundled.Dependencies) :
  Js.truthyOpt (Bundled.cliLocation (self md)) = false ->
  (forall p, In p (Flush.candidates node (Bundled._resourcesLocation opts)) ->
             fs_exists w p = false) ->
  exists d' ev,
    Bundled.getCliLocation node w opts md
    = (inr "", mkMachine d' (logLevel md) (ticks md), ev) /\
    execs ev = [] /\
    Js.truthyOpt (Bundled.cliLocation d') = false.
Proof.
  intros F C.
  destruct (Bundled_getCli_shape node w opts md) as (p & d' & ev & E & X).
  pose proof (Bundled_lookup_fresh node w opts md F) as [O _].
  unfold Flush.firstExistingOr in O. rewrite (find_none_in _ _ C) in O.
  pose proof (Bundled_lookup_missed node w opts md O) as L.
  rewrite E in O, L. cbn in O, L. injection O as ->.
  now exists d', ev.
Qed.

Local Opaque Bundled.getCliLocation.

Lemma Bundled_single_nocli entity c m :
  Js.truthyOpt (Bundled.cliLocation (Bundled.dependencies (self m))) = false ->
  (forall p, In p (Flush.candidates node (Bundled._resourcesLocation (Bundled.options (self m)))) ->
             fs_exists w p = false) ->
  exists d' ev,
    Bundled.sendSingleHeartbeat node w entity c m
    = (inr tt, mkMachine (Bundled.withDependencies d' (self m)) (logLevel m) (ticks m), ev) /\
    Js.truthyOpt (Bundled.cliLocation d') = false /\
    execs ev = [].
Proof.
  unfold Bundled.sendSingleHeartbeat, Bundled.onDependencies.
  destruct m as [[o d l e wd k] lv t]. cbn [self Bundled.dependencies Bundled.options].
  intros F C.
  destruct (Bundled_getCli_nocli o {| self := d; logLevel := lv; ticks := t |} F C)
    as (d' & ev & E & X & F').
  destruct k as [k|]; [destruct (Js.truthy k) eqn:Tk|].
  - unfold_monad. cbn. rewrite Tk. cbn. rewrite E. cbn.
    exists d'. eexists. split; [reflexivity|]. split; [exact F'|].
    now rewrite app_nil_r.
  - unfold_monad. cbn. rewrite Tk. cbn.
    exists d. eexists. split; [reflexivity|]. split; [exact F|reflexivity].
  - unfold_monad. cbn.
    exists d. eexists. split; [reflexivity|]. split; [exact F|reflexivity].
Qed.

Local Transparent Bundled.getCliLocation.

Lemma Bundled_loop_nocli es :
  forall m,
    Js.truthyOpt (Bundled.cliLocation (Bundled.dependencies (self m))) = false ->
    (forall p, In p (Flush.candidates node (Bundled._resourcesLocation (Bundled.options (self m)))) ->
               fs_exists w p = false) ->
    exists d' ev,
      for_of es (fun '(entity, changes) => Bundled.sendSingleHeartbeat node w entity changes) m
      = (inr tt, mkMachine (Bundled.withDependencies d' (self m)) (logLevel m) (ticks m), ev) /\
      execs ev = [].
Proof.
  induction es as [|[entity c] es IH]; intros m F C.
  - exists (Bundled.dependencies (self m)), [].
    destruct m as [[o d l e wd k] lv t]. cbn. split; reflexivity.
  - destruct (Bundled_single_nocli entity c m F C) as (d1 & ev1 & E1 & F1 & X1).
    cbn [for_of]. unfold bind. rewrite E1.
    destruct (IH (mkMachine (Bundled.withDependencies d1 (self m)) (logLevel m) (ticks m))
                F1 C)
      as (d2 & ev2 & E2 & X2).
    rewrite E2. cbn [self logLevel ticks] in *.
    exists d2, (ev1 ++ ev2). split; [reflexivity|].
    now rewrite execs_app, X1, X2.
Qed.

End NoCli.

(** ** X7 *)

(** X7. Where the CLI is in none of its places, a flush executes nothing
    and drops what was pending all the same.  In tracker.ts the place the
    object remembers is checked again before each call, so a CLI that was
    found once and is gone by now is not executed; in the bundle, which
    does not check again, this holds for an object that remembers no
    place. *)
Theorem flush_without_a_cli_executes_nothing :
  forall node w,
    (forall m d,
       Tracker.dependencies (self m) = Some d ->
       (forall q, Tracker.cliLocation d = Some q -> Js.truthy q = true ->
                  fs_exists w q = false) ->
       (forall p, In p (Flush.candidates node (Tracker.resourcesLocation d)) ->
                  fs_exists w p = false) ->
       let x := Tracker.sendHeartbeat node w m in
       outcome x = inr tt /\
       execs (events x) = [] /\
       Tracker.fileEntities (self (after x)) = []) /\
    (forall m,
       Js.truthyOpt (Bundled.cliLocation (Bundled.dependencies (self m))) = false ->
       (forall p,
          In p (Flush.candidates node (Bundled._resourcesLocation (Bundled.options (self m)))) ->
          fs_exists w p = false) ->
       let x := Bundled.sendHeartbeat node w m in
       outcome x = inr tt /\
       execs (events x) = [] /\
       Bundled.fileEntities (self (after x)) = []).
Proof.
  intros node w. split.
  - intros m d D M C. cbv zeta.
    destruct (Tracker_loop_nocli node w (Tracker.fileEntities (self m)) m d D (conj M C))
      as (d' & ev & E & X).
    assert (Q : exists m',
               Tracker.sendHeartbeat node w m = (inr tt, m', ev) /\
               Tracker.fileEntities (self m') = []).
    { unfold Tracker.sendHeartbeat, Tracker.sendHeartbeats, Tracker.clearEntities.
      unfold bind at 1. unfold bind at 1. unfold gets at 1.
      rewrite E. unfold_monad. cbn. rewrite app_nil_r. eexists. split; reflexivity. }
    destruct Q as (m' & -> & Q). cbn. auto.
  - intros m F C. cbv zeta.
    destruct (Bundled_loop_nocli node w (Bundled.fileEntities (self m)) m F C)
      as (d' & ev & E & X).
    assert (Q : exists m',
               Bundled.sendHeartbeat node w m = (inr tt, m', ev) /\
               Bundled.fileEntities (self m') = []).
    { unfold Bundled.sendHeartbeat, Bundled.sendHeartbeats.
      unfold bind at 1. unfold bind at 1. unfold gets at 1.
      rewrite E. unfold_monad. cbn. rewrite app_nil_r. eexists. split; reflexivity. }
    destruct Q as (m' & -> & Q). cbn. auto.
Qed.

Lemma flush_without_a_cli_executes_nothing_witness :
  let w := Example.bare 1700000000000 in
  let pending := [("/w/foo.txt", 3%Z)] in
  let d := {| Tracker.resourcesLocation := "/home/u/.wakatime";
              Tracker.cliLocation := Some "/usr/local/bin/wakatime-cli" |} in
  let m := Example.start (Example.tracker 0 pending) in
  let b := Example.start
             (Bundled.withDependencies {| Bundled.cliLocation := None |}
                (Example.bundle 0 pending)) in
  Tracker.dependencies (self m) = Some d /\
  fs_exists w "/w/foo.txt" = true /\
  fs_exists w "/usr/local/bin/wakatime-cli" = false /\
  (forall p, In p (Flush.candidates Example.posix "/home/u/.wakatime") ->
             fs_exists w p = false) /\
  Js.truthyOpt (Bundled.cliLocation (Bundled.dependencies (self b))) = false /\
  execs (events (Tracker.sendHeartbeat Example.posix w m)) = [] /\
  execs (events (Bundled.sendHeartbeat Example.posix w b)) = [].
Proof.
  cbv zeta.
  assert (C : forall p, In p (Flush.candidates Example.posix "/home/u/.wakatime") ->
                        fs_exists (Example.bare 1700000000000) p = false).
  { intros p [<-|[<-|[<-|[]]]]; reflexivity. }
  assert (M : forall q, Some "/usr/local/bin/wakatime-cli" = Some q -> Js.truthy q = true ->
                        fs_exists (Example.bare 1700000000000) q = false).
  { intros q Q _. injection Q as <-. reflexivity. }
  split; [reflexivity|]. split; [reflexivity|]. split; [reflexivity|].
  split; [exact C|]. split; [reflexivity|]. split.
  - exact (proj1 (proj2 (proj1 (flush_without_a_cli_executes_nothing
                                  Example.posix (Example.bare 1700000000000))
                           (Example.start (Example.tracker 0 [("/w/foo.txt", 3%Z)]))
                           _ eq_refl M C))).
  - exact (proj1 (proj2 (proj2 (flush_without_a_cli_executes_nothing
                                  Example.posix (Example.bare 1700000000000))
                           (Example.start
                              (Bundled.withDependencies {| Bundled.cliLocation := None |}
                                 (Example.bundle 0 [("/w/foo.txt", 3%Z)])))
                           eq_refl C))).
Defined.

(** ** The key of a call *)

Section Carrying.
Variable node : Node.
Variable w : World.

Local Opaque Tracker.getCliLocation Bundled.getCliLocation.

Lemma Tracker_single_carries entity c m key :
  Tracker.apiKey (self m) = Some key ->
  exists r d' n ev,
    Tracker.sendSingleHeartbeat node w entity c m
    = (r, mkMachine (Tracker.withDependencies d' (self m)) (logLevel m) (ticks m + n), ev) /\
    (execs ev = [] \/
     exists cli time,
       execs ev = [(cli, ["--entity"; entity; "--time"; time; "--write"],
                    Some [("WAKATIME_API_KEY", key)])]).
Proof.
  unfold Tracker.sendSingleHeartbeat, Tracker.onDependencies.
  destruct m as [[o d l e wd k] lv t]. intros K. cbn in K. subst k.
  destruct (Js.truthy key) eqn:Tk; [destruct d as [d|] |].
  - destruct (Tracker_getCli_shape node w {| self := d; logLevel := lv; ticks := t |})
      as (p & d' & ev & E & X).
    unfold_monad. cbn.
    repeat (first [rewrite E | rewrite Tk | break_match]; cbn).
    all: exists (inr tt), (Some d').
    all: first [ exists 0%nat; rewrite Nat.add_0_r; eexists; split; [reflexivity|]
               | exists 1%nat; rewrite Nat.add_1_r; eexists; split; [reflexivity|] ].
    all: cbn [execs]; rewrite ?execs_app, ?X; cbn.
    all: first [ left; reflexivity | right; do 2 eexists; reflexivity ].
  - unfold_monad. cbn. repeat (first [rewrite Tk | break_match]; cbn).
    all: exists (inl (TypeError "this.dependencies is undefined")), None, 0%nat;
      rewrite Nat.add_0_r; eexists; (split; [reflexivity|]).
    all: left; reflexivity.
  - unfold_monad. cbn. repeat (first [rewrite Tk | break_match]; cbn).
    all: exists (inr tt), d, 0%nat; rewrite Nat.add_0_r;
      eexists; (split; [reflexivity|]).
    all: left; reflexivity.
Qed.

Lemma Bundled_single_carries entity c m key :
  Bundled.apiKey (self m) = Some key ->
  exists d' n ev,
    Bundled.sendSingleHeartbeat node w entity c m
    = (inr tt, mkMachine (Bundled.withDependencies d' (self m)) (logLevel m) (ticks m + n), ev) /\
    (execs ev = [] \/
     exists cli time,
       execs ev = [(cli, ["--entity"; entity; "--time"; time; "--write"],
                    Some [("WAKATIME_API_KEY", key)])]).
Proof.
  unfold Bundled.sendSingleHeartbeat, Bundled.onDependencies.
  destruct m as [[o d l e wd k] lv t]. intros K. cbn in K. subst k.
  destruct (Bundled_getCli_shape node w o {| self := d; logLevel := lv; ticks := t |})
    as (p & d' & ev & E & X).
  destruct (Js.truthy key) eqn:Tk.
  - unfold_monad. cbn.
    repeat (first [rewrite E | rewrite Tk | break_match]; cbn).
    all: exists d'.
    all: first [ exists 0%nat; rewrite Nat.add_0_r; eexists; split; [reflexivity|]
               | exists 1%nat; rewrite Nat.add_1_r; eexists; split; [reflexivity|] ].
    all: cbn [execs]; rewrite ?execs_app, ?X; cbn.
    all: first [ left; reflexivity | right; do 2 eexists; reflexivity ].
  - unfold_monad. cbn. rewrite Tk. cbn.
    exists d, 0%nat. rewrite Nat.add_0_r. eexists. split; [reflexivity|]. now left.
Qed.

Local Transparent Tracker.getCliLocation Bundled.getCliLocation.

Lemma carries_one key paths entity ev :
  In entity paths ->
  (execs ev = [] \/
   exists cli time,
     execs ev = [(cli, ["--entity"; entity; "--time"; time; "--write"],
                  Some [("WAKATIME_API_KEY", key)])]) ->
  Forall (Trace.carries key paths) (execs ev).
Proof.
  intros I [->|(cli & time & ->)]; constructor; [|constructor].
  split; [|reflexivity]. now exists entity, time.
Qed.

Lemma Tracker_loop_carries es :
  forall m key paths,
    Tracker.apiKey (self m) = Some key ->
    incl (Js.keys es) paths ->
    Forall (Trace.carries key paths)
      (execs (events
         (for_of es (fun '(entity, changes) =>
                       Tracker.sendSingleHeartbeat node w entity changes) m))).
Proof.
  induction es as [|[entity c] es IH]; intros m key paths K I; [constructor|].
  destruct (Tracker_single_carries entity c m key K) as (r & d1 & n & ev1 & E1 & C1).
  cbn [for_of]. unfold bind. rewrite E1.
  assert (I1 : In entity paths) by (apply I; now left).
  assert (I2 : incl (Js.keys es) paths) by (intros x Hx; apply I; now right).
  destruct r as [err|[]]; [exact (carries_one key paths entity ev1 I1 C1)|].
  specialize (IH (mkMachine (Tracker.withDependencies d1 (self m)) (logLevel m) (ticks m + n))
                 key paths K I2).
  destruct (for_of es _ _) as [[r2 m2] ev2]. cbn [events snd] in *.
  rewrite execs_app. apply Forall_app. split; [|exact IH].
  exact (carries_one key paths entity ev1 I1 C1).
Qed.

Lemma Bundled_loop_carries es :
  forall m key paths,
    Bundled.apiKey (self m) = Some key ->
    incl (Js.keys es) paths ->
    Forall (Trace.carries key paths)
      (execs (events
         (for_of es (fun '(entity, changes) =>
                       Bundled.sendSingleHeartbeat node w entity changes) m))).
Proof.
  induction es as [|[entity c] es IH]; intros m key paths K I; [constructor|].
  destruct (Bundled_single_carries entity c m key K) as (d1 & n & ev1 & E1 & C1).
  cbn [for_of]. unfold bind. rewrite E1.
  assert (I1 : In entity paths) by (apply I; now left).
  assert (I2 : incl (Js.keys es) paths) by (intros x Hx; apply I; now right).
  specialize (IH (mkMachine (Bundled.withDependencies d1 (self m)) (logLevel m) (ticks m + n))
                 key paths K I2).
  destruct (for_of es _ _) as [[r2 m2] ev2]. cbn [events snd] in *.
  rewrite execs_app. apply Forall_app. split; [|exact IH].
  exact (carries_one key paths entity ev1 I1 C1).
Qed.

End Carrying.

(** ** X8 *)

(** X8. Every execution of a flush is a heartbeat for one of the pending
    paths, with the arguments [--entity path --time t --write], and hands
    the CLI the API key of the tracker in [WAKATIME_API_KEY], which is all
    its environment argument holds. *)
Theorem flush_calls_carry_the_key :
  forall node w key,
    (forall m,
       Tracker.apiKey (self m) = Some key ->
       Forall (Trace.carries key (Js.keys (Tracker.fileEntities (self m))))
              (execs (events (Tracker.sendHeartbeat node w m)))) /\
    (forall m,
       Bundled.apiKey (self m) = Some key ->
       Forall (Trace.carries key (Js.keys (Bundled.fileEntities (self m))))
              (execs (events (Bundled.sendHeartbeat node w m)))).
Proof.
  intros node w key. split; intros m K.
  - pose proof (Tracker_loop_carries node w (Tracker.fileEntities (self m)) m key _ K
                  (incl_refl _)) as L.
    unfold Tracker.sendHeartbeat, Tracker.sendHeartbeats, Tracker.clearEntities.
    unfold bind at 1. unfold bind at 1. unfold gets at 1. cbn [app].
    destruct (for_of _ _ m) as [[[err|[]] m1] ev]; cbn [events snd] in *.
    + exact L.
    + unfold_monad. cbn. now rewrite !app_nil_r.
  - pose proof (Bundled_loop_carries node w (Bundled.fileEntities (self m)) m key _ K
                  (incl_refl _)) as L.
    unfold Bundled.sendHeartbeat, Bundled.sendHeartbeats.
    unfold bind at 1. unfold bind at 1. unfold gets at 1. cbn [app].
    destruct (for_of _ _ m) as [[[err|[]] m1] ev]; cbn [events snd] in *.
    + exact L.
    + unfold_monad. cbn. now rewrite !app_nil_r.
Qed.

Lemma flush_calls_carry_the_key_witness :
  let w := Example.installed 1700000000000 in
  let pending := [("/w/foo.txt", 3%Z); ("/w/bar.txt", 1%Z)] in
  let m := Example.start (Example.tracker 0 pending) in
  let b := Example.start (Example.bundle 0 pending) in
  Tracker.apiKey (self m) = Some "a" /\
  Bundled.apiKey (self b) = Some "a" /\
  Forall (Trace.carries "a" ["/w/foo.txt"; "/w/bar.txt"])
         (execs (events (Tracker.sendHeartbeat Example.posix w m))) /\
  Forall (Trace.carries "a" ["/w/foo.txt"; "/w/bar.txt"])
         (execs (events (Bundled.sendHeartbeat Example.posix w b))) /\
  List.length (execs (events (Tracker.sendHeartbeat Example.posix w m))) = 2%nat.
Proof.
  cbv zeta. split; [reflexivity|]. split; [reflexivity|]. split; [|split].
  - exact (proj1 (flush_calls_carry_the_key Example.posix
                    (Example.installed 1700000000000) "a")
             (Example.start (Example.tracker 0 [("/w/foo.txt", 3%Z); ("/w/bar.txt", 1%Z)]))
             eq_refl).
  - exact (proj2 (flush_calls_carry_the_key Example.posix
                    (Example.installed 1700000000000) "a")
             (Example.start (Example.bundle 0 [("/w/foo.txt", 3%Z); ("/w/bar.txt", 1%Z)]))
             eq_refl).
  - reflexivity.
Defined.

(** ** X9 *)

(** X9. The sixty seconds count from the end of a flush.  After
    [sendHeartbeat] the time of the last flush is the last reading of the
    clock the flush took, and an event whose reading of the clock is less
    than sixty seconds later executes nothing: it is noted on the empty
    list the flush left, and the time of the last flush stays. *)
Theorem event_soon_after_a_flush_waits :
  forall node w w' filePath operation lineChanges,
    (forall m,
       Flush.ready (self m) ->
       let x := Tracker.sendHeartbeat node w m in
       let flushed := clock w (pred (ticks (after x))) in
       fs_exists w' filePath = true ->
       (clock w' (ticks (after x)) < flushed + 60000)%Z ->
       let y := Tracker.trackFileEdit node w' filePath operation lineChanges (after x) in
       let path := Flush.fullPath node (Tracker.workingDirectory (self m)) filePath in
       Tracker.lastHeartbeatAt (self (after x)) = flushed /\
       outcome y = inr tt /\
       execs (events y) = [] /\
       Tracker.fileEntities (self (after y))
       = Flush.noted operation [] path (Flush.addedOr (Flush.lineCount w' path) lineChanges) /\
       Tracker.lastHeartbeatAt (self (after y)) = flushed) /\
    (forall m,
       let x := Bundled.sendHeartbeat node w m in
       let flushed := clock w (pred (ticks (after x))) in
       let path := Flush.fullPath node (Bundled.workingDirectory (self m)) filePath in
       fs_exists w' path = true ->
       (clock w' (ticks (after x)) < flushed + 60000)%Z ->
       let y := Bundled.trackFileEdit node w' filePath operation lineChanges (after x) in
       Bundled.lastHeartbeatAt (self (after x)) = flushed /\
       outcome y = inr tt /\
       execs (events y) = [] /\
       Bundled.fileEntities (self (after y))
       = Flush.noted operation [] path (Flush.addedOr 1 lineChanges) /\
       Bundled.lastHeartbeatAt (self (after y)) = flushed).
Proof.
  intros node w w' filePath operation lineChanges. split; intros m.
  - intros R. cbv zeta.
    pose proof (ready_sendHeartbeat node w m R) as R'.
    destruct (Tracker_flush_shape node w m R) as (d' & n & ev & E & _ & _).
    rewrite E in *. cbn [after fst snd ticks pred self Tracker.lastHeartbeatAt
                         Tracker.withLastHeartbeatAt] in *.
    intros X D.
    assert (D' : Flush.due (clock w' (S (ticks m + n))) (clock w (ticks m + n)) = false).
    { unfold Flush.due. apply Z.leb_gt. lia. }
    pose proof (Tracker_edit_idle node w' filePath operation lineChanges
                  (mkMachine
                     (Tracker.withLastHeartbeatAt (clock w (ticks m + n))
                        (Tracker.withFileEntities []
                           (Tracker.withDependencies d' (self m))))
                     (logLevel m) (S (ticks m + n)))
                  R' X D') as Q.
    cbv zeta in Q. rewrite Q. clear Q.
    cbn. destruct (Flush.isEdit operation && (lineChanges =? 0)%Z); repeat split; reflexivity.
  - cbv zeta.
    destruct (Bundled_flush_shape node w m) as (d' & n & ev & E & _).
    rewrite E in *. cbn [after fst snd ticks pred self Bundled.lastHeartbeatAt
                         Bundled.withLastHeartbeatAt] in *.
    intros X D.
    assert (D' : Flush.due (clock w' (S (ticks m + n))) (clock w (ticks m + n)) = false).
    { unfold Flush.due. apply Z.leb_gt. lia. }
    pose proof (Bundled_edit_idle node w' filePath operation lineChanges
                  (mkMachine
                     (Bundled.withLastHeartbeatAt (clock w (ticks m + n))
                        (Bundled.withFileEntities []
                           (Bundled.withDependencies d' (self m))))
                     (logLevel m) (S (ticks m + n)))
                  X D') as Q.
    cbv zeta in Q. rewrite Q. clear Q.
    cbn. repeat split; reflexivity.
Qed.

Lemma event_soon_after_a_flush_waits_witness :
  let w := Example.installed 1700000000000 in
  let w' := Example.installed 1700000059999 in
  let pending := [("/w/bar.txt", 2%Z)] in
  let m := Example.start (Example.tracker 0 pending) in
  let b := Example.start (Example.bundle 0 pending) in
  let x := Tracker.sendHeartbeat Example.posix w m in
  let z := Bundled.sendHeartbeat Example.posix w b in
  Flush.ready (self m) /\
  fs_exists w' "/w/foo.txt" = true /\
  (clock w' (ticks (after x)) < clock w (pred (ticks (after x))) + 60000)%Z /\
  (clock w' (ticks (after z)) < clock w (pred (ticks (after z))) + 60000)%Z /\
  execs (events (Tracker.trackFileEdit Example.posix w' "/w/foo.txt" "write" 0 (after x))) = [] /\
  execs (events (Bundled.trackFileEdit Example.posix w' "/w/foo.txt" "write" 0 (after z))) = [].
Proof.
  cbv zeta.
  assert (R : Flush.ready (Example.tracker 0 [("/w/bar.txt", 2%Z)]))
    by (intros _; discriminate).
  split; [exact R|]. split; [reflexivity|]. split; [reflexivity|]. split; [reflexivity|].
  split.
  - exact (proj1 (proj2 (proj2
             (proj1 (event_soon_after_a_flush_waits Example.posix
                       (Example.installed 1700000000000) (Example.installed 1700000059999)
                       "/w/foo.txt" "write" 0%Z)
                (Example.start (Example.tracker 0 [("/w/bar.txt", 2%Z)])) R
                eq_refl eq_refl)))).
  - exact (proj1 (proj2 (proj2
             (proj2 (event_soon_after_a_flush_waits Example.posix
                       (Example.installed 1700000000000) (Example.installed 1700000059999)
                       "/w/foo.txt" "write" 0%Z)
                (Example.start (Example.bundle 0 [("/w/bar.txt", 2%Z)]))
                eq_refl eq_refl)))).
Defined.

(* ===================================================================== *)
(** * Further properties: the CLI locator and the tool calls *)
(* ===================================================================== *)

Section Memo.
Variable node : Node.
Variables w0 w : World.

(** A place that a lookup returns is the place the object knows
    afterwards. *)
Lemma Tracker_lookup_memo (md : Machine Tracker.Dependencies) p :
  outcome (Tracker.getCliLocation node w0 md) = inr p ->
  Js.truthy p = true ->
  Tracker.cliLocation (self (after (Tracker.getCliLocation node w0 md))) = Some p.
Proof.
  unfold Tracker.getCliLocation, Tracker.locate. unfold_monad.
  destruct md as [[r c] lv t]. cbn.
  crunch; intros O T; cbn in *; congruence.
Qed.

Lemma Bundled_lookup_memo opts (md : Machine Bundled.Dependencies) p :
  outcome (Bundled.getCliLocation node w0 opts md) = inr p ->
  Js.truthy p = true ->
  Bundled.cliLocation (self (after (Bundled.getCliLocation node w0 opts md))) = Some p.
Proof.
  unfold Bundled.getCliLocation, Bundled.firstExisting. unfold_monad.
  destruct md as [[c] lv t]. cbn.
  crunch; intros O T; cbn in *; try congruence.
  all: injection O as <-; discriminate T.
Qed.

Lemma Tracker_lookup_known (md : Machine Tracker.Dependencies) p :
  Tracker.cliLocation (self md) = Some p ->
  Js.truthy p = true ->
  Tracker.getCliLocation node w md = (inr p, md, []).
Proof.
  unfold Tracker.getCliLocation. unfold_monad.
  destruct md as [[r c] lv t]. cbn. intros -> T. now rewrite T.
Qed.

Lemma Bundled_lookup_known opts (md : Machine Bundled.Dependencies) p :
  Bundled.cliLocation (self md) = Some p ->
  Js.truthy p = true ->
  Bundled.getCliLocation node w opts md = (inr p, md, []).
Proof.
  unfold Bundled.getCliLocation. unfold_monad.
  destruct md as [[c] lv t]. cbn. intros -> T. cbn. now rewrite T.
Qed.

End Memo.

(** ** X10 *)

(** X10. [getCliLocation] from start to memo.  An object that knows no
    place checks the three candidates in their order (the resources
    folder, [/opt/homebrew/bin], [/usr/local/bin]) up to the first that
    exists and returns that one.  A place it has returned is remembered:
    every later call returns it without any check, also when by then the
    file is gone or a candidate of higher rank has appeared. *)
Theorem getCliLocation_finds_first_and_remembers :
  forall node w0 w,
    (forall md,
       let x := Tracker.getCliLocation node w0 md in
       let cands := Flush.candidates node (Tracker.resourcesLocation (self md)) in
       (Js.truthyOpt (Tracker.cliLocation (self md)) = false ->
        outcome x = inr (Flush.firstExistingOr w0 cands) /\
        checks (events x) = Flush.upTo (fs_exists w0) cands) /\
       (forall p,
          outcome x = inr p -> Js.truthy p = true ->
          Tracker.getCliLocation node w (after x) = (inr p, after x, []))) /\
    (forall opts md,
       let x := Bundled.getCliLocation node w0 opts md in
       let cands := Flush.candidates node (Bundled._resourcesLocation opts) in
       (Js.truthyOpt (Bundled.cliLocation (self md)) = false ->
        outcome x = inr (Flush.firstExistingOr w0 cands) /\
        checks (events x) = Flush.upTo (fs_exists w0) cands) /\
       (forall p,
          outcome x = inr p -> Js.truthy p = true ->
          Bundled.getCliLocation node w opts (after x) = (inr p, after x, []))).
Proof.
  intros node w0 w. split.
  - intros md. cbv zeta. split.
    + intros F. destruct (Tracker_lookup_fresh node w0 md F) as (O & C & _). now split.
    + intros p O T. apply Tracker_lookup_known; [|exact T].
      now apply Tracker_lookup_memo.
  - intros opts md. cbv zeta. split.
    + intros F. destruct (Bundled_lookup_fresh node w0 opts md F) as (O & C). now split.
    + intros p O T. apply Bundled_lookup_known; [|exact T].
      now apply Bundled_lookup_memo.
Qed.

Lemma getCliLocation_finds_first_and_remembers_witness :
  let found := Example.installed 0 in
  let gone := Example.world [("/home/u/.wakatime/wakatime-cli", "cli")] 0 in
  let md := Example.start (Tracker.newDependencies Example.trackerOptions) in
  let bd := Example.start {| Bundled.cliLocation := None |} in
  let x := Tracker.getCliLocation Example.posix found md in
  let y := Bundled.getCliLocation Example.posix found Example.bundleOptions bd in
  Js.truthyOpt (Tracker.cliLocation (self md)) = false /\
  Js.truthyOpt (Bundled.cliLocation (self bd)) = false /\
  outcome x = inr "/usr/local/bin/wakatime-cli" /\
  outcome y = inr "/usr/local/bin/wakatime-cli" /\
  Js.truthy "/usr/local/bin/wakatime-cli" = true /\
  checks (events x)
  = ["/home/u/.wakatime/wakatime-cli"; "/opt/homebrew/bin/wakatime-cli";
     "/usr/local/bin/wakatime-cli"] /\
  fs_exists gone "/usr/local/bin/wakatime-cli" = false /\
  fs_exists gone "/home/u/.wakatime/wakatime-cli" = true /\
  Tracker.getCliLocation Example.posix gone (after x)
  = (inr "/usr/local/bin/wakatime-cli", after x, []) /\
  Bundled.getCliLocation Example.posix gone Example.bundleOptions (after y)
  = (inr "/usr/local/bin/wakatime-cli", after y, []).
Proof.
  cbv zeta.
  pose proof (getCliLocation_finds_first_and_remembers Example.posix (Example.installed 0)
                (Example.world [("/home/u/.wakatime/wakatime-cli", "cli")] 0)) as [T B].
  destruct (T (Example.start (Tracker.newDependencies Example.trackerOptions))) as [T1 T2].
  destruct (B Example.bundleOptions (Example.start {| Bundled.cliLocation := None |}))
    as [B1 B2].
  split; [reflexivity|]. split; [reflexivity|]. split; [reflexivity|].
  split; [reflexivity|]. split; [reflexivity|].
  split; [exact (proj2 (T1 eq_refl))|].
  split; [reflexivity|]. split; [reflexivity|].
  split; [exact (T2 _ eq_refl eq_refl)|exact (B2 _ eq_refl eq_refl)].
Defined.

(** ** X11 *)

(** X11. A tool that is none of the tracked ones is ignored whatever its
    arguments are, missing arguments included: [trackToolUsage] returns at
    once, calls the adapter for nothing and leaves the tracker as it is.
    tracker.ts tracks [read], [write] and [edit]; the bundle tracks
    [read_file], [write_file] and [replace] too. *)
Theorem untracked_tools_are_ignored :
  forall node w toolName args output,
    (~ In toolName ["read"; "write"; "edit"] ->
     forall m, Tracker.trackToolUsage node w toolName args output m = (inr tt, m, [])) /\
    (~ In toolName ["read"; "read_file"; "write"; "write_file"; "edit"; "replace"] ->
     forall m, Bundled.trackToolUsage node w toolName args output m = (inr tt, m, [])).
Proof.
  intros node w toolName args output.
  assert (Ne : forall s l, ~ In toolName l -> In s l -> String.eqb toolName s = false).
  { intros s l N I. apply String.eqb_neq. intros ->. now apply N. }
  split; intros N m.
  - unfold Tracker.trackToolUsage.
    rewrite (Ne "read" _ N), (Ne "write" _ N), (Ne "edit" _ N) by (cbn; tauto).
    reflexivity.
  - unfold Bundled.trackToolUsage.
    rewrite (Ne "read" _ N), (Ne "read_file" _ N), (Ne "write" _ N), (Ne "write_file" _ N),
      (Ne "edit" _ N), (Ne "replace" _ N) by (cbn; tauto).
    cbn [orb].
    destruct (negb (Js.truthyV args)); [reflexivity|].
    destruct (Bundled.pathOf args); try reflexivity.
    now destruct (negb (Js.truthy s)).
Qed.

Lemma untracked_tools_are_ignored_witness :
  let w := Example.installed 1700000000000 in
  let m := Example.start (Example.tracker 0 [("/w/bar.txt", 2%Z)]) in
  let b := Example.start (Example.bundle 0 [("/w/bar.txt", 2%Z)]) in
  let args := Js.VObj [("filePath", Js.VStr "/w/foo.txt")] in
  ~ In "bash" ["read"; "write"; "edit"] /\
  ~ In "bash" ["read"; "read_file"; "write"; "write_file"; "edit"; "replace"] /\
  Tracker.trackToolUsage Example.posix w "bash" Js.VUndefined Js.VUndefined m = (inr tt, m, []) /\
  Bundled.trackToolUsage Example.posix w "bash" args Js.VUndefined b = (inr tt, b, []).
Proof.
  cbv zeta.
  assert (N1 : ~ In "bash" ["read"; "write"; "edit"]).
  { intros [H|[H|[H|[]]]]; discriminate H. }
  assert (N2 : ~ In "bash" ["read"; "read_file"; "write"; "write_file"; "edit"; "replace"]).
  { intros [H|[H|[H|[H|[H|[H|[]]]]]]]; discriminate H. }
  split; [exact N1|]. split; [exact N2|]. split.
  - exact (proj1 (untracked_tools_are_ignored Example.posix
                    (Example.installed 1700000000000) "bash" Js.VUndefined Js.VUndefined)
             N1 _).
  - exact (proj2 (untracked_tools_are_ignored Example.posix
                    (Example.installed 1700000000000) "bash"
                    (Js.VObj [("filePath", Js.VStr "/w/foo.txt")]) Js.VUndefined)
             N2 _).
Defined.

(** ** X12 *)

Section BundledReturns.
Variable node : Node.
Variable w : World.

(** [trackFileEdit] of the bundle returns, and what is pending afterwards
    is what was noted, or nothing after a flush. *)
Lemma Bundled_trackFileEdit_returns filePath operation lineChanges m :
  let x := Bundled.trackFileEdit node w filePath operation lineChanges m in
  let path := Flush.fullPath node (Bundled.workingDirectory (self m)) filePath in
  outcome x = inr tt /\
  (Bundled.fileEntities (self (after x)) = Bundled.fileEntities (self m) \/
   Bundled.fileEntities (self (after x))
   = Flush.noted operation (Bundled.fileEntities (self m)) path (Flush.addedOr 1 lineChanges) \/
   Bundled.fileEntities (self (after x)) = []).
Proof.
  cbv zeta.
  destruct (fs_exists w (Flush.fullPath node (Bundled.workingDirectory (self m)) filePath))
    eqn:X.
  - destruct (Flush.due (clock w (ticks m)) (Bundled.lastHeartbeatAt (self m))) eqn:D.
    + destruct (Bundled_edit_due node w filePath operation lineChanges m X D)
        as (d' & n & ev & -> & _).
      cbn. auto.
    + rewrite (Bundled_edit_idle node w filePath operation lineChanges m X D). cbn. auto.
  - rewrite (Bundled_edit_missing node w filePath operation lineChanges m X). cbn. auto.
Qed.

Lemma Bundled_trackToolUsage_returns toolName args output m :
  outcome (Bundled.trackToolUsage node w toolName args output m) = inr tt.
Proof.
  unfold Bundled.trackToolUsage.
  destruct (negb (Js.truthyV args)); [reflexivity|].
  destruct (Bundled.pathOf args); try reflexivity.
  destruct (negb (Js.truthy s)); [reflexivity|].
  destruct (_ || _); [apply Bundled_trackFileEdit_returns|].
  destruct (_ || _); [apply Bundled_trackFileEdit_returns|reflexivity].
Qed.

End BundledReturns.

(** X12. In the bundle the tools [read_file], [write_file] and [replace]
    are handled as [read] is: [trackToolUsage] passes [write_file] and
    [replace] on as the operation, and [trackFileEdit] files a change for
    [write] and [edit] only.  So these calls never add to what is pending:
    afterwards it is as it was, or empty when the call flushed. *)
Theorem bundle_tool_aliases_file_nothing :
  forall node w toolName args output m,
    In toolName ["read"; "read_file"; "write_file"; "replace"] ->
    let x := Bundled.trackToolUsage node w toolName args output m in
    x = Bundled.trackToolUsage node w "read" args output m /\
    outcome x = inr tt /\
    (Bundled.fileEntities (self (after x)) = Bundled.fileEntities (self m) \/
     Bundled.fileEntities (self (after x)) = []).
Proof.
  intros node w toolName args output m I. cbv zeta.
  assert (E : Bundled.trackToolUsage node w toolName args output m
              = Bundled.trackToolUsage node w "read" args output m).
  { unfold Bundled.trackToolUsage.
    destruct (negb (Js.truthyV args)); [reflexivity|].
    destruct (Bundled.pathOf args); try reflexivity.
    destruct (negb (Js.truthy s)); [reflexivity|].
    destruct I as [<-|[<-|[<-|[<-|[]]]]]; reflexivity. }
  rewrite E. split; [reflexivity|]. split; [apply Bundled_trackToolUsage_returns|].
  unfold Bundled.trackToolUsage.
  destruct (negb (Js.truthyV args)); [now left|].
  destruct (Bundled.pathOf args); try (now left).
  destruct (negb (Js.truthy s)); [now left|]. cbn [String.eqb Ascii.eqb Bool.eqb orb].
  destruct (Bundled_trackFileEdit_returns node w s "read" 0 m) as (_ & [H|[H|H]]); auto.
Qed.

Lemma bundle_tool_aliases_file_nothing_witness :
  let w := Example.installed 1700000030000 in
  let b := Example.start (Example.bundle 1700000000000 [("/w/bar.txt", 2%Z)]) in
  let args := Js.VObj [("file_path", Js.VStr "/w/foo.txt")] in
  In "write_file" ["read"; "read_file"; "write_file"; "replace"] /\
  fs_exists w "/w/foo.txt" = true /\
  Bundled.fileEntities
    (self (after (Bundled.trackToolUsage Example.posix w "write_file" args Js.VUndefined b)))
  = [("/w/bar.txt", 2%Z)] /\
  Bundled.fileEntities
    (self (after (Bundled.trackToolUsage Example.posix w "write" args Js.VUndefined b)))
  = [("/w/bar.txt", 2%Z); ("/w/foo.txt", 1%Z)].
Proof.
  cbv zeta.
  assert (I : In "write_file" ["read"; "read_file"; "write_file"; "replace"])
    by (right; right; left; reflexivity).
  split; [exact I|]. split; [reflexivity|]. split; [|reflexivity].
  rewrite (proj1 (bundle_tool_aliases_file_nothing Example.posix
                    (Example.installed 1700000030000) "write_file"
                    (Js.VObj [("file_path", Js.VStr "/w/foo.txt")]) Js.VUndefined
                    (Example.start (Example.bundle 1700000000000 [("/w/bar.txt", 2%Z)])) I)).
  reflexivity.
Defined.

(** ** X13 *)

(** X13. In tracker.ts a tool call whose arguments are an object with a
    [filePath] that is no string changes nothing: [trackToolUsage]
    returns, the tracker and the clock are as they were, and nothing is
    read or executed.  When the [filePath] is truthy and the tool is
    [read], [write] or [edit], the value is handed to [exists] of the
    adapter, once, and that is the only call of the adapter; when the
    adapter answers that it exists, [path.isAbsolute] throws a
    [TypeError], which the [catch] of [trackFileEdit] logs as an error.
    Otherwise nothing happens at all.  The adapter is taken to resolve
    [exists] for such a value, with the answer [fs_existsOther]. *)
Theorem trackToolUsage_with_a_path_that_is_no_string :
  forall node w toolName fs output m,
    Flush.notString (Js.field fs "filePath") ->
    let v := Js.field fs "filePath" in
    let x := Tracker.trackToolUsage node w toolName (Js.VObj fs) output m in
    outcome x = inr tt /\
    after x = m /\
    events x
    = (if Js.truthyV v
          && (String.eqb toolName "read" || String.eqb toolName "write"
              || String.eqb toolName "edit")
       then EvExistsOther v
            :: (if fs_existsOther w v
                then [EvConsole ERROR
                        [Txt "Failed to track file operation: ";
                         Err (TypeError "The 'path' argument must be of type string")]]
                else [])
       else []) /\
    execs (events x) = [] /\
    checks (events x) = [] /\
    (Js.truthyV v = false -> events x = []).
Proof.
  intros node w toolName fs output m N. cbv zeta.
  destruct (Js.truthyV (Js.field fs "filePath")) eqn:T.
  - unfold Tracker.trackToolUsage, Tracker.filePathOf, Tracker.trackFileEditOf.
    unfold_monad. unfold log.
    destruct m as [t lv k].
    destruct (String.eqb toolName "read");
      destruct (String.eqb toolName "write");
      destruct (String.eqb toolName "edit");
      cbn; rewrite ?T; cbn.
    all: destruct (Js.field fs "filePath") eqn:F; try destruct N; cbn.
    all: try discriminate T.
    all: try (destruct (fs_existsOther w _)); destruct lv; cbn.
    all: repeat split; try reflexivity; discriminate.
  - rewrite (Tracker_trackToolUsage_no_filePath node w toolName fs output m T).
    cbn. repeat split; reflexivity.
Qed.

Lemma trackToolUsage_with_a_path_that_is_no_string_witness :
  let w := Example.installed 1700000000000 in
  let m := Example.start (Example.tracker 0 [("/w/bar.txt", 2%Z)]) in
  let fs := [("filePath", Js.VNum 7)] in
  Flush.notString (Js.field fs "filePath") /\
  after (Tracker.trackToolUsage Example.posix w "write" (Js.VObj fs) Js.VUndefined m) = m /\
  events (Tracker.trackToolUsage Example.posix w "write" (Js.VObj fs) Js.VUndefined m)
  = [EvExistsOther (Js.VNum 7)].
Proof.
  cbv zeta. split; [exact I|].
  destruct (trackToolUsage_with_a_path_that_is_no_string Example.posix
              (Example.installed 1700000000000) "write"
              [("filePath", Js.VNum 7)] Js.VUndefined
              (Example.start (Example.tracker 0 [("/w/bar.txt", 2%Z)])) I)
    as (_ & A & E & _).
  split; [exact A|exact E].
Defined.

(* ===================================================================== *)
(** * Further properties: what is pending, the status, the hooks *)
(* ===================================================================== *)

Lemma in_keys_map_set {V} (m : Js.Map V) k v x :
  In x (Js.keys (Js.map_set m k v)) <-> In x (Js.keys m) \/ x = k.
Proof.
  rewrite keys_map_set. destruct (existsb (String.eqb k) (Js.keys m)) eqn:E.
  - split; [now left|]. intros [H| ->]; [exact H|].
    apply existsb_exists in E as (y & I & Q). apply String.eqb_eq in Q. now subst y.
  - rewrite in_app_iff. cbn. intuition.
Qed.

Lemma count_noted_other operation entries path added other :
  other <> path ->
  Flush.count (Flush.noted operation entries path added) other = Flush.count entries other.
Proof.
  intros N. unfold Flush.noted, Flush.filed, Flush.count.
  destruct (Flush.isEdit operation); [|reflexivity].
  rewrite map_get_set_other; [reflexivity|]. intros E. now apply N.
Qed.

Lemma keys_noted_other operation entries path added other :
  other <> path ->
  In other (Js.keys (Flush.noted operation entries path added)) <-> In other (Js.keys entries).
Proof.
  intros N. unfold Flush.noted, Flush.filed.
  destruct (Flush.isEdit operation); [|reflexivity].
  rewrite in_keys_map_set. split; [intros [H|H]; [exact H|contradiction]|now left].
Qed.

(** ** X14 *)

(** X14. An event that does not flush touches the count of its own path
    only: every other path is pending exactly when it was before, with the
    count it had before. *)
Theorem event_leaves_the_other_paths :
  forall node w filePath operation lineChanges other,
    (forall m,
       Flush.ready (self m) ->
       Flush.due (clock w (ticks m)) (Tracker.lastHeartbeatAt (self m)) = false ->
       other <> Flush.fullPath node (Tracker.workingDirectory (self m)) filePath ->
       let x := Tracker.trackFileEdit node w filePath operation lineChanges m in
       Flush.count (Tracker.fileEntities (self (after x))) other
       = Flush.count (Tracker.fileEntities (self m)) other /\
       (In other (Js.keys (Tracker.fileEntities (self (after x))))
        <-> In other (Js.keys (Tracker.fileEntities (self m))))) /\
    (forall m,
       Flush.due (clock w (ticks m)) (Bundled.lastHeartbeatAt (self m)) = false ->
       other <> Flush.fullPath node (Bundled.workingDirectory (self m)) filePath ->
       let x := Bundled.trackFileEdit node w filePath operation lineChanges m in
       Flush.count (Bundled.fileEntities (self (after x))) other
       = Flush.count (Bundled.fileEntities (self m)) other /\
       (In other (Js.keys (Bundled.fileEntities (self (after x))))
        <-> In other (Js.keys (Bundled.fileEntities (self m))))).
Proof.
  intros node w filePath operation lineChanges other. split; intros m.
  - intros R D N. cbv zeta. destruct (fs_exists w filePath) eqn:X.
    + rewrite (Tracker_edit_idle node w filePath operation lineChanges m R X D). cbn.
      split; [now apply count_noted_other|now apply keys_noted_other].
    + rewrite (Tracker_edit_missing node w filePath operation lineChanges m X).
      split; reflexivity.
  - intros D N. cbv zeta.
    destruct (fs_exists w (Flush.fullPath node (Bundled.workingDirectory (self m)) filePath))
      eqn:X.
    + rewrite (Bundled_edit_idle node w filePath operation lineChanges m X D). cbn.
      split; [now apply count_noted_other|now apply keys_noted_other].
    + rewrite (Bundled_edit_missing node w filePath operation lineChanges m X).
      split; reflexivity.
Qed.

Lemma event_leaves_the_other_paths_witness :
  let w := Example.installed 1700000030000 in
  let pending := [("/w/bar.txt", 2%Z)] in
  let m := Example.start (Example.tracker 1700000000000 pending) in
  let b := Example.start (Example.bundle 1700000000000 pending) in
  let x := Tracker.trackFileEdit Example.posix w "/w/foo.txt" "write" 0 m in
  let y := Bundled.trackFileEdit Example.posix w "/w/foo.txt" "write" 0 b in
  Flush.ready (self m) /\
  Flush.due (clock w (ticks m)) (Tracker.lastHeartbeatAt (self m)) = false /\
  "/w/bar.txt" <> Flush.fullPath Example.posix "/w" "/w/foo.txt" /\
  Flush.count (Tracker.fileEntities (self (after x))) "/w/bar.txt" = 2%Z /\
  Flush.count (Bundled.fileEntities (self (after y))) "/w/bar.txt" = 2%Z /\
  Tracker.fileEntities (self (after x)) = [("/w/bar.txt", 2%Z); ("/w/foo.txt", 3%Z)].
Proof.
  cbv zeta.
  assert (R : Flush.ready (Example.tracker 1700000000000 [("/w/bar.txt", 2%Z)]))
    by (intros _; discriminate).
  assert (N : "/w/bar.txt" <> Flush.fullPath Example.posix "/w" "/w/foo.txt")
    by discriminate.
  split; [exact R|]. split; [reflexivity|]. split; [exact N|].
  split; [|split; [|reflexivity]].
  - exact (proj1 (proj1 (event_leaves_the_other_paths Example.posix
                           (Example.installed 1700000030000) "/w/foo.txt" "write" 0%Z
                           "/w/bar.txt")
                    (Example.start (Example.tracker 1700000000000 [("/w/bar.txt", 2%Z)]))
                    R eq_refl N)).
  - exact (proj1 (proj2 (event_leaves_the_other_paths Example.posix
                           (Example.installed 1700000030000) "/w/foo.txt" "write" 0%Z
                           "/w/bar.txt")
                    (Example.start (Example.bundle 1700000000000 [("/w/bar.txt", 2%Z)]))
                    eq_refl N)).
Defined.

(** ** X15 *)

(** X15. Changes add up.  Two writes or edits of one file, neither of
    which flushes, leave its count at what it was plus what the first added
    plus what the second added, each its hint or, for the hint 0, its
    fallback (in tracker.ts the lines of the file as it is at that event,
    in the bundle 1); nothing is executed. *)
Theorem edits_add_up :
  forall node w1 w2 filePath op1 op2 hint1 hint2,
    Flush.isEdit op1 = true ->
    Flush.isEdit op2 = true ->
    (forall m,
       Flush.ready (self m) ->
       fs_exists w1 filePath = true ->
       fs_exists w2 filePath = true ->
       Flush.due (clock w1 (ticks m)) (Tracker.lastHeartbeatAt (self m)) = false ->
       Flush.due (clock w2 (S (ticks m))) (Tracker.lastHeartbeatAt (self m)) = false ->
       let x := Tracker.trackFileEdit node w1 filePath op1 hint1 m in
       let y := Tracker.trackFileEdit node w2 filePath op2 hint2 (after x) in
       let path := Flush.fullPath node (Tracker.workingDirectory (self m)) filePath in
       Flush.count (Tracker.fileEntities (self (after y))) path
       = (Flush.count (Tracker.fileEntities (self m)) path
          + Flush.addedOr (Flush.lineCount w1 path) hint1
          + Flush.addedOr (Flush.lineCount w2 path) hint2)%Z /\
       execs (events x) = [] /\ execs (events y) = []) /\
    (forall m,
       let path := Flush.fullPath node (Bundled.workingDirectory (self m)) filePath in
       fs_exists w1 path = true ->
       fs_exists w2 path = true ->
       Flush.due (clock w1 (ticks m)) (Bundled.lastHeartbeatAt (self m)) = false ->
       Flush.due (clock w2 (S (ticks m))) (Bundled.lastHeartbeatAt (self m)) = false ->
       let x := Bundled.trackFileEdit node w1 filePath op1 hint1 m in
       let y := Bundled.trackFileEdit node w2 filePath op2 hint2 (after x) in
       Flush.count (Bundled.fileEntities (self (after y))) path
       = (Flush.count (Bundled.fileEntities (self m)) path
          + Flush.addedOr 1 hint1 + Flush.addedOr 1 hint2)%Z /\
       execs (events x) = [] /\ execs (events y) = []).
Proof.
  intros node w1 w2 filePath op1 op2 hint1 hint2 I1 I2. split; intros m.
  - intros R X1 X2 D1 D2. cbv zeta.
    rewrite (Tracker_edit_idle node w1 filePath op1 hint1 m R X1 D1).
    cbn [after fst snd events].
    pose proof (Tracker_edit_idle node w2 filePath op2 hint2
                  (mkMachine
                     (Tracker.withFileEntities
                        (Flush.noted op1 (Tracker.fileEntities (self m))
                           (Flush.fullPath node (Tracker.workingDirectory (self m)) filePath)
                           (Flush.addedOr
                              (Flush.lineCount w1
                                 (Flush.fullPath node (Tracker.workingDirectory (self m))
                                    filePath)) hint1))
                        (self m))
                     (logLevel m) (S (ticks m)))
                  R X2 D2) as Q.
    cbv zeta in Q. rewrite Q. clear Q. cbn.
    unfold Flush.noted. rewrite I1, I2, !count_filed.
    split; [reflexivity|]. split.
    + now destruct (hint1 =? 0)%Z.
    + now destruct (hint2 =? 0)%Z.
  - cbv zeta. intros X1 X2 D1 D2.
    rewrite (Bundled_edit_idle node w1 filePath op1 hint1 m X1 D1).
    cbn [after fst snd events].
    pose proof (Bundled_edit_idle node w2 filePath op2 hint2
                  (mkMachine
                     (Bundled.withFileEntities
                        (Flush.noted op1 (Bundled.fileEntities (self m))
                           (Flush.fullPath node (Bundled.workingDirectory (self m)) filePath)
                           (Flush.addedOr 1 hint1))
                        (self m))
                     (logLevel m) (S (ticks m)))
                  X2 D2) as Q.
    cbv zeta in Q. rewrite Q. clear Q. cbn.
    unfold Flush.noted. rewrite I1, I2, !count_filed.
    repeat split; reflexivity.
Qed.

Lemma edits_add_up_witness :
  let w1 := Example.installed 1700000010000 in
  let w2 := Example.world
              [("/w/foo.txt", Example.joinWith Example.nl ["one"; "two"; "three"; "four"])]
              1700000020000 in
  let m := Example.start (Example.tracker 1700000000000 [("/w/foo.txt", 10%Z)]) in
  let b := Example.start (Example.bundle 1700000000000 [("/w/foo.txt", 10%Z)]) in
  let x := Tracker.trackFileEdit Example.posix w1 "/w/foo.txt" "write" 0 m in
  let y := Tracker.trackFileEdit Example.posix w2 "/w/foo.txt" "edit" 0 (after x) in
  let x' := Bundled.trackFileEdit Example.posix w1 "/w/foo.txt" "write" 0 b in
  let y' := Bundled.trackFileEdit Example.posix w2 "/w/foo.txt" "edit" 5 (after x') in
  Flush.isEdit "write" = true /\ Flush.isEdit "edit" = true /\
  Flush.ready (self m) /\
  fs_exists w1 "/w/foo.txt" = true /\ fs_exists w2 "/w/foo.txt" = true /\
  Flush.due (clock w1 0) 1700000000000 = false /\
  Flush.due (clock w2 1) 1700000000000 = false /\
  Flush.count (Tracker.fileEntities (self (after y))) "/w/foo.txt" = (10 + 3 + 4)%Z /\
  Flush.count (Bundled.fileEntities (self (after y'))) "/w/foo.txt" = (10 + 1 + 5)%Z.
Proof.
  cbv zeta.
  assert (R : Flush.ready (Example.tracker 1700000000000 [("/w/foo.txt", 10%Z)]))
    by (intros _; discriminate).
  split; [reflexivity|]. split; [reflexivity|]. split; [exact R|].
  split; [reflexivity|]. split; [reflexivity|]. split; [reflexivity|].
  split; [reflexivity|]. split.
  - exact (proj1 (proj1 (edits_add_up Example.posix
                           (Example.installed 1700000010000)
                           (Example.world
                              [("/w/foo.txt",
                                Example.joinWith Example.nl ["one"; "two"; "three"; "four"])]
                              1700000020000)
                           "/w/foo.txt" "write" "edit" 0%Z 0%Z eq_refl eq_refl)
                    (Example.start (Example.tracker 1700000000000 [("/w/foo.txt", 10%Z)]))
                    R eq_refl eq_refl eq_refl eq_refl)).
  - exact (proj1 (proj2 (edits_add_up Example.posix
                           (Example.installed 1700000010000)
                           (Example.world
                              [("/w/foo.txt",
                                Example.joinWith Example.nl ["one"; "two"; "three"; "four"])]
                              1700000020000)
                           "/w/foo.txt" "write" "edit" 0%Z 5%Z eq_refl eq_refl)
                    (Example.start (Example.bundle 1700000000000 [("/w/foo.txt", 10%Z)]))
                    eq_refl eq_refl eq_refl eq_refl)).
Defined.

(** ** The status *)

Section StatusFacts.
Variable node : Node.
Variable w : World.

Lemma Tracker_isCliInstalled_shape (md : Machine Tracker.Dependencies) :
  exists b d' ev,
    Tracker.isCliInstalled node w md = (inr b, mkMachine d' (logLevel md) (ticks md), ev) /\
    execs ev = [].
Proof.
  unfold Tracker.isCliInstalled.
  destruct (Tracker_getCli_shape node w md) as (p & d' & ev & E & X).
  unfold bind. rewrite E.
  destruct (Js.truthy p); unfold_monad; cbn.
  - do 3 eexists. split; [reflexivity|]. rewrite execs_app, X. reflexivity.
  - do 3 eexists. split; [reflexivity|]. rewrite execs_app, X. reflexivity.
Qed.

Lemma Bundled_isCliInstalled_shape opts (md : Machine Bundled.Dependencies) :
  exists b d' ev,
    Bundled.isCliInstalled node w opts md
    = (inr b, mkMachine d' (logLevel md) (ticks md), ev) /\
    execs ev = [].
Proof.
  unfold Bundled.isCliInstalled.
  destruct (Bundled_getCli_shape node w opts md) as (p & d' & ev & E & X).
  unfold bind. rewrite E. unfold_monad.
  do 3 eexists. split; [reflexivity|]. rewrite execs_app, X. reflexivity.
Qed.

Local Opaque Tracker.getCliLocation Tracker.isCliInstalled.
Local Opaque Bundled.getCliLocation Bundled.isCliInstalled.

Lemma Tracker_getStatus_shape toISOString m d :
  Tracker.dependencies (self m) = Some d ->
  exists d' ev report,
    TrackerMore.getStatus node w toISOString m
    = (match toISOString (Tracker.lastHeartbeatAt (self m)) with
       | inl e => inl e
       | inr iso => inr (report iso)
       end,
       mkMachine (Tracker.withDependencies (Some d') (self m)) (logLevel m) (ticks m),
       ev) /\
    execs ev = [].
Proof.
  unfold TrackerMore.getStatus, Tracker.onDependencies.
  destruct m as [[o d0 l e wd k] lv tk]. cbn [self Tracker.dependencies]. intros ->.
  destruct (Tracker_getCli_shape node w (mkMachine d lv tk)) as (p & d1 & ev1 & E1 & X1).
  destruct (Tracker_isCliInstalled_shape (mkMachine d1 lv tk)) as (b & d2 & ev2 & E2 & X2).
  unfold_monad. cbn. rewrite E1. cbn. rewrite E2. cbn.
  exists d2, (ev1 ++ ev2).
  destruct (toISOString l) as [err|iso] eqn:T.
  - exists (fun _ => ""). cbn. split; [now rewrite !app_nil_r|].
    now rewrite execs_app, X1, X2.
  - eexists (fun iso => _). cbn. split; [rewrite !app_nil_r; reflexivity|].
    now rewrite execs_app, X1, X2.
Qed.

Lemma Bundled_getStatus_shape m :
  exists d' ev report,
    BundledMore.getStatus node w m
    = (inr report,
       mkMachine (Bundled.withDependencies d' (self m)) (logLevel m) (ticks m), ev) /\
    execs ev = [].
Proof.
  unfold BundledMore.getStatus, Bundled.onDependencies.
  destruct m as [[o d l e wd k] lv tk].
  destruct (Bundled_isCliInstalled_shape o (mkMachine d lv tk)) as (b & d1 & ev1 & E1 & X1).
  destruct (Bundled_getCli_shape node w o (mkMachine d1 lv tk)) as (p & d2 & ev2 & E2 & X2).
  unfold_monad. cbn. rewrite E1. cbn. rewrite E2. cbn.
  exists d2, (ev1 ++ ev2). eexists. split; [rewrite !app_nil_r; reflexivity|].
  now rewrite execs_app, X1, X2.
Qed.

Local Transparent Tracker.getCliLocation Tracker.isCliInstalled.
Local Transparent Bundled.getCliLocation Bundled.isCliInstalled.

End StatusFacts.

(** ** X16 *)

(** X16. [getStatus] reports and leaves the tracking alone: it executes
    nothing, reads no clock, and what is pending, the time of the last
    flush and the API key are afterwards as they were.  In tracker.ts it
    answers [Initializing...] without a call of the adapter as long as
    [initialize] has not set the dependencies, and later returns its report
    whenever the date of the last flush can be printed; the bundle always
    returns its report. *)
Theorem getStatus_leaves_the_tracking_alone :
  forall node w toISOString,
    (forall m,
       let x := TrackerMore.getStatus node w toISOString m in
       execs (events x) = [] /\
       ticks (after x) = ticks m /\
       Tracker.fileEntities (self (after x)) = Tracker.fileEntities (self m) /\
       Tracker.lastHeartbeatAt (self (after x)) = Tracker.lastHeartbeatAt (self m) /\
       Tracker.apiKey (self (after x)) = Tracker.apiKey (self m) /\
       match Tracker.dependencies (self m) with
       | None => x = (inr "Initializing...", m, [])
       | Some _ =>
           match toISOString (Tracker.lastHeartbeatAt (self m)) with
           | inl e => outcome x = inl e
           | inr _ => exists report, outcome x = inr report
           end
       end) /\
    (forall m,
       let x := BundledMore.getStatus node w m in
       (exists report, outcome x = inr report) /\
       execs (events x) = [] /\
       ticks (after x) = ticks m /\
       Bundled.fileEntities (self (after x)) = Bundled.fileEntities (self m) /\
       Bundled.lastHeartbeatAt (self (after x)) = Bundled.lastHeartbeatAt (self m) /\
       Bundled.apiKey (self (after x)) = Bundled.apiKey (self m)).
Proof.
  intros node w toISOString. split; intros m; cbv zeta.
  - destruct (Tracker.dependencies (self m)) as [d|] eqn:D.
    + destruct (Tracker_getStatus_shape node w toISOString m d D)
        as (d' & ev & report & -> & X).
      cbn. repeat split; trivial.
      destruct (toISOString _); [reflexivity|]. now eexists.
    + unfold TrackerMore.getStatus. unfold bind, gets. rewrite D. cbn.
      repeat split; reflexivity.
  - destruct (Bundled_getStatus_shape node w m) as (d' & ev & report & -> & X).
    cbn. repeat split; trivial. now exists report.
Qed.

(** ** The hooks *)

Section HookFacts.
Variable node : Node.
Variable w : World.

Lemma Plugin_event_returns event m : outcome (Plugin.event node w event m) = inr tt.
Proof.
  unfold Plugin.event.
  destruct (negb (Js.truthyV event)); [reflexivity|].
  destruct (Plugin.prop event "type"); try reflexivity.
  destruct (String.eqb s "file.edited"); [|reflexivity].
  destruct (Plugin.prop (Plugin.prop event "properties") "file"); try reflexivity.
  destruct (Js.truthy s0); [|reflexivity].
  apply Bundled_trackFileEdit_returns.
Qed.

Lemma Plugin_tool_returns i o m :
  o <> Js.VUndefined -> o <> Js.VNull ->
  outcome (Plugin.tool_execute_before node w i o m) = inr tt.
Proof.
  intros U N. unfold Plugin.tool_execute_before.
  destruct (_ || _); [reflexivity|].
  destruct o; try contradiction.
  all: destruct (Plugin.prop i "tool"); try reflexivity.
  all: apply Bundled_trackToolUsage_returns.
Qed.

End HookFacts.

(** ** X17 *)

(** X17. The hooks of the plugin do not reject.  The [event] hook returns
    for every value of the [event] it is handed, [tool.execute.before] for
    every input and every output that is not [undefined] or [null],
    [session.idle] always; and the [try] around [initialize] never reaches
    its [catch]. *)
Theorem hooks_do_not_reject :
  forall node w,
    (forall event m, outcome (Plugin.event node w event m) = inr tt) /\
    (forall i o m,
       o <> Js.VUndefined -> o <> Js.VNull ->
       outcome (Plugin.tool_execute_before node w i o m) = inr tt) /\
    (forall m, outcome (Plugin.session_idle node w m) = inr tt) /\
    (forall m,
       Plugin.start node w m = Bundled.initialize node w m /\
       outcome (Plugin.start node w m) = inr tt).
Proof.
  intros node w. split; [|split; [|split]].
  - apply Plugin_event_returns.
  - apply Plugin_tool_returns.
  - intros m. unfold Plugin.session_idle.
    destruct (Bundled_flush_shape node w m) as (d' & n & ev & -> & _). reflexivity.
  - intros m. unfold Plugin.start, try_catch.
    destruct (Bundled_initialize_shape node w m) as (o & d & ev & -> & _).
    split; reflexivity.
Qed.

Lemma hooks_do_not_reject_witness :
  let w := Example.installed 1700000000000 in
  let b := Example.start (Example.bundle 0 [("/w/bar.txt", 2%Z)]) in
  let i := Js.VObj [("tool", Js.VStr "write")] in
  let o := Js.VObj [("args", Js.VObj [("filePath", Js.VStr "/w/foo.txt")])] in
  o <> Js.VUndefined /\ o <> Js.VNull /\
  outcome (Plugin.tool_execute_before Example.posix w i o b) = inr tt /\
  execs (events (Plugin.tool_execute_before Example.posix w i o b))
  = [Example.call "/w/bar.txt" "1700000000"; Example.call "/w/foo.txt" "1700000000"] /\
  outcome (Plugin.tool_execute_before Example.posix w i Js.VUndefined b)
  = inl (TypeError "Cannot read properties of undefined (reading 'args')").
Proof.
  cbv zeta.
  assert (U : Js.VObj [("args", Js.VObj [("filePath", Js.VStr "/w/foo.txt")])]
              <> Js.VUndefined) by discriminate.
  assert (N : Js.VObj [("args", Js.VObj [("filePath", Js.VStr "/w/foo.txt")])]
              <> Js.VNull) by discriminate.
  split; [exact U|]. split; [exact N|]. split; [|split; reflexivity].
  exact (proj1 (proj2 (hooks_do_not_reject Example.posix (Example.installed 1700000000000)))
           (Js.VObj [("tool", Js.VStr "write")]) _
           (Example.start (Example.bundle 0 [("/w/bar.txt", 2%Z)])) U N).
Defined.

(** ** X18 *)

(** X18. The [event] hook tracks file edits and nothing else.  An event
    of the type [file.edited] whose [properties.file] is a string that is
    not empty is [trackFileEdit(file, 'edit')]: when the file exists and no
    flush is due, the count of its path goes up by one and nothing is
    executed.  An event of another type does nothing at all. *)
Theorem event_hook_counts_file_edits :
  forall node w fields,
    (forall properties file m,
       Js.field fields "type" = Js.VStr "file.edited" ->
       Js.field fields "properties" = Js.VObj properties ->
       Js.field properties "file" = Js.VStr file ->
       Js.truthy file = true ->
       let x := Plugin.event node w (Js.VObj fields) m in
       let path := Flush.fullPath node (Bundled.workingDirectory (self m)) file in
       x = Bundled.trackFileEdit node w file "edit" 0 m /\
       (fs_exists w path = true ->
        Flush.due (clock w (ticks m)) (Bundled.lastHeartbeatAt (self m)) = false ->
        Flush.count (Bundled.fileEntities (self (after x))) path
        = (Flush.count (Bundled.fileEntities (self m)) path + 1)%Z /\
        execs (events x) = [])) /\
    (forall m,
       Js.field fields "type" <> Js.VStr "file.edited" ->
       Plugin.event node w (Js.VObj fields) m = (inr tt, m, [])).
Proof.
  intros node w fields. split.
  - intros properties file m T P F N. cbv zeta.
    assert (E : Plugin.event node w (Js.VObj fields) m
                = Bundled.trackFileEdit node w file "edit" 0 m).
    { unfold Plugin.event, Plugin.prop. cbn [Js.truthyV negb].
      rewrite T, P, F, N. reflexivity. }
    rewrite E. split; [reflexivity|]. intros X D.
    rewrite (Bundled_edit_idle node w file "edit" 0 m X D). cbn.
    split; [|reflexivity]. apply count_filed.
  - intros m T. unfold Plugin.event, Plugin.prop. cbn [Js.truthyV negb].
    destruct (Js.field fields "type") as [| | | |s|]; try reflexivity.
    destruct (String.eqb_spec s "file.edited") as [->|]; [now destruct T|reflexivity].
Qed.

Lemma event_hook_counts_file_edits_witness :
  let w := Example.installed 1700000030000 in
  let b := Example.start (Example.bundle 1700000000000 [("/w/foo.txt", 4%Z)]) in
  let properties := [("file", Js.VStr "foo.txt")] in
  let edited := [("type", Js.VStr "file.edited"); ("properties", Js.VObj properties)] in
  let other := [("type", Js.VStr "session.updated"); ("properties", Js.VObj properties)] in
  Js.field edited "type" = Js.VStr "file.edited" /\
  Js.field edited "properties" = Js.VObj properties /\
  Js.field properties "file" = Js.VStr "foo.txt" /\
  Js.truthy "foo.txt" = true /\
  fs_exists w (Flush.fullPath Example.posix "/w" "foo.txt") = true /\
  Js.field other "type" <> Js.VStr "file.edited" /\
  Bundled.fileEntities (self (after (Plugin.event Example.posix w (Js.VObj edited) b)))
  = [("/w/foo.txt", 5%Z)] /\
  Plugin.event Example.posix w (Js.VObj other) b = (inr tt, b, []).
Proof.
  cbv zeta.
  assert (N : Js.field [("type", Js.VStr "session.updated");
                        ("properties", Js.VObj [("file", Js.VStr "foo.txt")])] "type"
              <> Js.VStr "file.edited") by discriminate.
  split; [reflexivity|]. split; [reflexivity|]. split; [reflexivity|].
  split; [reflexivity|]. split; [reflexivity|]. split; [exact N|]. split.
  - rewrite (proj1 (proj1 (event_hook_counts_file_edits Example.posix
                             (Example.installed 1700000030000)
                             [("type", Js.VStr "file.edited");
                              ("properties", Js.VObj [("file", Js.VStr "foo.txt")])])
                      [("file", Js.VStr "foo.txt")] "foo.txt"
                      (Example.start (Example.bundle 1700000000000 [("/w/foo.txt", 4%Z)]))
                      eq_refl eq_refl eq_refl eq_refl)).
    reflexivity.
  - exact (proj2 (event_hook_counts_file_edits Example.posix
                    (Example.installed 1700000030000)
                    [("type", Js.VStr "session.updated");
                     ("properties", Js.VObj [("file", Js.VStr "foo.txt")])])
             (Example.start (Example.bundle 1700000000000 [("/w/foo.txt", 4%Z)])) N).
Defined.

(* ===================================================================== *)
(** * Further properties: the adapter of the plugin *)
(* ===================================================================== *)

Lemma noError_app a b : Trace.noError (a ++ b) = Trace.noError a && Trace.noError b.
Proof. apply forallb_app. Qed.

Section Resolving.
Variable node : Node.
Variable w : World.
Hypothesis resolves : forall cmd args env, exists r, proc_exec w cmd args env = inr r.

Lemma Bundled_getCli_noError opts (md : Machine Bundled.Dependencies) :
  exists p d' ev,
    Bundled.getCliLocation node w opts md
    = (inr p, mkMachine d' (logLevel md) (ticks md), ev) /\
    Trace.noError ev = true.
Proof.
  unfold Bundled.getCliLocation, Bundled.firstExisting. unfold_monad.
  destruct md as [[c] lv t]. cbn.
  crunch; do 3 eexists; split; reflexivity.
Qed.

Local Opaque Bundled.getCliLocation.

Lemma Bundled_single_noError entity c m :
  exists m' ev,
    Bundled.sendSingleHeartbeat node w entity c m = (inr tt, m', ev) /\
    Trace.noError ev = true.
Proof.
  unfold Bundled.sendSingleHeartbeat, Bundled.onDependencies.
  destruct m as [[o d l e wd k] lv t].
  destruct (Bundled_getCli_noError o {| self := d; logLevel := lv; ticks := t |})
    as (p & d' & ev & E & X).
  destruct k as [k|]; [destruct (Js.truthy k) eqn:Tk|].
  - unfold_monad. cbn.
    repeat (first [rewrite E | rewrite Tk | break_match]; cbn).
    all: try match goal with
             | H : proc_exec w ?a ?b ?c = inl _ |- _ =>
                 destruct (resolves a b c) as [r Hr]; rewrite Hr in H; discriminate H
             end.
    all: do 2 eexists; (split; [reflexivity|]).
    all: rewrite ?noError_app, ?X; reflexivity.
  - unfold_monad. cbn. rewrite Tk. cbn. do 2 eexists. split; reflexivity.
  - unfold_monad. cbn. do 2 eexists. split; reflexivity.
Qed.

Local Transparent Bundled.getCliLocation.

Lemma Bundled_loop_noError es :
  forall m,
    exists m' ev,
      for_of es (fun '(entity, changes) => Bundled.sendSingleHeartbeat node w entity changes) m
      = (inr tt, m', ev) /\
      Trace.noError ev = true.
Proof.
  induction es as [|[entity c] es IH]; intros m.
  - exists m, []. split; reflexivity.
  - destruct (Bundled_single_noError entity c m) as (m1 & ev1 & E1 & X1).
    destruct (IH m1) as (m2 & ev2 & E2 & X2).
    cbn [for_of]. unfold bind. rewrite E1, E2. exists m2, (ev1 ++ ev2).
    split; [reflexivity|]. now rewrite noError_app, X1, X2.
Qed.

Lemma Bundled_flush_noError m :
  Trace.noError (events (Bundled.sendHeartbeat node w m)) = true.
Proof.
  destruct (Bundled_loop_noError (Bundled.fileEntities (self m)) m) as (m' & ev & E & X).
  unfold Bundled.sendHeartbeat, Bundled.sendHeartbeats.
  unfold bind at 1. unfold bind at 1. unfold gets at 1.
  rewrite E. unfold_monad. cbn. now rewrite !app_nil_r.
Qed.

End Resolving.

(** ** X19 *)

(** X19. The adapter the plugin builds never rejects: [exec] hands a
    failed run back as output, the message of the error standing in for a
    missing stderr.  So the [catch] of [sendSingleHeartbeat] is never
    reached in the plugin: whatever the CLI does, a flush returns and
    writes no [Heartbeat failed] line, nor any other line of the level
    ERROR. *)
Theorem plugin_adapter_hides_failed_heartbeats :
  forall node sh other clock m,
    let w := Adapter.world sh other clock in
    let x := Bundled.sendHeartbeat node w m in
    outcome x = inr tt /\
    Trace.noError (events x) = true.
Proof.
  intros node sh other clock m. cbv zeta. split.
  - destruct (Bundled_flush_shape node (Adapter.world sh other clock) m)
      as (d' & n & ev & -> & _).
    reflexivity.
  - apply Bundled_flush_noError. intros cmd args env. eexists. reflexivity.
Qed.

(** A CLI that fails at every run, behind the adapter of the plugin and
    behind an adapter that rejects: the first flush is silent, the second
    logs the failure. *)
Example failed_heartbeat_is_hidden_by_the_adapter :
  let hidden := Adapter.still Adapter.failing in
  let rejecting :=
    {| fs_exists := fun _ => true;
       fs_existsOther := fun _ => false;
       fs_readFile := fun _ => None;
       proc_exec := fun _ _ _ => inl (Rejected "exit code 1");
       os_homedir := "/home/u";
       clock := fun _ => 1700000000000%Z |} in
  let b := Example.start (Example.bundle 0 [("/w/foo.txt", 3%Z)]) in
  proc_exec hidden "/usr/local/bin/wakatime-cli" [] None = inr ("", "exit code 1") /\
  List.length (execs (events (Bundled.sendHeartbeat Example.posix hidden b))) = 1%nat /\
  Trace.silent (events (Bundled.sendHeartbeat Example.posix hidden b)) = false /\
  Trace.noError (events (Bundled.sendHeartbeat Example.posix hidden b)) = true /\
  Trace.noError (events (Bundled.sendHeartbeat Example.posix rejecting b)) = false.
Proof. cbv zeta. repeat split; reflexivity. Qed.

(** ** X20 *)

(** X20. A configuration file that is there and cannot be read leaves the
    plugin without a key.  With the adapter of the plugin a failed [cat]
    reads as the empty string; [loadConfigs] caches it, [getSetting] takes
    the empty text for no text, and [initialize] ends with no API key, so
    that no heartbeat will be sent. *)
Theorem unreadable_config_leaves_no_key :
  forall node sh other clock m,
    let w := Adapter.world sh other clock in
    let file := Bundled.configFile (Bundled.options (self m)) in
    Adapter.exists_ sh file = true ->
    (exists o e msg, Adapter.cat sh file = Adapter.Failed o e msg) ->
    let x := Bundled.initialize node w m in
    outcome x = inr tt /\
    Js.map_get (Bundled.configCache (Bundled.options (self (after x)))) file = Some "" /\
    Bundled.apiKey (self (after x)) = None /\
    execs (events (Bundled.sendHeartbeat node w (after x))) = [].
Proof.
  intros node sh other clock m. cbv zeta. intros X (o & e & msg & C).
  destruct (Bundled_initialize_shape node (Adapter.world sh other clock) m)
    as (o' & d & ev & E & _ & F & G).
  rewrite F in G. unfold Config.loaded in G. cbn in G.
  rewrite X in G. unfold Adapter.readFile in G. rewrite C in G.
  assert (K : Bundled.getSetting o' "settings" "api_key" = None).
  { unfold Bundled.getSetting. rewrite F, G. reflexivity. }
  rewrite E. cbn [outcome after fst snd self Bundled.options Bundled.apiKey].
  split; [reflexivity|]. split; [exact G|]. split; [exact K|].
  rewrite K. now rewrite Bundled_flush_nokey.
Qed.

Lemma unreadable_config_leaves_no_key_witness :
  let w := Adapter.still Adapter.unreadable in
  let m := Example.start (Bundled.newTracker Example.posix w "/w") in
  Bundled.configFile (Bundled.options (self m)) = "/home/u/.wakatime.cfg" /\
  Adapter.exists_ Adapter.unreadable "/home/u/.wakatime.cfg" = true /\
  (exists o e msg,
     Adapter.cat Adapter.unreadable "/home/u/.wakatime.cfg" = Adapter.Failed o e msg) /\
  Bundled.apiKey (self (after (Bundled.initialize Example.posix w m))) = None.
Proof.
  cbv zeta. split; [reflexivity|]. split; [reflexivity|].
  assert (C : exists o e msg,
            Adapter.cat Adapter.unreadable "/home/u/.wakatime.cfg" = Adapter.Failed o e msg)
    by (do 3 eexists; reflexivity).
  split; [exact C|].
  exact (proj1 (proj2 (proj2
           (unreadable_config_leaves_no_key Example.posix Adapter.unreadable
              (fun _ => false) (fun _ => 1700000000000%Z)
              (Example.start
                 (Bundled.newTracker Example.posix (Adapter.still Adapter.unreadable) "/w"))
              eq_refl C)))).
Defined.
